(** * Retail ETL pipeline ([src/etl_pipeline.py]): a shallow embedding

  The development follows the layout of the Python module:

  - [Py]: the Python exceptions the pipeline raises and catches, and the
    result type that stands for "returns a value or raises";
  - [Float64]: IEEE-754 binary64, the payload of pandas' [float64] columns,
    taken from the Standard Library's executable specification;
  - [Pandas]: the data frames and the pandas operations the pipeline calls
    ([duplicated], [drop_duplicates], [dropna], [to_datetime], [*],
    [to_numeric], [>], boolean indexing, [iloc]) and the effect of a
    [to_sql] call on a destination table;
  - the class [RetailETLPipeline]: [connect_database], [extract],
    [transform], [load], [run], [validate_data], written in a small
    state-and-exception monad over the pipeline object, the destination
    database and the log ([_load_config] and [main], which read the
    environment and the command line, are not part of it: the
    configuration is taken as given);
  - the properties of the specification, proved about these definitions. *)

From Stdlib Require Import ZArith String List Bool Lia.
From Stdlib Require Import Floats.SpecFloat.
From stdpp Require Import base option list strings gmap.

Open Scope Z_scope.

(** ** Python: exceptions and results *)

Module Py.

(** The exception classes that occur in the pipeline.  All of them derive
    from [Exception], so every [except Exception] clause catches them. *)
Inductive exn : Type :=
| KeyError (key : string)
| ValueError (msg : string)
| TypeError (msg : string)
| RuntimeError (msg : string)
| ZeroDivisionError
| OSError (msg : string)
| SQLAlchemyError (msg : string).

Inductive result (A : Type) : Type :=
| Ok (a : A)
| Raise (e : exn).
Arguments Ok {A} a.
Arguments Raise {A} e.

Definition result_bind {A B} (f : A -> result B) (r : result A) : result B :=
  match r with
  | Ok a => f a
  | Raise e => Raise e
  end.

#[global] Instance result_mbind : MBind result := @result_bind.
#[global] Instance result_mret : MRet result := @Ok.

(** [[f(x) for x in xs]], stopping at the first exception. *)
Fixpoint mapM {A B} (f : A -> result B) (xs : list A) : result (list B) :=
  match xs with
  | [] => Ok []
  | x :: xs' =>
      match f x with
      | Ok y =>
          match mapM f xs' with
          | Ok ys => Ok (y :: ys)
          | Raise e => Raise e
          end
      | Raise e => Raise e
      end
  end.

(** [a // b] and [a % b] on Python integers: floor division, the sign of
    the remainder follows the divisor, a zero divisor raises. *)
Definition floordiv (a b : Z) : result Z :=
  if b =? 0 then Raise ZeroDivisionError else Ok (a / b).

Definition pymod (a b : Z) : result Z :=
  if b =? 0 then Raise ZeroDivisionError else Ok (a mod b).

(** [range(start, stop, step)] as the list of the values it yields. *)
Definition range (start stop step : Z) : result (list Z) :=
  if step =? 0 then Raise (ValueError "range() arg 3 must not be zero")
  else if 0 <? step then
    Ok (map (fun k : nat => start + Z.of_nat k * step)
            (seq 0 (Z.to_nat ((stop - start + step - 1) / step))))
  else
    Ok (map (fun k : nat => start + Z.of_nat k * step)
            (seq 0 (Z.to_nat ((start - stop - step - 1) / (- step))))).

(** [s.endswith(suffix)]. *)
Definition endswith (s suffix : string) : bool :=
  let n := String.length s in
  let m := String.length suffix in
  if (m <=? n)%nat then String.eqb (substring (n - m) m s) suffix else false.

(** [s * n] on a string: [n] copies of [s], none when [n <= 0]. *)
Fixpoint str_repeat (s : string) (n : nat) : string :=
  match n with
  | O => ""
  | S n' => s ++ str_repeat s n'
  end%string.

Definition str_mul (s : string) (n : Z) : string := str_repeat s (Z.to_nat n).

End Py.
Export Py.

(** ** binary64 *)

Module Float64.

Abbreviation float64 := spec_float.

Definition prec : Z := 53.
Definition emax : Z := 1024.

Definition nan : float64 := S754_nan.
Definition zero : float64 := S754_zero false.

Definition is_nan (f : float64) : bool :=
  match f with
  | S754_nan => true
  | _ => false
  end.

Definition mul (x y : float64) : float64 := SFmul prec emax x y.
Definition ltb (x y : float64) : bool := SFltb x y.

(** Conversion of an [int64] to [float64] (round to nearest, ties to even). *)
Definition of_int (z : Z) : float64 := binary_normalize prec emax z 0 false.

(** The equality pandas' hash tables use on [float64] keys:
    [a == b or (a != a and b != b)], so all NaNs are one key and
    [0.0] and [-0.0] are one key. *)
Definition key_eqb (x y : float64) : bool :=
  SFeqb x y || (is_nan x && is_nan y).

End Float64.

(** ** pandas *)

Module Pandas.
Import Float64.

(** A cell of a data frame.  The missing-value marker of numeric and
    object columns is the float NaN; that of datetime columns is [NaT].
    Integers are [int64]; timestamps are nanoseconds since the epoch
    ([datetime64[ns]]).  Boolean cells are not modelled. *)
Inductive cell : Type :=
| Int (z : Z)
| Float (f : float64)
| Str (s : string)
| Timestamp (ns : Z)
| NaT.

Definition NaN : cell := Float nan.

(** A row maps column names to cells; a frame is the ordered list of its
    column names and the ordered list of its rows.  (The row labels of the
    pandas index play no part in the pipeline: every Series the pipeline
    assigns or uses as a mask is computed from the very frame it is used
    on, so index alignment is the identity, and [to_sql] is called with
    [index=False].) *)
Abbreviation row := (gmap string cell).

Record DataFrame : Type := mkDataFrame {
  columns : list string;
  rows : list row
}.

Abbreviation Series := (list cell).

(** [len(df)] *)
Definition len (df : DataFrame) : Z := Z.of_nat (length (rows df)).

(** [df.copy()]: frames are values here. *)
Definition copy (df : DataFrame) : DataFrame := df.

(** [col in df.columns] *)
Definition has_column (col : string) (df : DataFrame) : bool :=
  bool_decide (col ∈ columns df).

(** The cell of a row under a column (NaN when the row has none). *)
Definition get (r : row) (col : string) : cell := default NaN (r !! col).

(** [pd.isna] on a cell. *)
Definition isna (c : cell) : bool :=
  match c with
  | Float f => is_nan f
  | NaT => true
  | _ => false
  end.

Definition notna (c : cell) : bool := negb (isna c).

(** [df[col]] *)
Definition getitem (df : DataFrame) (col : string) : result Series :=
  if has_column col df then Ok (map (fun r => get r col) (rows df))
  else Raise (KeyError col).

(** [df[col] = values]: an existing column is overwritten in place, a new
    one is added as the last column. *)
Definition setitem (df : DataFrame) (col : string) (values : Series)
  : result DataFrame :=
  if bool_decide (length values = length (rows df)) then
    Ok {| columns := if has_column col df then columns df
                     else columns df ++ [col];
          rows := zip_with (fun r v => <[col := v]> r) (rows df) values |}
  else Raise (ValueError "Length of values does not match length of index").

(** [df[mask]] with a boolean Series. *)
Fixpoint select_rows (rs : list row) (mask : list bool) : list row :=
  match rs, mask with
  | r :: rs', b :: mask' =>
      if b then r :: select_rows rs' mask' else select_rows rs' mask'
  | _, _ => []
  end.

Definition bool_index (df : DataFrame) (mask : list bool) : DataFrame :=
  {| columns := columns df; rows := select_rows (rows df) mask |}.

(** *** Duplicates *)

(** Equality of two cells as keys of pandas' hash tables.  Cells of
    different kinds are different keys. *)
Definition cell_eqb (a b : cell) : bool :=
  match a, b with
  | Int x, Int y => x =? y
  | Float f, Float g => key_eqb f g
  | Str s, Str t => String.eqb s t
  | Timestamp x, Timestamp y => x =? y
  | NaT, NaT => true
  | _, _ => false
  end.

(** Full-row equality: equal under every column of the frame. *)
Definition row_eqb (cols : list string) (r1 r2 : row) : bool :=
  forallb (fun c => cell_eqb (get r1 c) (get r2 c)) cols.

(** [df.duplicated()] ([keep='first']): rows are visited in order and each
    is looked up in the table of the keys seen so far; a row found there is
    flagged, a row not found is entered. *)
Fixpoint duplicated_from (cols : list string) (seen : list row)
    (rs : list row) : list bool :=
  match rs with
  | [] => []
  | r :: rs' =>
      if existsb (fun k => row_eqb cols k r) seen
      then true :: duplicated_from cols seen rs'
      else false :: duplicated_from cols (r :: seen) rs'
  end.

Definition duplicated (df : DataFrame) : list bool :=
  duplicated_from (columns df) [] (rows df).

(** [df.drop_duplicates()], which pandas defines as
    [df[~df.duplicated()]]. *)
Definition drop_duplicates (df : DataFrame) : DataFrame :=
  bool_index df (map negb (duplicated df)).

(** [mask.sum()] on a boolean Series. *)
Definition count_true (mask : list bool) : Z :=
  Z.of_nat (length (filter (fun b => b = true) mask)).

(** *** Missing values *)

(** [df.dropna(subset=labels)]: labels that are not columns raise
    [KeyError] (pandas names them all, the first is kept here); a row is
    kept when none of its cells under the labels is missing. *)
Definition dropna (subset : list string) (df : DataFrame) : result DataFrame :=
  match filter (fun c => ¬ (c ∈ columns df)) subset with
  | c :: _ => Raise (KeyError c)
  | [] =>
      Ok (bool_index df
            (map (fun r => forallb (fun c => notna (get r c)) subset)
                 (rows df)))
  end.

(** [df.isnull().sum().to_dict()] *)
Definition null_counts (df : DataFrame) : gmap string Z :=
  list_to_map
    (map (fun c => (c, count_true (map (fun r => isna (get r c)) (rows df))))
         (columns df)).

(** *** Element types *)

Inductive dtype : Type := int64 | float64_ | datetime64 | object.

Definition is_int (c : cell) : bool :=
  match c with Int _ => true | _ => false end.
Definition is_float (c : cell) : bool :=
  match c with Float _ => true | _ => false end.
Definition is_datetime (c : cell) : bool :=
  match c with Timestamp _ | NaT => true | _ => false end.

(** The dtype of a column holding the given cells. *)
Definition dtype_of (s : Series) : dtype :=
  match s with
  | [] => object
  | _ =>
      if forallb is_int s then int64
      else if forallb is_float s then float64_
      else if forallb is_datetime s then datetime64
      else object
  end.

(** [df.dtypes.to_dict()] *)
Definition dtypes (df : DataFrame) : gmap string dtype :=
  list_to_map
    (map (fun c => (c, dtype_of (map (fun r => get r c) (rows df))))
         (columns df)).

(** *** Arithmetic and comparison *)

Definition int64_min : Z := - 2 ^ 63.

(** [int64] arithmetic wraps around silently. *)
Definition wrap_int64 (z : Z) : Z := (z + 2 ^ 63) mod 2 ^ 64 - 2 ^ 63.

(** One element of [left * right].  Numbers multiply as numpy does
    ([int64 * int64] wraps, an integer next to a float is converted); a
    string times an integer is Python's repetition; a string next to a
    float or to another string is a [TypeError], except that pandas
    retries a failed object-dtype operation on the non-missing pairs
    only, which leaves NaN where either operand is NaN; datetime columns
    do not multiply. *)
Definition cell_mul (a b : cell) : result cell :=
  match a, b with
  | Int x, Int y => Ok (Int (wrap_int64 (x * y)))
  | Int x, Float g => Ok (Float (mul (of_int x) g))
  | Float f, Int y => Ok (Float (mul f (of_int y)))
  | Float f, Float g => Ok (Float (mul f g))
  | Str s, Int n => Ok (Str (str_mul s n))
  | Int n, Str s => Ok (Str (str_mul s n))
  | Str _, Float g | Float g, Str _ =>
      if is_nan g then Ok NaN
      else Raise (TypeError "can't multiply sequence by non-int of type 'float'")
  | Str _, Str _ =>
      Raise (TypeError "can't multiply sequence by non-int of type 'str'")
  | _, _ => Raise (TypeError "unsupported operand type(s) for *")
  end.

(** [left * right] on two Series of one frame. *)
Definition series_mul (left right : Series) : result Series :=
  mapM (fun p => cell_mul p.1 p.2) (zip left right).

(** One element of [series > 0]. *)
Definition cell_gt0 (c : cell) : result bool :=
  match c with
  | Int z => Ok (0 <? z)
  | Float f => Ok (ltb zero f)
  | Str _ => Raise (TypeError "'>' not supported between instances of 'str' and 'int'")
  | Timestamp _ | NaT =>
      Raise (TypeError "Invalid comparison between dtype=datetime64[ns] and int")
  end.

Definition series_gt0 (s : Series) : result (list bool) := mapM cell_gt0 s.

(** *** Destination tables *)

Inductive IfExists : Type := fail | replace | append.

(** One call [batch.to_sql(name, engine, if_exists=..., index=False)]. *)
Record sql_call : Type := mkCall {
  call_table : string;
  call_if_exists : IfExists;
  call_rows : list row
}.

Abbreviation database := (gmap string (list row)).


(** [df.iloc[start:stop]]: Python slice bounds, negative ones counted from
    the end, both clipped to the frame. *)
Definition slice_bound (n x : Z) : Z :=
  if x <? 0 then Z.max 0 (n + x) else Z.min x n.

Definition iloc (df : DataFrame) (start stop : Z) : DataFrame :=
  let a := slice_bound (len df) start in
  let b := slice_bound (len df) stop in
  {| columns := columns df;
     rows := take (Z.to_nat (b - a)) (drop (Z.to_nat a) (rows df)) |}.

(** The effect of one [to_sql] call on the destination, once the statement
    has reached it: with [fail] an existing table is an error, with
    [replace] the table is created anew, with [append] the rows are added
    to the table, which is created when it does not exist. *)
Definition sql_write (d : database) (c : sql_call) : result database :=
  match call_if_exists c, d !! call_table c with
  | fail, Some _ =>
      Raise (ValueError ("Table '" ++ call_table c ++ "' already exists."))
  | append, Some old => Ok (<[call_table c := old ++ call_rows c]> d)
  | _, _ => Ok (<[call_table c := call_rows c]> d)
  end.

(** *** Conversions that parse

    pandas parses text with its own date and number parsers and converts
    floats to nanosecond timestamps; they are taken as given. *)
Section Parsing.

Variable parse_datetime : string -> option Z.
Variable datetime_of_float : float64 -> option Z.
Variable parse_numeric : string -> option (Z + float64).

(** The texts [pd.to_datetime] reads as a missing date without parsing
    them: the empty text and pandas' [nat_strings]. *)
Definition nat_strings : list string :=
  ["NaT"; "nat"; "NAT"; "nan"; "NaN"; "NAN"]%string.

Definition is_nat_string (s : string) : bool :=
  String.eqb s "" || existsb (String.eqb s) nat_strings.

(** One element of [pd.to_datetime(series)] ([errors='raise']). *)
Definition to_datetime_scalar (c : cell) : result cell :=
  match c with
  | Timestamp t => Ok (Timestamp t)
  | NaT => Ok NaT
  | Int z => if z =? int64_min then Ok NaT else Ok (Timestamp z)
  | Float f =>
      if is_nan f then Ok NaT
      else match datetime_of_float f with
           | Some t => Ok (Timestamp t)
           | None => Raise (ValueError "Out of bounds nanosecond timestamp")
           end
  | Str s =>
      if is_nat_string s then Ok NaT
      else match parse_datetime s with
           | Some t => Ok (Timestamp t)
           | None => Raise (ValueError ("Unknown datetime string format, unable to parse: " ++ s))
           end
  end.

Definition to_datetime (s : Series) : result Series := mapM to_datetime_scalar s.

(** One element of [pd.to_numeric(series, errors='coerce')]: numbers stay,
    text is parsed and becomes NaN when it is not a number, a datetime
    column is viewed as its [int64] nanoseconds. *)
Definition to_numeric_scalar (c : cell) : cell :=
  match c with
  | Int z => Int z
  | Float f => Float f
  | Str s =>
      match parse_numeric s with
      | Some (inl z) => Int z
      | Some (inr f) => Float f
      | None => NaN
      end
  | Timestamp t => Int t
  | NaT => Int int64_min
  end.

Definition to_float (c : cell) : cell :=
  match c with
  | Int z => Float (of_int z)
  | _ => c
  end.

(** The converted column is [int64] when every element is an integer and
    [float64] otherwise. *)
Definition to_numeric (s : Series) : Series :=
  let values := map to_numeric_scalar s in
  if forallb is_int values then values else map to_float values.

End Parsing.

End Pandas.
Export Pandas.

(** ** The pipeline object, the world around it, and the monad of its methods *)

(** [self.config].  The keys are those [_load_config] fills in. *)
Record Config : Type := mkConfig {
  db_host : string;
  db_port : string;
  db_name : string;
  db_user : string;
  db_password : string;
  input_path : string;
  batch_size : Z
}.

(** A SQLAlchemy engine: a handle on the destination, made from a URL. *)
Record Engine : Type := mkEngine { url : string }.

(** The records written through [logger], one constructor per format
    string of the module. *)
Inductive level : Type := INFO | ERROR.

Inductive message : Type :=
| MsgInitialized
| MsgDbConnected
| MsgDbConnectFailed (e : exn)
| MsgExtractStart (source_path : string)
| MsgExtracted (n : Z) (source_path : string)
| MsgExtractError (e : exn)
| MsgTransformStart
| MsgRemovedDuplicates (n : Z)
| MsgTransformDone (n : Z)
| MsgTransformError (e : exn)
| MsgLoadStart (table_name : string)
| MsgLoadedBatch (batch_num total_batches : Z)
| MsgLoadDone (n : Z) (table_name : string)
| MsgLoadError (e : exn)
| MsgRule
| MsgPipelineStart
| MsgSource (source_path : string)
| MsgTarget (target_table : string)
| MsgPipelineDone
| MsgDuration
| MsgRecordsProcessed (n : Z)
| MsgPipelineFailed (e : exn).

(** The state the methods act on: the attributes of [self] that the
    methods read or write ([start_time] and [end_time], wall-clock values
    that influence no result, are left out), the destination database, the
    [to_sql] calls issued so far, and the log. *)
Record state : Type := mkState {
  self_config : Config;
  self_engine : option Engine;
  db : database;
  sql_log : list sql_call;
  log : list (level * message)
}.

(** A method either returns or raises, and leaves a state in both cases. *)
Definition M (A : Type) : Type := state -> result A * state.

Definition M_ret {A} (a : A) : M A := fun s => (Ok a, s).

Definition M_bind {A B} (k : A -> M B) (m : M A) : M B :=
  fun s =>
    match m s with
    | (Ok a, s') => k a s'
    | (Raise e, s') => (Raise e, s')
    end.

#[global] Instance M_mret : MRet M := @M_ret.
#[global] Instance M_mbind : MBind M := @M_bind.

Definition raise {A} (e : exn) : M A := fun s => (Raise e, s).

(** A pure step that may raise. *)
Definition lift {A} (r : result A) : M A := fun s => (r, s).

(** [try: body / except Exception as e: handler(e)] *)
Definition try_except {A} (body : M A) (handler : exn -> M A) : M A :=
  fun s =>
    match body s with
    | (Ok a, s') => (Ok a, s')
    | (Raise e, s') => handler e s'
    end.

(** [for x in xs: body(x)] *)
Fixpoint for_each {A} (xs : list A) (body : A -> M unit) : M unit :=
  match xs with
  | [] => M_ret tt
  | x :: xs' => M_bind (fun _ => for_each xs' body) (body x)
  end.

(** [for x in xs: acc = body(x, acc)] *)
Fixpoint for_fold {A B} (xs : list A) (acc : B) (body : A -> B -> M B) : M B :=
  match xs with
  | [] => M_ret acc
  | x :: xs' => M_bind (fun acc' => for_fold xs' acc' body) (body x acc)
  end.

Definition add_log (l : level) (m : message) (s : state) : state :=
  {| self_config := self_config s; self_engine := self_engine s;
     db := db s; sql_log := sql_log s; log := log s ++ [(l, m)] |}.

Definition logger_info (m : message) : M unit := fun s => (Ok tt, add_log INFO m s).
Definition logger_error (m : message) : M unit := fun s => (Ok tt, add_log ERROR m s).

Definition get_config : M Config := fun s => (Ok (self_config s), s).
Definition get_engine : M (option Engine) := fun s => (Ok (self_engine s), s).

Definition set_engine (e : option Engine) : M unit :=
  fun s =>
    (Ok tt, {| self_config := self_config s; self_engine := e;
               db := db s; sql_log := sql_log s; log := log s |}).

(** [RetailETLPipeline(config)] with a configuration given: no engine yet. *)
Definition init (config : Config) (d : database) : state :=
  add_log INFO MsgInitialized
    {| self_config := config; self_engine := None;
       db := d; sql_log := []; log := [] |}.

(** [validate_data]'s dictionary. *)
Record validation_results : Type := mkValidation {
  total_records : Z;
  missing_values : gmap string Z;
  duplicate_records : Z;
  columns_ : list string;
  data_types : gmap string dtype
}.

(** ** What the pipeline calls and does not define

    The parsers of pandas, the readers of files, the engine factory of
    SQLAlchemy and the failures of the destination (a lost connection, a
    rejected statement) are an interface the pipeline is used against.
    [sql_fault d c] is the exception, if any, with which the destination in
    state [d] refuses the call [c]. *)
Class Externals : Type := mkExternals {
  parse_datetime : string -> option Z;
  datetime_of_float : Float64.float64 -> option Z;
  parse_numeric : string -> option (Z + Float64.float64);
  read_csv : string -> result DataFrame;
  read_excel : string -> result DataFrame;
  create_engine : string -> result Engine;
  sql_fault : database -> sql_call -> option exn
}.

Section RetailETLPipeline.

Context {ext : Externals}.

(** What a [to_sql] call does to the destination.  Each call runs in a
    transaction of its own: it either commits its write or raises and
    leaves the destination as it was. *)
Definition sql_exec (d : database) (c : sql_call) : result database :=
  match sql_fault d c with
  | Some e => Raise e
  | None => sql_write d c
  end.

(** [batch.to_sql(table_name, con, if_exists=..., index=False)]: the call
    is recorded as issued, then carried out. *)
Definition to_sql (batch : DataFrame) (table_name : string) (con : Engine)
    (if_exists : IfExists) : M unit :=
  fun s =>
    let c := {| call_table := table_name; call_if_exists := if_exists;
                call_rows := rows batch |} in
    let issued := sql_log s ++ [c] in
    match sql_exec (db s) c with
    | Ok d' =>
        (Ok tt, {| self_config := self_config s; self_engine := self_engine s;
                   db := d'; sql_log := issued; log := log s |})
    | Raise e =>
        (Raise e, {| self_config := self_config s; self_engine := self_engine s;
                     db := db s; sql_log := issued; log := log s |})
    end.

(** [connect_database] *)
Definition connect_database : M bool :=
  try_except
    (cfg ← get_config;
     let connection_string :=
       ("postgresql://" ++ db_user cfg ++ ":" ++ db_password cfg
        ++ "@" ++ db_host cfg ++ ":" ++ db_port cfg ++ "/" ++ db_name cfg)%string in
     eng ← lift (create_engine connection_string);
     _ ← set_engine (Some eng);
     _ ← logger_info MsgDbConnected;
     mret true)
    (fun e =>
       _ ← logger_error (MsgDbConnectFailed e);
       mret false).

(** [extract] *)
Definition extract (source_path : string) : M DataFrame :=
  _ ← logger_info (MsgExtractStart source_path);
  try_except
    (df ← (if endswith source_path ".csv" then lift (read_csv source_path)
           else if endswith source_path ".xlsx" then lift (read_excel source_path)
           else raise (ValueError ("Unsupported file format: " ++ source_path)));
     _ ← logger_info (MsgExtracted (len df) source_path);
     mret df)
    (fun e =>
       _ ← logger_error (MsgExtractError e);
       raise e).

(** The steps of [transform], each a statement of the method. *)

(** [df_clean['date'] = pd.to_datetime(df_clean['date'])] *)
Definition convert_date (df_clean : DataFrame) : result DataFrame :=
  s ← getitem df_clean "date";
  d ← to_datetime parse_datetime datetime_of_float s;
  setitem df_clean "date" d.

(** [df_clean['total_amount'] = df_clean['quantity'] * df_clean['price']] *)
Definition derive_total_amount (df_clean : DataFrame) : result DataFrame :=
  q ← getitem df_clean "quantity";
  p ← getitem df_clean "price";
  t ← series_mul q p;
  setitem df_clean "total_amount" t.

(** [df_clean[col] = pd.to_numeric(df_clean[col], errors='coerce')] *)
Definition coerce_numeric (col : string) (df_clean : DataFrame) : result DataFrame :=
  s ← getitem df_clean col;
  setitem df_clean col (to_numeric parse_numeric s).

(** [df_clean = df_clean[df_clean[col] > 0]] *)
Definition keep_positive (col : string) (df_clean : DataFrame) : result DataFrame :=
  s ← getitem df_clean col;
  mask ← series_gt0 s;
  mret (bool_index df_clean mask).

(** [transform] *)
Definition transform (df : DataFrame) : M DataFrame :=
  _ ← logger_info MsgTransformStart;
  try_except
    (let df_clean := copy df in
     let initial_count := len df_clean in
     let df_clean := drop_duplicates df_clean in
     _ ← logger_info (MsgRemovedDuplicates (initial_count - len df_clean));
     df_clean ← lift (dropna ["transaction_id"; "date"]%string df_clean);
     df_clean ← (if has_column "date" df_clean
                 then lift (convert_date df_clean)
                 else mret df_clean);
     df_clean ← (if has_column "quantity" df_clean && has_column "price" df_clean
                 then lift (derive_total_amount df_clean)
                 else mret df_clean);
     let numeric_columns := ["quantity"; "price"]%string in
     df_clean ← for_fold numeric_columns df_clean
                  (fun col df_clean =>
                     if has_column col df_clean
                     then lift (coerce_numeric col df_clean)
                     else mret df_clean);
     df_clean ← (if has_column "quantity" df_clean
                 then lift (keep_positive "quantity" df_clean)
                 else mret df_clean);
     df_clean ← (if has_column "price" df_clean
                 then lift (keep_positive "price" df_clean)
                 else mret df_clean);
     _ ← logger_info (MsgTransformDone (len df_clean));
     mret df_clean)
    (fun e =>
       _ ← logger_error (MsgTransformError e);
       raise e).

(** The body of the loop of [load], at offset [i]. *)
Definition load_batch (df : DataFrame) (table_name : string)
    (if_exists : IfExists) (engine : Engine) (batch_size total_batches : Z)
    (i : Z) : M unit :=
  let batch := iloc df i (i + batch_size) in
  _ ← to_sql batch table_name engine (if i =? 0 then if_exists else append);
  let batch_num := i / batch_size + 1 in
  logger_info (MsgLoadedBatch batch_num total_batches).

(** [load] *)
Definition load (df : DataFrame) (table_name : string) (if_exists : IfExists)
  : M bool :=
  _ ← logger_info (MsgLoadStart table_name);
  try_except
    (engine ← get_engine;
     match engine with
     | None => raise (RuntimeError "Database connection not established")
     | Some engine =>
         cfg ← get_config;
         let batch_size := batch_size cfg in
         quotient ← lift (floordiv (len df) batch_size);
         remainder ← lift (pymod (len df) batch_size);
         let total_batches := quotient + (if remainder =? 0 then 0 else 1) in
         offsets ← lift (range 0 (len df) batch_size);
         _ ← for_each offsets
               (load_batch df table_name if_exists engine batch_size total_batches);
         _ ← logger_info (MsgLoadDone (len df) table_name);
         mret true
     end)
    (fun e =>
       _ ← logger_error (MsgLoadError e);
       mret false).

(** [run]; [load] is called with its default [if_exists='append'].  The
    two readings of the clock, into [start_time] and [end_time], and the
    duration they give are not modelled; the record that reports the
    duration is logged without it. *)
Definition run (source_path : string) (target_table : string) : M bool :=
  _ ← logger_info MsgRule;
  _ ← logger_info MsgPipelineStart;
  _ ← logger_info (MsgSource source_path);
  _ ← logger_info (MsgTarget target_table);
  _ ← logger_info MsgRule;
  try_except
    (connected ← connect_database;
     if negb connected then mret false
     else
       raw_data ← extract source_path;
       clean_data ← transform raw_data;
       success ← load clean_data target_table append;
       _ ← (if (success : bool)
            then
              (_ ← logger_info MsgRule;
               _ ← logger_info MsgPipelineDone;
               _ ← logger_info MsgDuration;
               _ ← logger_info (MsgRecordsProcessed (len clean_data));
               logger_info MsgRule) : M unit
            else mret tt);
       mret success)
    (fun e =>
       _ ← logger_error (MsgPipelineFailed e);
       mret false).

(** [validate_data] *)
Definition validate_data (df : DataFrame) : validation_results :=
  {| total_records := len df;
     missing_values := null_counts df;
     duplicate_records := count_true (duplicated df);
     columns_ := columns df;
     data_types := dtypes df |}.

End RetailETLPipeline.

(** ** Notions used to state the properties *)

(** The representative of a float among the keys equal to it: the two
    zeros are one key. *)
Definition float_key (f : Float64.float64) : Float64.float64 :=
  match f with
  | S754_zero _ => Float64.zero
  | _ => f
  end.

Definition cell_key (c : cell) : cell :=
  match c with
  | Float f => Float (float_key f)
  | _ => c
  end.

(** The key of a row: the keys of its cells, column by column. *)
Definition row_key (cols : list string) (r : row) : list cell :=
  map (fun c => cell_key (get r c)) cols.

(** A column of a numeric dtype: [int64] or [float64] throughout. *)
Definition numeric_series (s : Series) : bool :=
  forallb is_int s || forallb is_float s.

Definition column (df : DataFrame) (col : string) : Series :=
  map (fun r => get r col) (rows df).

(** A cell that passes the filter [> 0]. *)
Definition positive (c : cell) : bool :=
  match cell_gt0 c with
  | Ok b => b
  | Raise _ => false
  end.

(** A cell that is a number. *)
Definition is_number (c : cell) : bool := is_int c || is_float c.

(** Every cell of a column satisfies a test. *)
Definition all_cells (P : cell -> bool) (df : DataFrame) (col : string) : Prop :=
  forall r, r ∈ rows df -> P (get r col) = true.

(** No two rows at different positions are equal under the columns [cols]. *)
Definition distinct_rows (cols : list string) (rs : list row) : Prop :=
  forall (i j : nat) (ri rj : row),
    (i < j)%nat -> rs !! i = Some ri -> rs !! j = Some rj ->
    row_eqb cols ri rj = false.

(** The columns of a frame other than the derived one. *)
Definition source_columns (df : DataFrame) : list string :=
  filter (fun c => c ≠ "total_amount"%string) (columns df).

(** No row is flagged as a duplicate under the columns [cols]
    ([not df.duplicated(subset=cols).any()]). *)
Definition no_duplicates (cols : list string) (df : DataFrame) : bool :=
  forallb negb (duplicated_from cols [] (rows df)).

Definition is_timestamp (c : cell) : bool :=
  match c with Timestamp _ => true | _ => false end.

(** A column that is absent, or of a numeric dtype with positive values
    only. *)
Definition positive_numeric (df : DataFrame) (col : string) : bool :=
  negb (has_column col df) ||
  (numeric_series (column df col) && forallb positive (column df col)).

(** The conditions the specification lists for an already-clean table: no
    duplicate rows, no row missing its identifier or its date, dates
    already parsed, quantity and price positive numerics. *)
Definition clean_as_listed (df : DataFrame) : bool :=
  no_duplicates (columns df) df &&
  has_column "transaction_id" df && has_column "date" df &&
  forallb notna (column df "transaction_id") &&
  forallb is_timestamp (column df "date") &&
  positive_numeric df "quantity" && positive_numeric df "price".

(** The product [transform] stores in [total_amount] for a row. *)
Definition product (r : row) : cell :=
  match cell_mul (get r "quantity") (get r "price") with
  | Ok v => v
  | Raise _ => NaN
  end.

(** A [total_amount] column that stands beside a quantity and a price
    holds their product, row by row: the invariant of a clean table on its
    derived column. *)
Definition consistent_totals (df : DataFrame) : bool :=
  negb (has_column "quantity" df && has_column "price" df
        && has_column "total_amount" df) ||
  forallb (fun r => cell_eqb (get r "total_amount") (product r)) (rows df).

(** An already-clean table: the listed conditions, with the totals it
    carries, if any, consistent. *)
Definition already_clean (df : DataFrame) : bool :=
  clean_as_listed df && consistent_totals df.

(** A frame with its [total_amount] column set, when it has a quantity and
    a price column. *)
Definition with_total (df : DataFrame) : DataFrame :=
  if has_column "quantity" df && has_column "price" df then
    {| columns := if has_column "total_amount" df then columns df
                  else columns df ++ ["total_amount"%string];
       rows := map (fun r => <["total_amount"%string := product r]> r) (rows df) |}
  else df.

Section PipelineNotions.

Context {ext : Externals}.

(** The frame [transform] computes, without its log records. *)
Definition transform_frame (df : DataFrame) : result DataFrame :=
  d ← dropna ["transaction_id"; "date"]%string (drop_duplicates df);
  d ← (if has_column "date" d then convert_date d else Ok d);
  d ← (if has_column "quantity" d && has_column "price" d
       then derive_total_amount d else Ok d);
  d ← (if has_column "quantity" d then coerce_numeric "quantity" d else Ok d);
  d ← (if has_column "price" d then coerce_numeric "price" d else Ok d);
  d ← (if has_column "quantity" d then keep_positive "quantity" d else Ok d);
  (if has_column "price" d then keep_positive "price" d else Ok d).

(** The [to_sql] call [load] makes for the batch at offset [i]. *)
Definition batch_call (df : DataFrame) (table_name : string)
    (if_exists : IfExists) (b : Z) (i : Z) : sql_call :=
  {| call_table := table_name;
     call_if_exists := if i =? 0 then if_exists else append;
     call_rows := rows (iloc df i (i + b)) |}.

(** The calls the loop of [load] goes through when none fails. *)
Definition planned_calls (df : DataFrame) (table_name : string)
    (if_exists : IfExists) (b : Z) : list sql_call :=
  match range 0 (len df) b with
  | Ok offsets => map (batch_call df table_name if_exists b) offsets
  | Raise _ => []
  end.

(** The destination after a sequence of calls, if all of them succeed. *)
Fixpoint sql_exec_seq (d : database) (cs : list sql_call) : result database :=
  match cs with
  | [] => Ok d
  | c :: cs' =>
      match sql_exec d c with
      | Ok d' => sql_exec_seq d' cs'
      | Raise e => Raise e
      end
  end.

End PipelineNotions.

(** The rows a table holds before the first write of a load adds to it:
    its old rows with [append], none otherwise. *)
Definition kept_rows (if_exists : IfExists) (old : option (list row)) : list row :=
  match if_exists with
  | append => default [] old
  | _ => []
  end.

(** States that differ in one component. *)
Definition with_log (s : state) (l : list (level * message)) : state :=
  {| self_config := self_config s; self_engine := self_engine s;
     db := db s; sql_log := sql_log s; log := l |}.

Definition with_db (s : state) (d : database) (issued : list sql_call) : state :=
  {| self_config := self_config s; self_engine := self_engine s;
     db := d; sql_log := issued; log := log s |}.

(** The state after some calls were issued, leaving the destination as
    [d], and some records were logged. *)
Definition after_calls (s : state) (d : database) (calls : list sql_call)
    (records : list (level * message)) : state :=
  {| self_config := self_config s; self_engine := self_engine s;
     db := d; sql_log := sql_log s ++ calls; log := log s ++ records |}.

(** The record [load] logs after the batch at offset [i]. *)
Definition batch_record (b total : Z) (i : Z) : level * message :=
  (INFO, MsgLoadedBatch (i / b + 1) total).

(** ** Notions used to state further properties of the methods *)

(** The URL [connect_database] builds from the configuration. *)
Definition connection_string (cfg : Config) : string :=
  ("postgresql://" ++ db_user cfg ++ ":" ++ db_password cfg
   ++ "@" ++ db_host cfg ++ ":" ++ db_port cfg ++ "/" ++ db_name cfg)%string.

(** A state that differs from [s] in the engine it holds and in the
    records added to its log. *)
Definition at_stage (s : state) (eng : option Engine)
    (records : list (level * message)) : state :=
  {| self_config := self_config s; self_engine := eng;
     db := db s; sql_log := sql_log s; log := log s ++ records |}.

(** The records [run] opens with, and those it closes a successful run
    with. *)
Definition run_header (source_path target_table : string)
  : list (level * message) :=
  [(INFO, MsgRule); (INFO, MsgPipelineStart); (INFO, MsgSource source_path);
   (INFO, MsgTarget target_table); (INFO, MsgRule)].

Definition run_footer (n : Z) : list (level * message) :=
  [(INFO, MsgRule); (INFO, MsgPipelineDone); (INFO, MsgDuration);
   (INFO, MsgRecordsProcessed n); (INFO, MsgRule)].

(** The columns [transform] assigns to. *)
Definition assigned_columns : list string :=
  ["date"; "quantity"; "price"; "total_amount"]%string.

(** The present cells that [to_datetime] reads as a missing date: the
    smallest [int64], and the texts of [is_nat_string]. *)
Definition read_as_NaT (c : cell) : bool :=
  match c with
  | Int z => z =? int64_min
  | Str s => is_nat_string s
  | _ => false
  end.

(** The number of missing cells of a column. *)
Definition count_missing (df : DataFrame) (col : string) : Z :=
  count_true (map isna (column df col)).

Section MethodNotions.

Context {ext : Externals}.

(** The frame [extract] reads, without its log records. *)
Definition extract_frame (source_path : string) : result DataFrame :=
  if endswith source_path ".csv" then read_csv source_path
  else if endswith source_path ".xlsx" then read_excel source_path
  else Raise (ValueError ("Unsupported file format: " ++ source_path)).

(** The records the first three stages of a run log when they succeed. *)
Definition stages_log (source_path target_table : string)
    (raw clean : DataFrame) : list (level * message) :=
  run_header source_path target_table ++
  [(INFO, MsgDbConnected);
   (INFO, MsgExtractStart source_path);
   (INFO, MsgExtracted (len raw) source_path);
   (INFO, MsgTransformStart);
   (INFO, MsgRemovedDuplicates (len raw - len (drop_duplicates raw)));
   (INFO, MsgTransformDone (len clean))].

End MethodNotions.

(** ** Concrete inputs and a concrete environment

    Used to run the definitions above on examples: parsers that know the
    few texts the examples contain, a file system with one file, and two
    destinations, one that never fails and one whose connection is lost as
    soon as a table holds two rows. *)

Module Fixtures.

Definition known_dates (s : string) : option Z :=
  if String.eqb s "2024-01-01" then Some 1704067200000000000
  else if String.eqb s "2024-01-02" then Some 1704153600000000000
  else None.

Definition float_epoch (f : Float64.float64) : option Z :=
  match f with
  | S754_zero _ => Some 0
  | _ => None
  end.

Definition known_numbers (s : string) : option (Z + Float64.float64) :=
  if String.eqb s "2" then Some (inl 2)
  else if String.eqb s "3" then Some (inl 3)
  else if String.eqb s "4.0" then Some (inr (Float64.of_int 4))
  else if String.eqb s "5.0" then Some (inr (Float64.of_int 5))
  else None.

Definition mk_row (cells : list (string * cell)) : row := list_to_map cells.

Definition header : list string :=
  ["transaction_id"; "date"; "quantity"; "price"]%string.

Definition transaction (id : Z) (date : cell) (quantity price : cell) : row :=
  mk_row [("transaction_id", Int id); ("date", date);
          ("quantity", quantity); ("price", price)]%string.

(** The scenario of the specification, as [read_csv] returns it: an
    [int64] identifier and quantity, a text date with one missing value,
    a [float64] price. *)
Definition sample : DataFrame :=
  {| columns := header;
     rows := [ transaction 1 (Str "2024-01-01") (Int 2) (Float (Float64.of_int 5));
               transaction 1 (Str "2024-01-01") (Int 2) (Float (Float64.of_int 5));
               transaction 2 NaN (Int 3) (Float (Float64.of_int 4));
               transaction 3 (Str "2024-01-02") (Int (-1)) (Float (Float64.of_int 4)) ] |}.

Definition empty_frame : DataFrame := {| columns := header; rows := [] |}.

(** Five clean transactions, to be loaded in batches of two. *)
Definition five : DataFrame :=
  {| columns := header;
     rows := map (fun id => transaction id (Timestamp 1704067200000000000)
                              (Int id) (Float (Float64.of_int 5)))
                 [1; 2; 3; 4; 5] |}.

(** A quantity column of text next to a [float64] price. *)
Definition text_quantity : DataFrame :=
  {| columns := header;
     rows := [ transaction 1 (Str "2024-01-01") (Str "abc") (Float (Float64.of_int 4)) ] |}.

(** A quantity column of text next to an [int64] price. *)
Definition text_quantity_int_price : DataFrame :=
  {| columns := header;
     rows := [ transaction 1 (Str "2024-01-01") (Str "2") (Int 5);
               transaction 2 (Str "2024-01-02") (Str "abc") (Int 3) ] |}.

(** A date that does not parse. *)
Definition bad_date : DataFrame :=
  {| columns := header;
     rows := [ transaction 1 (Str "2024-01-01") (Int 2) (Float (Float64.of_int 5));
               transaction 2 (Str "yesterday") (Int 3) (Float (Float64.of_int 4)) ] |}.

(** A table that is clean in every listed respect and carries a
    [total_amount] column of its own, two of whose rows differ in that
    column only. *)
Definition stale_totals : DataFrame :=
  {| columns := header ++ ["total_amount"%string];
     rows := [ <["total_amount"%string := Float (Float64.of_int 10)]>
                 (transaction 1 (Timestamp 1704067200000000000) (Int 2)
                    (Float (Float64.of_int 5)));
               <["total_amount"%string := Float (Float64.of_int 11)]>
                 (transaction 1 (Timestamp 1704067200000000000) (Int 2)
                    (Float (Float64.of_int 5))) ] |}.

Definition one_csv_file (path : string) : result DataFrame :=
  if String.eqb path "data/sample_transactions.csv" then Ok sample
  else Raise (OSError "No such file or directory").

Definition no_excel_file (path : string) : result DataFrame :=
  Raise (OSError "No such file or directory").

Definition any_engine (connection_string : string) : result Engine :=
  Ok {| url := connection_string |}.

Definition no_fault (d : database) (c : sql_call) : option exn := None.

Definition lost_at_two_rows (d : database) (c : sql_call) : option exn :=
  match d !! call_table c with
  | Some old =>
      if (2 <=? length old)%nat then Some (SQLAlchemyError "connection lost")
      else None
  | None => None
  end.

Definition reliable : Externals :=
  {| parse_datetime := known_dates;
     datetime_of_float := float_epoch;
     parse_numeric := known_numbers;
     read_csv := one_csv_file;
     read_excel := no_excel_file;
     create_engine := any_engine;
     sql_fault := no_fault |}.

Definition flaky : Externals :=
  {| parse_datetime := known_dates;
     datetime_of_float := float_epoch;
     parse_numeric := known_numbers;
     read_csv := one_csv_file;
     read_excel := no_excel_file;
     create_engine := any_engine;
     sql_fault := lost_at_two_rows |}.

Definition config (b : Z) : Config :=
  {| db_host := "localhost"; db_port := "5432"; db_name := "retail_db";
     db_user := "postgres"; db_password := ""; input_path := "data/";
     batch_size := b |}.

(** What the specification's scenario leaves of [sample]: the first
    transaction, with its date parsed and its total. *)
Definition sample_row : row :=
  <["total_amount"%string := Float (Float64.of_int 10)]>
    (transaction 1 (Timestamp 1704067200000000000) (Int 2)
       (Float (Float64.of_int 5))).

Definition sample_clean : DataFrame :=
  {| columns := header ++ ["total_amount"%string]; rows := [sample_row] |}.

(** What [transform] makes of [stale_totals]: twice the same row. *)
Definition doubled_totals : DataFrame :=
  {| columns := header ++ ["total_amount"%string];
     rows := [sample_row; sample_row] |}.

(** The output of [transform] on [text_quantity_int_price]: the quantity
    ["2"] coerced to [2.0], next to the total computed from the text. *)
Definition repeated_text : DataFrame :=
  {| columns := header ++ ["total_amount"%string];
     rows := [ <["total_amount"%string := Str "22222"]>
                 (transaction 1 (Timestamp 1704067200000000000)
                    (Float (Float64.of_int 2)) (Int 5)) ] |}.

(** A fresh pipeline over an empty destination, and the same pipeline
    once connected. *)
Definition fresh (b : Z) : state := init (config b) ∅.

Definition engine : Engine :=
  {| url := "postgresql://postgres:@localhost:5432/retail_db" |}.

Definition connected (b : Z) : state :=
  {| self_config := config b; self_engine := Some engine;
     db := ∅; sql_log := []; log := [] |}.

(** The state [transform] leaves when it removes [n] duplicates and keeps
    [k] records. *)
Definition transformed (b n k : Z) : state :=
  with_log (connected b)
    [(INFO, MsgTransformStart); (INFO, MsgRemovedDuplicates n);
     (INFO, MsgTransformDone k)].

(** An engine factory that rejects every URL. *)
Definition no_engine (connection_string : string) : result Engine :=
  Raise (SQLAlchemyError "Could not parse SQLAlchemy URL").

Definition unreachable : Externals :=
  {| parse_datetime := known_dates;
     datetime_of_float := float_epoch;
     parse_numeric := known_numbers;
     read_csv := one_csv_file;
     read_excel := no_excel_file;
     create_engine := no_engine;
     sql_fault := no_fault |}.

(** A connected pipeline whose destination already holds a table of one
    row. *)
Definition with_table (b : Z) : state :=
  {| self_config := config b; self_engine := Some engine;
     db := {["fact_transactions"%string := [sample_row]]};
     sql_log := []; log := [] |}.

(** A table without a date column. *)
Definition no_date_column : DataFrame :=
  {| columns := ["transaction_id"; "quantity"; "price"]%string;
     rows := [ mk_row [("transaction_id", Int 1); ("quantity", Int 2);
                       ("price", Int 5)]%string ] |}.

(** A date given as the text [NaT], and what [transform] makes of the
    table: the row, with a missing date. *)
Definition nat_text_date : DataFrame :=
  {| columns := header;
     rows := [ transaction 1 (Str "NaT") (Int 2) (Float (Float64.of_int 5)) ] |}.

Definition nat_text_date_clean : DataFrame :=
  {| columns := header ++ ["total_amount"%string];
     rows := [ <["total_amount"%string := Float (Float64.of_int 10)]>
                 (transaction 1 NaT (Int 2) (Float (Float64.of_int 5))) ] |}.

(** A file of one transaction with an unparseable date, and a file system
    that holds it. *)
Definition two_csv_files (path : string) : result DataFrame :=
  if String.eqb path "data/bad_date.csv" then Ok bad_date
  else one_csv_file path.

Definition reliable_two_files : Externals :=
  {| parse_datetime := known_dates;
     datetime_of_float := float_epoch;
     parse_numeric := known_numbers;
     read_csv := two_csv_files;
     read_excel := no_excel_file;
     create_engine := any_engine;
     sql_fault := no_fault |}.

(** A file of the five clean transactions, read against a destination
    that is lost once the table holds two rows. *)
Definition three_csv_files (path : string) : result DataFrame :=
  if String.eqb path "data/five.csv" then Ok five
  else two_csv_files path.

Definition flaky_three_files : Externals :=
  {| parse_datetime := known_dates;
     datetime_of_float := float_epoch;
     parse_numeric := known_numbers;
     read_csv := three_csv_files;
     read_excel := no_excel_file;
     create_engine := any_engine;
     sql_fault := lost_at_two_rows |}.

End Fixtures.

(** Proof steps for the monad: unfolding its operations, and reasoning by
    cases on the next test or result. *)
Ltac unfold_M :=
  cbv beta iota zeta delta
    [mbind M_mbind M_bind mret M_mret M_ret try_except lift raise
     logger_info logger_error get_config get_engine
     result_mbind result_mret result_bind for_fold].

Ltac case_step :=
  match goal with
  | |- context [if ?b then _ else _] => destruct b eqn:?; cbv beta iota
  | |- context [match ?r with Ok _ => _ | Raise _ => _ end] =>
      destruct r eqn:?; cbv beta iota
  end.

(** Rewriting a state reached through several log records and stage
    results into one [at_stage]. *)
Create Rewrite HintDb stage.

(** ** Facts about keys and duplicates *)

Lemma key_eqb_spec (x y : Float64.float64) :
  Float64.key_eqb x y = true <-> float_key x = float_key y.
Proof.
  unfold Float64.key_eqb, SFeqb.
  destruct x as [sx|sx| |sx mx ex], y as [sy|sy| |sy my ey]; simpl;
    try (split; [discriminate || reflexivity | discriminate || reflexivity]);
    try (destruct sx; split; discriminate);
    try (destruct sy; split; discriminate).
  - destruct sx, sy; split; (discriminate || reflexivity || congruence).
  - destruct sx, sy; simpl; try (split; (discriminate || congruence)).
    + destruct (Z.compare_spec ex ey) as [He|He|He];
        try (split; [discriminate | intros [= ? ?]; lia]).
      change (Pos.compare_cont Eq mx my) with (Pos.compare mx my).
      destruct (Pos.compare_spec mx my) as [Hm|Hm|Hm]; simpl;
        try (split; [discriminate | intros [= ? ?]; lia]).
      subst. split; reflexivity.
    + destruct (Z.compare_spec ex ey) as [He|He|He];
        try (split; [discriminate | intros [= ? ?]; lia]).
      change (Pos.compare_cont Eq mx my) with (Pos.compare mx my).
      destruct (Pos.compare_spec mx my) as [Hm|Hm|Hm]; simpl;
        try (split; [discriminate | intros [= ? ?]; lia]).
      subst. split; reflexivity.
Qed.

Lemma cell_eqb_spec (a b : cell) :
  cell_eqb a b = true <-> cell_key a = cell_key b.
Proof.
  destruct a, b; simpl; try (split; (discriminate || reflexivity)).
  - rewrite Z.eqb_eq. split; congruence.
  - rewrite key_eqb_spec. split; congruence.
  - rewrite String.eqb_eq. split; congruence.
  - rewrite Z.eqb_eq. split; congruence.
Qed.

Lemma row_eqb_spec (cols : list string) (r1 r2 : row) :
  row_eqb cols r1 r2 = true <-> row_key cols r1 = row_key cols r2.
Proof.
  unfold row_eqb, row_key.
  induction cols as [|c cols IH]; simpl.
  - split; reflexivity.
  - rewrite andb_true_iff, IH, cell_eqb_spec. split.
    + intros [-> ->]. reflexivity.
    + intros [= -> ->]. split; reflexivity.
Qed.


Lemma row_eqb_false (cols : list string) (r1 r2 : row) :
  row_eqb cols r1 r2 = false <-> row_key cols r1 <> row_key cols r2.
Proof.
  rewrite <- row_eqb_spec. destruct (row_eqb cols r1 r2); split; congruence.
Qed.

Lemma seen_lookup (cols : list string) (seen : list row) (r : row) :
  existsb (fun k => row_eqb cols k r) seen = true <->
  exists k, k ∈ seen /\ row_key cols k = row_key cols r.
Proof.
  rewrite existsb_exists. split.
  - intros (k & Hin & Heq). exists k. split.
    + by apply list_elem_of_In.
    + by apply row_eqb_spec.
  - intros (k & Hin & Heq). exists k. split.
    + by apply list_elem_of_In.
    + by apply row_eqb_spec.
Qed.

Lemma duplicated_from_length (cols : list string) (rs : list row) :
  forall seen, length (duplicated_from cols seen rs) = length rs.
Proof.
  induction rs as [|r rs IH]; intros seen; simpl; [done|].
  destruct (existsb _ seen); simpl; by rewrite IH.
Qed.

(** The flag of a row says whether its key was met before: in the table
    the scan started with, or at an earlier row. *)
Lemma duplicated_from_spec (cols : list string) (rs : list row) :
  forall (seen : list row) (i : nat) (r : row),
    rs !! i = Some r ->
    exists b, duplicated_from cols seen rs !! i = Some b /\
      (b = true <->
       (exists k, k ∈ seen /\ row_key cols k = row_key cols r) \/
       (exists j r', (j < i)%nat /\ rs !! j = Some r' /\
                     row_key cols r' = row_key cols r)).
Proof.
  induction rs as [|r0 rs IH]; intros seen i r Hi; [done|].
  destruct i as [|i]; simpl in Hi.
  - injection Hi as ->. simpl.
    destruct (existsb _ seen) eqn:Hseen; eexists; (split; [reflexivity|]).
    + split; [|done]. intros _. left. by apply seen_lookup.
    + split; [done|]. intros [Hk | (j & ? & Hj & _)]; [|lia].
      apply seen_lookup in Hk. congruence.
  - simpl. destruct (existsb _ seen) eqn:Hseen; simpl.
    + destruct (IH seen i r Hi) as (b & Hb & Hiff).
      exists b. split; [done|]. rewrite Hiff. split.
      * intros [Hk | (j & r' & Hj & Hr' & Heq)]; [by left|].
        right. exists (S j), r'. split; [lia|]. by split.
      * intros [Hk | (j & r' & Hj & Hr' & Heq)]; [by left|].
        destruct j as [|j]; simpl in Hr'.
        -- injection Hr' as ->. left.
           apply seen_lookup in Hseen as (k & Hk & Hkr).
           exists k. split; [done|]. congruence.
        -- right. exists j, r'. split; [lia|]. by split.
    + destruct (IH (r0 :: seen) i r Hi) as (b & Hb & Hiff).
      exists b. split; [done|]. rewrite Hiff. split.
      * intros [(k & Hk & Heq) | (j & r' & Hj & Hr' & Heq)].
        -- apply elem_of_cons in Hk as [-> | Hk].
           ++ right. exists 0%nat, r0. split; [lia|]. by split.
           ++ left. by exists k.
        -- right. exists (S j), r'. split; [lia|]. by split.
      * intros [(k & Hk & Heq) | (j & r' & Hj & Hr' & Heq)].
        -- left. exists k. split; [|done]. apply elem_of_cons. by right.
        -- destruct j as [|j]; simpl in Hr'.
           ++ injection Hr' as ->. left. exists r'. split; [|done].
              apply elem_of_cons. by left.
           ++ right. exists j, r'. split; [lia|]. by split.
Qed.

Lemma select_rows_sublist (rs : list row) :
  forall mask, sublist (select_rows rs mask) rs.
Proof.
  induction rs as [|r rs IH]; intros mask; simpl; [by destruct mask|].
  destruct mask as [|[] mask].
  - apply sublist_nil_l.
  - by apply sublist_skip.
  - by apply sublist_cons.
Qed.

Lemma select_rows_all (rs : list row) (mask : list bool) :
  length mask = length rs -> Forall (fun b => b = true) mask ->
  select_rows rs mask = rs.
Proof.
  revert mask. induction rs as [|r rs IH]; intros [|b mask] Hlen Hall;
    simpl in *; try done.
  inversion Hall as [|? ? -> Hall']; subst. f_equal. apply IH; [lia|done].
Qed.

Lemma select_rows_length (rs : list row) (flags : list bool) :
  length flags = length rs ->
  (length (select_rows rs (map negb flags))
   + length (filter (fun b => b = true) flags))%nat = length rs.
Proof.
  revert flags. induction rs as [|r rs IH]; intros [|b flags] Hlen;
    try done.
  injection Hlen as Hlen. specialize (IH flags Hlen).
  destruct b.
  - rewrite filter_cons_True by done. simpl in *. lia.
  - rewrite filter_cons_False by done. simpl in *. lia.
Qed.

(** What the scan keeps is pairwise different, and different from every
    key the table started with. *)
Lemma kept_rows_distinct (cols : list string) (rs : list row) :
  forall seen,
    let out := select_rows rs (map negb (duplicated_from cols seen rs)) in
    (forall k r, k ∈ seen -> r ∈ out -> row_eqb cols k r = false) /\
    distinct_rows cols out.
Proof.
  induction rs as [|r0 rs IH]; intros seen; simpl.
  - split; [intros k r _ Hr; by apply elem_of_nil in Hr|].
    intros i j ri rj _ Hi. done.
  - destruct (existsb _ seen) eqn:Hseen; simpl.
    + apply IH.
    + destruct (IH (r0 :: seen)) as [Hseen' Hdist]. split.
      * intros k r Hk Hr. apply elem_of_cons in Hr as [-> | Hr].
        -- destruct (row_eqb cols k r0) eqn:Heq; [|done].
           assert (existsb (fun k => row_eqb cols k r0) seen = true); [|congruence].
           apply existsb_exists. exists k. split; [|done].
           by apply list_elem_of_In.
        -- apply Hseen'; [|done]. apply elem_of_cons. by right.
      * intros i j ri rj Hij Hi Hj.
        destruct j as [|j]; [lia|]. simpl in Hj.
        destruct i as [|i]; simpl in Hi.
        -- injection Hi as ->. apply Hseen'.
           ++ apply elem_of_cons. by left.
           ++ by eapply list_elem_of_lookup_2.
        -- eapply Hdist; [|done|done]. lia.
Qed.



Lemma duplicated_count (df : DataFrame) :
  count_true (duplicated df) = len df - len (drop_duplicates df).
Proof.
  unfold count_true, len, drop_duplicates, bool_index. simpl.
  pose proof (select_rows_length (rows df) (duplicated df)
                (duplicated_from_length _ _ _)) as H.
  lia.
Qed.

(** ** The monad at work *)

Lemma add_log_three (s : state) (l1 l2 l3 : level) (m1 m2 m3 : message) :
  add_log l3 m3 (add_log l2 m2 (add_log l1 m1 s)) =
  with_log s (log s ++ [(l1, m1); (l2, m2); (l3, m3)]).
Proof. unfold add_log, with_log. simpl. by rewrite <- !app_assoc. Qed.

Lemma add_log_two (s : state) (l1 l2 : level) (m1 m2 : message) :
  add_log l2 m2 (add_log l1 m1 s) =
  with_log s (log s ++ [(l1, m1); (l2, m2)]).
Proof. unfold add_log, with_log. simpl. by rewrite <- !app_assoc. Qed.

Section TransformFacts.

Context {ext : Externals}.

(** [transform] returns or raises what [transform_frame] computes, and
    logs its start, the number of duplicates removed, and either the
    number of records kept or the error. *)
Lemma transform_unfold (df : DataFrame) (s : state) :
  transform df s =
  match transform_frame df with
  | Ok out =>
      (Ok out,
       with_log s (log s ++ [(INFO, MsgTransformStart);
                             (INFO, MsgRemovedDuplicates (len df - len (drop_duplicates df)));
                             (INFO, MsgTransformDone (len out))]))
  | Raise e =>
      (Raise e,
       with_log s (log s ++ [(INFO, MsgTransformStart);
                             (INFO, MsgRemovedDuplicates (len df - len (drop_duplicates df)));
                             (ERROR, MsgTransformError e)]))
  end.
Proof.
  unfold transform, transform_frame, copy. unfold_M.
  repeat case_step; by rewrite add_log_three.
Qed.

End TransformFacts.

(** ** The steps of [transform], one by one *)

Lemma mapM_Ok {A B} (f : A -> result B) (xs : list A) (ys : list B) :
  mapM f xs = Ok ys <-> Forall2 (fun x y => f x = Ok y) xs ys.
Proof.
  revert ys. induction xs as [|x xs IH]; intros ys; simpl.
  - split.
    + intros [= <-]. constructor.
    + intros H. by inversion H.
  - destruct (f x) as [y|e] eqn:Hx.
    + destruct (mapM f xs) as [ys'|e] eqn:Hxs.
      * split.
        -- intros [= <-]. constructor; [done|]. by apply IH.
        -- intros H. inversion H as [|? y' ? ys'' Hy Hys]; subst.
           apply IH in Hys. congruence.
      * split; [discriminate|].
        intros H. inversion H as [|? y' ? ys'' Hy Hys]; subst.
        apply IH in Hys. discriminate.
    + split; [discriminate|].
      intros H. inversion H; subst. congruence.
Qed.


Lemma mapM_id {A} (f : A -> result A) (xs : list A) :
  (forall x, x ∈ xs -> f x = Ok x) -> mapM f xs = Ok xs.
Proof.
  intros H. apply mapM_Ok. induction xs as [|x xs IH]; constructor.
  - apply H. apply elem_of_cons. by left.
  - apply IH. intros y Hy. apply H. apply elem_of_cons. by right.
Qed.

Lemma select_rows_map (f : row -> bool) (rs : list row) :
  select_rows rs (map f rs) = filter (fun r => f r = true) rs.
Proof.
  induction rs as [|r rs IH]; [done|]. simpl.
  destruct (f r) eqn:Hr.
  - rewrite filter_cons_True by done. by rewrite IH.
  - rewrite filter_cons_False by congruence. done.
Qed.

Lemma has_column_spec (c : string) (df : DataFrame) :
  has_column c df = true <-> c ∈ columns df.
Proof. unfold has_column. apply bool_decide_eq_true. Qed.

Lemma getitem_Ok (df : DataFrame) (c : string) (s : Series) :
  getitem df c = Ok s <-> has_column c df = true /\ s = column df c.
Proof.
  unfold getitem, column. destruct (has_column c df); split.
  - intros [= <-]. done.
  - intros [_ ->]. done.
  - discriminate.
  - intros [? _]. discriminate.
Qed.

Lemma setitem_Ok (df df' : DataFrame) (c : string) (values : Series) :
  setitem df c values = Ok df' <->
  length values = length (rows df) /\
  df' = {| columns := if has_column c df then columns df else columns df ++ [c];
           rows := zip_with (fun r v => <[c := v]> r) (rows df) values |}.
Proof.
  unfold setitem. case_bool_decide as Hlen; split.
  - intros [= <-]. done.
  - intros [_ ->]. done.
  - discriminate.
  - intros [? _]. done.
Qed.

(** Assigning a column: row by row, the cell under the column is replaced
    by the value at the same position. *)
Lemma setitem_rows (df df' : DataFrame) (c : string) (values : Series) :
  setitem df c values = Ok df' ->
  columns df' = (if has_column c df then columns df else columns df ++ [c]) /\
  Forall2 (fun rv r' => r' = <[c := rv.2]> rv.1) (zip (rows df) values) (rows df') /\
  length (rows df') = length (rows df).
Proof.
  intros (Hlen & ->)%setitem_Ok. simpl. split; [done|]. split.
  - clear Hlen. revert values.
    induction (rows df) as [|r rs IH]; intros [|v values]; simpl;
      try constructor; [done|apply IH].
  - rewrite length_zip_with. lia.
Qed.

Lemma dropna_Ok (subset : list string) (df df' : DataFrame) :
  dropna subset df = Ok df' ->
  (forall c, c ∈ subset -> c ∈ columns df) /\
  columns df' = columns df /\
  rows df' =
    filter (fun r => forallb (fun c => notna (get r c)) subset = true) (rows df).
Proof.
  unfold dropna.
  destruct (filter (fun c => ¬ c ∈ columns df) subset) as [|c0 l] eqn:Hf;
    [|discriminate].
  intros [= <-]. simpl. split; [|split; [done|apply select_rows_map]].
  intros c Hc. destruct (decide (c ∈ columns df)) as [|Hn]; [done|].
  assert (c ∈ filter (fun c => ¬ c ∈ columns df) subset) as Hin
    by (by apply list_elem_of_filter).
  rewrite Hf in Hin. by apply elem_of_nil in Hin.
Qed.

Lemma dropna_Raise (subset : list string) (df : DataFrame) (c : string) :
  c ∈ subset -> c ∉ columns df -> exists e, dropna subset df = Raise e.
Proof.
  intros Hc Hn. unfold dropna.
  destruct (filter (fun c => ¬ c ∈ columns df) subset) as [|c0 l] eqn:Hf;
    [|by eexists].
  assert (c ∈ filter (fun c => ¬ c ∈ columns df) subset) as Hin
    by (by apply list_elem_of_filter).
  rewrite Hf in Hin. by apply elem_of_nil in Hin.
Qed.

Lemma positive_gt0 (c : cell) : positive c = true <-> cell_gt0 c = Ok true.
Proof.
  unfold positive. destruct (cell_gt0 c) as [[]|]; split; congruence.
Qed.

Lemma select_rows_gt0 (col : string) (rs : list row) (mask : list bool) :
  Forall2 (fun c b => cell_gt0 c = Ok b) (map (fun r => get r col) rs) mask ->
  select_rows rs mask = filter (fun r => positive (get r col) = true) rs.
Proof.
  revert mask. induction rs as [|r rs IH]; intros mask H; simpl in H.
  - inversion H. done.
  - inversion H as [|? b ? mask' Hb Hrest]; subst. simpl.
    unfold positive at 1. destruct b.
    + rewrite filter_cons_True by (unfold positive; by rewrite Hb).
      by rewrite IH.
    + rewrite filter_cons_False by (unfold positive; by rewrite Hb).
      by apply IH.
Qed.

Lemma keep_positive_Ok (col : string) (df df' : DataFrame) :
  keep_positive col df = Ok df' ->
  has_column col df = true /\
  columns df' = columns df /\
  rows df' = filter (fun r => positive (get r col) = true) (rows df).
Proof.
  unfold keep_positive, series_gt0. unfold_M.
  destruct (getitem df col) as [s|] eqn:Hs; [|discriminate].
  apply getitem_Ok in Hs as [Hcol ->].
  destruct (mapM cell_gt0 (column df col)) as [mask|] eqn:Hm; [|discriminate].
  intros [= <-]. simpl. split; [done|]. split; [done|].
  apply mapM_Ok in Hm. by apply select_rows_gt0.
Qed.

Lemma has_column_ext (c : string) (df df' : DataFrame) :
  columns df' = columns df -> has_column c df' = has_column c df.
Proof. unfold has_column. by intros ->. Qed.

Lemma has_column_added (c new : string) (df df' : DataFrame) :
  columns df' = (if has_column new df then columns df else columns df ++ [new]) ->
  c <> new -> has_column c df' = has_column c df.
Proof.
  intros Hcols Hne. destruct (has_column new df).
  - by apply has_column_ext.
  - unfold has_column. rewrite Hcols. apply bool_decide_ext.
    rewrite elem_of_app, list_elem_of_singleton. tauto.
Qed.

Lemma zip_with_map_r {A B C} (f : A -> B -> C) (g : A -> B) (xs : list A) :
  zip_with f xs (map g xs) = map (fun x => f x (g x)) xs.
Proof. induction xs as [|x xs IH]; simpl; by rewrite ?IH. Qed.

Lemma zip_map_map {A B C} (g : A -> B) (h : A -> C) (xs : list A) :
  zip (map g xs) (map h xs) = map (fun x => (g x, h x)) xs.
Proof. induction xs as [|x xs IH]; simpl; by rewrite ?IH. Qed.

(** Assigning to a column values computed row by row. *)
Lemma assign_computed {X} (c : string) (g : row -> X) (f : X -> result cell)
    (rs : list row) (values : Series) :
  Forall2 (fun x y => f x = Ok y) (map g rs) values ->
  Forall2 (fun r r' => exists v, f (g r) = Ok v /\ r' = <[c := v]> r)
    rs (zip_with (fun r v => <[c := v]> r) rs values).
Proof.
  revert values. induction rs as [|r rs IH]; intros values H; simpl in H.
  - inversion H. constructor.
  - inversion H as [|? v ? values' Hv Hrest]; subst. simpl.
    constructor; [by exists v|by apply IH].
Qed.

Section StepFacts.

Context {ext : Externals}.

Lemma convert_date_Ok (df df' : DataFrame) :
  convert_date df = Ok df' ->
  has_column "date" df = true /\
  columns df' = columns df /\
  Forall2 (fun r r' =>
             exists v,
               to_datetime_scalar parse_datetime datetime_of_float (get r "date") = Ok v /\
               r' = <["date"%string := v]> r)
          (rows df) (rows df').
Proof.
  unfold convert_date, to_datetime. unfold_M.
  destruct (getitem df "date") as [s|] eqn:Hs; [|discriminate].
  apply getitem_Ok in Hs as [Hcol ->].
  destruct (mapM _ (column df "date")) as [ds|] eqn:Hd; [|discriminate].
  intros (Hlen & ->)%setitem_Ok. simpl. rewrite Hcol.
  split; [done|]. split; [done|].
  apply mapM_Ok in Hd. by apply assign_computed.
Qed.

Lemma derive_total_amount_Ok (df df' : DataFrame) :
  derive_total_amount df = Ok df' ->
  has_column "quantity" df = true /\ has_column "price" df = true /\
  columns df' = (if has_column "total_amount" df then columns df
                 else columns df ++ ["total_amount"%string]) /\
  Forall2 (fun r r' =>
             exists v,
               cell_mul (get r "quantity") (get r "price") = Ok v /\
               r' = <["total_amount"%string := v]> r)
          (rows df) (rows df').
Proof.
  unfold derive_total_amount, series_mul. unfold_M.
  destruct (getitem df "quantity") as [q|] eqn:Hq; [|discriminate].
  apply getitem_Ok in Hq as [Hcq ->].
  destruct (getitem df "price") as [p|] eqn:Hp; [|discriminate].
  apply getitem_Ok in Hp as [Hcp ->].
  unfold column. rewrite zip_map_map.
  destruct (mapM _ _) as [t|] eqn:Ht; [|discriminate].
  intros (Hlen & ->)%setitem_Ok. simpl.
  split; [done|]. split; [done|]. split; [done|].
  apply mapM_Ok in Ht.
  by apply (assign_computed "total_amount"
              (fun r => (get r "quantity", get r "price"))
              (fun p => cell_mul p.1 p.2)).
Qed.

(** Coercion replaces each cell of the column by its conversion; the
    conversion is the same for the whole column: to integers, or to
    floats. *)
Lemma coerce_numeric_Ok (col : string) (df df' : DataFrame) :
  coerce_numeric col df = Ok df' ->
  has_column col df = true /\
  columns df' = columns df /\
  exists h,
    (h = to_numeric_scalar parse_numeric \/
     h = fun c => to_float (to_numeric_scalar parse_numeric c)) /\
    (forall c, is_number (h c) = true) /\
    rows df' = map (fun r => <[col := h (get r col)]> r) (rows df).
Proof.
  unfold coerce_numeric. unfold_M.
  destruct (getitem df col) as [s|] eqn:Hs; [|discriminate].
  apply getitem_Ok in Hs as [Hcol ->].
  intros (Hlen & ->)%setitem_Ok. simpl. rewrite Hcol.
  split; [done|]. split; [done|].
  unfold to_numeric, column.
  destruct (forallb is_int _) eqn:Hall.
  - exists (to_numeric_scalar parse_numeric). split; [by left|]. split.
    + intros c. unfold is_number, to_numeric_scalar.
      destruct c; simpl; try done.
      destruct (parse_numeric s) as [[]|]; done.
    + rewrite map_map.
      apply (zip_with_map_r (fun r v => <[col := v]> r)
               (fun r => to_numeric_scalar parse_numeric (get r col))).
  - exists (fun c => to_float (to_numeric_scalar parse_numeric c)).
    split; [by right|]. split.
    + intros c. unfold is_number, to_numeric_scalar.
      destruct c; simpl; try done.
      destruct (parse_numeric s) as [[]|]; done.
    + rewrite !map_map.
      apply (zip_with_map_r (fun r v => <[col := v]> r)
               (fun r => to_float (to_numeric_scalar parse_numeric (get r col)))).
Qed.

Lemma coerce_numeric_total (col : string) (df : DataFrame) :
  has_column col df = true -> exists df', coerce_numeric col df = Ok df'.
Proof.
  intros Hcol. unfold coerce_numeric, getitem, setitem. unfold_M.
  rewrite Hcol. rewrite bool_decide_true; [by eexists|].
  unfold to_numeric. destruct (forallb _ _); by rewrite ?length_map.
Qed.

Lemma convert_date_columns (df df' : DataFrame) (c : string) :
  convert_date df = Ok df' -> has_column c df' = has_column c df.
Proof. intros (_ & Hc & _)%convert_date_Ok. by apply has_column_ext. Qed.

Lemma derive_total_amount_columns (df df' : DataFrame) (c : string) :
  derive_total_amount df = Ok df' -> c <> "total_amount"%string ->
  has_column c df' = has_column c df.
Proof.
  intros (_ & _ & Hc & _)%derive_total_amount_Ok Hne.
  by apply (has_column_added c "total_amount").
Qed.

Lemma coerce_numeric_columns (col : string) (df df' : DataFrame) (c : string) :
  coerce_numeric col df = Ok df' -> has_column c df' = has_column c df.
Proof. intros (_ & Hc & _)%coerce_numeric_Ok. by apply has_column_ext. Qed.

Lemma keep_positive_columns (col : string) (df df' : DataFrame) (c : string) :
  keep_positive col df = Ok df' -> has_column c df' = has_column c df.
Proof. intros (_ & Hc & _)%keep_positive_Ok. by apply has_column_ext. Qed.

(** The frames [transform_frame] goes through when it succeeds.  Which
    steps run depends on the columns of the input alone. *)
Lemma transform_frame_Ok (df out : DataFrame) :
  transform_frame df = Ok out ->
  exists d1 d2 d3 d4 d5 d6,
    dropna ["transaction_id"; "date"]%string (drop_duplicates df) = Ok d1 /\
    convert_date d1 = Ok d2 /\
    (if has_column "quantity" df && has_column "price" df
     then derive_total_amount d2 = Ok d3 else d3 = d2) /\
    (if has_column "quantity" df then coerce_numeric "quantity" d3 = Ok d4
     else d4 = d3) /\
    (if has_column "price" df then coerce_numeric "price" d4 = Ok d5
     else d5 = d4) /\
    (if has_column "quantity" df then keep_positive "quantity" d5 = Ok d6
     else d6 = d5) /\
    (if has_column "price" df then keep_positive "price" d6 = Ok out
     else out = d6).
Proof.
  unfold transform_frame. unfold_M.
  destruct (dropna _ _) as [d1|] eqn:H1; [|discriminate].
  pose proof (dropna_Ok _ _ _ H1) as (Hsub & Hc1 & _).
  assert (has_column "date" d1 = true) as Hdate.
  { apply has_column_spec. rewrite Hc1. apply Hsub. set_solver. }
  rewrite Hdate.
  destruct (convert_date d1) as [d2|] eqn:H2; [|discriminate].
  assert (forall c, has_column c d2 = has_column c df) as E2.
  { intros c. rewrite (convert_date_columns _ _ c H2). by apply has_column_ext. }
  rewrite !E2.
  destruct (has_column "quantity" df) eqn:Hq, (has_column "price" df) eqn:Hp;
    cbv beta iota delta [andb].
  - destruct (derive_total_amount d2) as [d3|] eqn:H3; [|discriminate].
    rewrite (derive_total_amount_columns _ _ "quantity" H3), E2, Hq by done.
    destruct (coerce_numeric "quantity" d3) as [d4|] eqn:H4; [|discriminate].
    rewrite (coerce_numeric_columns _ _ _ "price" H4),
      (derive_total_amount_columns _ _ "price" H3), E2, Hp by done.
    destruct (coerce_numeric "price" d4) as [d5|] eqn:H5; [|discriminate].
    rewrite (coerce_numeric_columns _ _ _ "quantity" H5),
      (coerce_numeric_columns _ _ _ "quantity" H4),
      (derive_total_amount_columns _ _ "quantity" H3), E2, Hq by done.
    destruct (keep_positive "quantity" d5) as [d6|] eqn:H6; [|discriminate].
    rewrite (keep_positive_columns _ _ _ "price" H6),
      (coerce_numeric_columns _ _ _ "price" H5),
      (coerce_numeric_columns _ _ _ "price" H4),
      (derive_total_amount_columns _ _ "price" H3), E2, Hp by done.
    intros H7. by exists d1, d2, d3, d4, d5, d6.
  - rewrite E2, Hq.
    destruct (coerce_numeric "quantity" d2) as [d4|] eqn:H4; [|discriminate].
    rewrite (coerce_numeric_columns _ _ _ "price" H4), E2, Hp.
    rewrite (coerce_numeric_columns _ _ _ "quantity" H4), E2, Hq.
    destruct (keep_positive "quantity" d4) as [d6|] eqn:H6; [|discriminate].
    rewrite (keep_positive_columns _ _ _ "price" H6),
      (coerce_numeric_columns _ _ _ "price" H4), E2, Hp.
    intros [= <-]. by exists d1, d2, d2, d4, d4, d6.
  - rewrite E2, Hq, E2, Hp.
    destruct (coerce_numeric "price" d2) as [d5|] eqn:H5; [|discriminate].
    rewrite (coerce_numeric_columns _ _ _ "quantity" H5), E2, Hq.
    rewrite (coerce_numeric_columns _ _ _ "price" H5), E2, Hp.
    intros H7. by exists d1, d2, d2, d2, d5, d5.
  - rewrite E2, Hq. cbv beta iota. rewrite E2, Hp. cbv beta iota.
    rewrite E2, Hq. cbv beta iota. rewrite E2, Hp.
    intros [= <-]. by exists d1, d2, d2, d2, d2, d2.
Qed.

End StepFacts.

(** ** Properties of [transform] *)

Section TransformProperties.

Context {ext : Externals}.

Lemma transform_Ok (df out : DataFrame) (s s' : state) :
  transform df s = (Ok out, s') -> transform_frame df = Ok out.
Proof.
  rewrite transform_unfold. destruct (transform_frame df); congruence.
Qed.

Lemma gt0_notna (c : cell) : cell_gt0 c = Ok true -> isna c = false.
Proof.
  destruct c as [z|f|s|t|]; simpl; try done.
  destruct f; simpl; done.
Qed.

(** The rows that pass both filters. *)
Lemma transform_frame_positive (df out : DataFrame) (col : string) :
  transform_frame df = Ok out ->
  col = "quantity"%string \/ col = "price"%string ->
  has_column col df = true ->
  forall r, r ∈ rows out -> positive (get r col) = true.
Proof.
  intros Hout Hcol Hhas r Hr.
  destruct (transform_frame_Ok df out Hout)
    as (d1 & d2 & d3 & d4 & d5 & d6 & _ & _ & _ & _ & _ & H6 & H7).
  assert (rows out ⊆ rows d6) as Hsub.
  { destruct (has_column "price" df); [|by subst].
    apply keep_positive_Ok in H7 as (_ & _ & ->).
    intros x Hx. by apply list_elem_of_filter in Hx as [_ ?]. }
  destruct Hcol as [-> | ->].
  - rewrite Hhas in H6. apply keep_positive_Ok in H6 as (_ & _ & H6).
    apply Hsub in Hr. rewrite H6 in Hr.
    by apply list_elem_of_filter in Hr as [? _].
  - rewrite Hhas in H7. apply keep_positive_Ok in H7 as (_ & _ & H7).
    rewrite H7 in Hr. by apply list_elem_of_filter in Hr as [? _].
Qed.

(** C4.  Every row [transform] returns has [quantity > 0] and
    [price > 0], for each of the two columns the table has; such a cell is
    a number, not the missing marker.  The marker itself compares false to
    [> 0], and it is what text that is not a number is coerced to, so a
    row with such a cell does not pass. *)
Theorem transform_rows_positive (df out : DataFrame) (s s' : state) :
  transform df s = (Ok out, s') ->
  (forall r col,
     r ∈ rows out ->
     col = "quantity"%string \/ col = "price"%string ->
     has_column col df = true ->
     cell_gt0 (get r col) = Ok true /\ isna (get r col) = false) /\
  cell_gt0 NaN = Ok false /\
  (forall text, parse_numeric text = None ->
     to_numeric_scalar parse_numeric (Str text) = NaN).
Proof.
  intros Hrun. apply transform_Ok in Hrun. split; [|split].
  - intros r col Hr Hcol Hhas.
    assert (cell_gt0 (get r col) = Ok true) as Hgt.
    { apply positive_gt0. by eapply transform_frame_positive. }
    split; [done|by apply gt0_notna].
  - reflexivity.
  - intros text Hnone. unfold to_numeric_scalar. by rewrite Hnone.
Qed.

(** C9.  The [duplicate_records] count of [validate_data] is the number of
    rows [duplicated] flags, and [drop_duplicates], the duplicate-removal
    step of [transform], removes exactly the flagged rows: the count is
    the row count minus the row count after that step, which is also the
    number [transform] logs as removed. *)
Theorem duplicate_records_is_dedup_count (df : DataFrame) (s : state) :
  duplicate_records (validate_data df) = count_true (duplicated df) /\
  rows (drop_duplicates df) = select_rows (rows df) (map negb (duplicated df)) /\
  duplicate_records (validate_data df) = len df - len (drop_duplicates df) /\
  (INFO, MsgRemovedDuplicates (duplicate_records (validate_data df)))
    ∈ log (transform df s).2.
Proof.
  split; [done|]. split; [done|]. split; [apply duplicated_count|].
  rewrite transform_unfold. unfold validate_data. simpl.
  rewrite duplicated_count.
  destruct (transform_frame df); simpl;
    apply elem_of_app; right; apply elem_of_cons; right;
    apply elem_of_cons; by left.
Qed.


End TransformProperties.

(** ** Where a row of the output comes from *)

Lemma numeric_series_spec (df : DataFrame) (col : string) :
  numeric_series (column df col) = true <->
  all_cells is_int df col \/ all_cells is_float df col.
Proof.
  unfold numeric_series, column, all_cells.
  rewrite orb_true_iff, !forallb_forall.
  split; intros [H | H]; [left | right | left | right].
  - intros r Hr. apply H.
    apply (in_map (fun r => get r col)). by apply list_elem_of_In.
  - intros r Hr. apply H.
    apply (in_map (fun r => get r col)). by apply list_elem_of_In.
  - intros c (r & <- & Hr)%in_map_iff. apply H. by apply list_elem_of_In.
  - intros c (r & <- & Hr)%in_map_iff. apply H. by apply list_elem_of_In.
Qed.

Lemma Forall2_elem_r {A B} (P : A -> B -> Prop) (xs : list A) (ys : list B) (y : B) :
  Forall2 P xs ys -> y ∈ ys -> exists x, x ∈ xs /\ P x y.
Proof.
  intros H (i & Hi)%list_elem_of_lookup_1.
  destruct (Forall2_lookup_r _ _ _ _ _ H Hi) as (x & Hx & HP).
  exists x. split; [|done]. by eapply list_elem_of_lookup_2.
Qed.

Lemma get_insert_eq (r : row) (c : string) (v : cell) : get (<[c := v]> r) c = v.
Proof. unfold get. by rewrite lookup_insert_eq. Qed.

Lemma get_insert_ne (r : row) (c c' : string) (v : cell) :
  c <> c' -> get (<[c := v]> r) c' = get r c'.
Proof. intros. unfold get. by rewrite lookup_insert_ne. Qed.

Section Provenance.

Context {ext : Externals}.

(** A numeric column is left as it is by the coercion. *)
Lemma coerce_numeric_same (col : string) (df df' : DataFrame) :
  coerce_numeric col df = Ok df' ->
  all_cells is_int df col \/ all_cells is_float df col ->
  rows df' = map (fun r => <[col := get r col]> r) (rows df).
Proof.
  unfold coerce_numeric. unfold_M.
  destruct (getitem df col) as [s|] eqn:Hs; [|discriminate].
  apply getitem_Ok in Hs as [Hcol ->].
  intros (Hlen & ->)%setitem_Ok Hnum. simpl.
  assert (to_numeric parse_numeric (column df col) = column df col) as ->.
  { unfold to_numeric, column. rewrite map_map.
    assert (map (fun r => to_numeric_scalar parse_numeric (get r col)) (rows df)
            = map (fun r => get r col) (rows df)) as Hsame.
    { apply map_ext_in. intros r Hr%list_elem_of_In.
      destruct Hnum as [H | H]; specialize (H r Hr);
        by destruct (get r col). }
    rewrite Hsame.
    destruct (forallb is_int _) eqn:Hint; [done|].
    rewrite map_map. apply map_ext_in. intros r Hr%list_elem_of_In.
    destruct Hnum as [H | H].
    - assert (forallb is_int (map (fun r => get r col) (rows df)) = true);
        [|congruence].
      apply forallb_forall. intros c (r' & <- & Hr')%in_map_iff.
      apply H. by apply list_elem_of_In.
    - specialize (H r Hr). by destruct (get r col). }
  apply (zip_with_map_r (fun r v => <[col := v]> r) (fun r => get r col)).
Qed.

(** With both a quantity and a price column, a row of the output is a row
    of the input with its date parsed, its total set to the product of the
    quantity and the price it had in the input, and its quantity and price
    coerced; where these two columns are numeric in the input, the
    coercion leaves them as they were. *)
Lemma transform_frame_provenance (df out : DataFrame) :
  has_column "quantity" df = true ->
  has_column "price" df = true ->
  transform_frame df = Ok out ->
  forall r, r ∈ rows out ->
    exists r0 vd v cq cp,
      r0 ∈ rows df /\
      to_datetime_scalar parse_datetime datetime_of_float (get r0 "date") = Ok vd /\
      cell_mul (get r0 "quantity") (get r0 "price") = Ok v /\
      r = <["price"%string := cp]>
            (<["quantity"%string := cq]>
               (<["total_amount"%string := v]> (<["date"%string := vd]> r0))) /\
      (numeric_series (column df "quantity") = true -> cq = get r0 "quantity") /\
      (numeric_series (column df "price") = true -> cp = get r0 "price").
Proof.
  intros Hq Hp Hout r Hr.
  destruct (transform_frame_Ok df out Hout)
    as (d1 & d2 & d3 & d4 & d5 & d6 & H1 & H2 & H3 & H4 & H5 & H6 & H7).
  rewrite Hq, Hp in *. simpl in H3.
  apply keep_positive_Ok in H7 as (_ & _ & R7).
  apply keep_positive_Ok in H6 as (_ & _ & R6).
  rewrite R7 in Hr. apply list_elem_of_filter in Hr as [_ Hr].
  rewrite R6 in Hr. apply list_elem_of_filter in Hr as [_ Hr].
  apply dropna_Ok in H1 as (_ & _ & R1).
  apply convert_date_Ok in H2 as (_ & _ & R2).
  apply derive_total_amount_Ok in H3 as (_ & _ & _ & R3).
  (* every row of [d3] comes from a row of the input *)
  assert (forall r3, r3 ∈ rows d3 ->
            exists r0 vd v,
              r0 ∈ rows df /\
              to_datetime_scalar parse_datetime datetime_of_float (get r0 "date") = Ok vd /\
              cell_mul (get r0 "quantity") (get r0 "price") = Ok v /\
              r3 = <["total_amount"%string := v]> (<["date"%string := vd]> r0))
    as Hsrc.
  { intros r3 Hr3.
    destruct (Forall2_elem_r _ _ _ _ R3 Hr3) as (r2 & Hr2 & v & Hv & ->).
    destruct (Forall2_elem_r _ _ _ _ R2 Hr2) as (r1 & Hr1 & vd & Hvd & ->).
    rewrite !get_insert_ne in Hv by done.
    rewrite R1 in Hr1. apply list_elem_of_filter in Hr1 as [_ Hr1].
    exists r1, vd, v. split; [|done].
    eapply elem_of_sublist; [exact Hr1|].
    unfold drop_duplicates, bool_index. simpl. apply select_rows_sublist. }
  assert (forall col, col = "quantity"%string \/ col = "price"%string ->
            numeric_series (column df col) = true ->
            all_cells is_int d3 col \/ all_cells is_float d3 col) as Hnum3.
  { intros col Hcol [Hn | Hn]%numeric_series_spec; [left | right];
      intros r3 Hr3; destruct (Hsrc r3 Hr3) as (r0 & vd & v & Hr0 & _ & _ & ->);
      (rewrite !get_insert_ne by (destruct Hcol as [-> | ->]; done));
      by apply Hn. }
  (* the two coercions *)
  pose proof (coerce_numeric_Ok _ _ _ H4) as (_ & _ & hq & _ & _ & R4).
  pose proof (coerce_numeric_Ok _ _ _ H5) as (_ & _ & hp & _ & _ & R5).
  rewrite R5 in Hr. apply list_elem_of_fmap in Hr as (r4 & -> & Hr4).
  pose proof Hr4 as Hr4'.
  rewrite R4 in Hr4. apply list_elem_of_fmap in Hr4 as (r3 & -> & Hr3).
  destruct (Hsrc r3 Hr3) as (r0 & vd & v & Hr0 & Hvd & Hv & ->).
  exists r0, vd, v. eexists _, _.
  split; [done|]. split; [done|]. split; [done|]. split; [reflexivity|].
  split.
  - intros Hn.
    pose proof (coerce_numeric_same _ _ _ H4 (Hnum3 "quantity" (or_introl eq_refl) Hn))
      as R4'.
    rewrite R4 in R4'.
    assert (forall x, x ∈ rows d3 ->
              <["quantity"%string := hq (get x "quantity")]> x
              = <["quantity"%string := get x "quantity"]> x) as E.
    { intros x Hx. apply list_elem_of_lookup_1 in Hx as (i & Hi).
      apply (f_equal (fun l => l !! i)) in R4'.
      rewrite !list_lookup_fmap, Hi in R4'. simpl in R4'. congruence. }
    specialize (E _ Hr3).
    apply (f_equal (fun m => get m "quantity")) in E.
    rewrite !get_insert_eq in E. rewrite E.
    by rewrite !get_insert_ne.
  - intros Hn.
    assert (all_cells is_int d4 "price" \/ all_cells is_float d4 "price") as Hn4.
    { destruct (Hnum3 "price" (or_intror eq_refl) Hn) as [H | H]; [left | right];
        intros x Hx; rewrite R4 in Hx;
        apply list_elem_of_fmap in Hx as (x3 & -> & Hx3);
        rewrite get_insert_ne by done; by apply H. }
    pose proof (coerce_numeric_same _ _ _ H5 Hn4) as R5'.
    rewrite R5 in R5'.
    assert (forall x, x ∈ rows d4 ->
              <["price"%string := hp (get x "price")]> x
              = <["price"%string := get x "price"]> x) as E.
    { intros x Hx. apply list_elem_of_lookup_1 in Hx as (i & Hi).
      apply (f_equal (fun l => l !! i)) in R5'.
      rewrite !list_lookup_fmap, Hi in R5'. simpl in R5'. congruence. }
    specialize (E _ Hr4').
    apply (f_equal (fun m => get m "price")) in E.
    rewrite !get_insert_eq in E. rewrite E.
    by rewrite !get_insert_ne.
Qed.

End Provenance.

Section DerivedField.

Context {ext : Externals}.

Lemma transform_frame_total_column (df out : DataFrame) :
  has_column "quantity" df = true ->
  has_column "price" df = true ->
  transform_frame df = Ok out ->
  has_column "total_amount" out = true.
Proof.
  intros Hq Hp Hout.
  destruct (transform_frame_Ok df out Hout)
    as (d1 & d2 & d3 & d4 & d5 & d6 & _ & _ & H3 & H4 & H5 & H6 & H7).
  rewrite Hq, Hp in *. simpl in H3. cbv beta iota in H4, H5, H6, H7.
  rewrite (keep_positive_columns _ _ _ "total_amount" H7),
    (keep_positive_columns _ _ _ "total_amount" H6),
    (coerce_numeric_columns _ _ _ "total_amount" H5),
    (coerce_numeric_columns _ _ _ "total_amount" H4).
  apply derive_total_amount_Ok in H3 as (_ & _ & Hc3 & _).
  apply has_column_spec. rewrite Hc3.
  destruct (has_column "total_amount" d2) eqn:Ht.
  - by apply has_column_spec.
  - apply elem_of_app. right. by apply list_elem_of_singleton.
Qed.

(** C3, as the code has it.  When both columns exist [transform] sets
    [total_amount] to [quantity * price] computed on the values the two
    columns hold before they are coerced: every row of the output stems
    from a row of the input, equal to it outside the four columns
    [transform] writes, whose quantity times price is the row's
    [total_amount]; and when the quantity and price columns of the input
    are numeric, [total_amount] is the product of the quantity and price
    of the output row itself. *)
Theorem total_amount_from_input_values (df out : DataFrame) (s s' : state) :
  has_column "quantity" df = true ->
  has_column "price" df = true ->
  transform df s = (Ok out, s') ->
  has_column "total_amount" out = true /\
  (forall r, r ∈ rows out ->
     exists r0,
       r0 ∈ rows df /\
       cell_mul (get r0 "quantity") (get r0 "price") = Ok (get r "total_amount") /\
       forall c, c ∉ ["date"; "quantity"; "price"; "total_amount"]%string ->
                 r !! c = r0 !! c) /\
  (numeric_series (column df "quantity") = true ->
   numeric_series (column df "price") = true ->
   forall r, r ∈ rows out ->
     cell_mul (get r "quantity") (get r "price") = Ok (get r "total_amount")).
Proof.
  intros Hq Hp Hrun. apply transform_Ok in Hrun.
  split; [exact (transform_frame_total_column df out Hq Hp Hrun)|]. split.
  - intros r Hr.
    destruct (transform_frame_provenance df out Hq Hp Hrun r Hr)
      as (r0 & vd & v & cq & cp & Hr0 & _ & Hv & -> & _).
    exists r0. split; [done|]. split.
    + rewrite !get_insert_ne by done. by rewrite get_insert_eq.
    + intros c Hc.
      rewrite !lookup_insert_ne; [done| | | |];
        intros <-; apply Hc; set_solver.
  - intros Hnq Hnp r Hr.
    destruct (transform_frame_provenance df out Hq Hp Hrun r Hr)
      as (r0 & vd & v & cq & cp & Hr0 & _ & Hv & -> & Hcq & Hcp).
    rewrite (Hcq Hnq), (Hcp Hnp).
    rewrite get_insert_eq.
    rewrite (get_insert_ne _ "price" "quantity") by done.
    rewrite get_insert_eq.
    rewrite !(get_insert_ne _ _ "total_amount") by done.
    by rewrite get_insert_eq.
Qed.

End DerivedField.

(** ** Batches *)

Lemma take_min_length {A} (l : list A) (a : nat) :
  take (a `min` length l) l = take a l.
Proof.
  destruct (decide (a <= length l)%nat) as [Hle | Hgt].
  - by rewrite Nat.min_l.
  - rewrite Nat.min_r by lia. rewrite !take_ge; [done|lia|lia].
Qed.

Lemma take_add_drop {A} (l : list A) (a b : nat) :
  take (a + b) l = take a l ++ take b (drop a l).
Proof.
  revert l. induction a as [|a IH]; intros l; simpl; [done|].
  destruct l as [|x l]; simpl.
  - by rewrite take_nil.
  - by rewrite IH.
Qed.

(** Cutting a list into [m] consecutive pieces of [b] elements gives back
    its first [m * b] elements. *)
Lemma concat_pieces {A} (l : list A) (b m : nat) :
  concat (map (fun k => take b (drop (k * b) l)) (seq 0 m)) = take (m * b) l.
Proof.
  induction m as [|m IH]; [by rewrite take_0|].
  replace (S m * b)%nat with (m * b + b)%nat by lia.
  rewrite seq_S, map_app, concat_app, IH, take_add_drop.
  cbn [map concat Nat.add]. by rewrite app_nil_r.
Qed.

(** The number of batches: the least [m] with [n <= m * b]. *)
Lemma batch_count_bounds (n b : Z) :
  0 <= n -> 0 < b ->
  let m := (n + b - 1) / b in
  0 <= m /\ n <= m * b < n + b.
Proof.
  intros Hn Hb m. subst m.
  pose proof (Z.div_mod (n + b - 1) b ltac:(lia)) as Hdm.
  pose proof (Z.mod_pos_bound (n + b - 1) b Hb) as Hmod.
  assert (0 <= (n + b - 1) / b) by (apply Z.div_pos; lia).
  nia.
Qed.

(** The count [load] logs as [total_batches] is that number. *)
Lemma total_batches_ceil (n b : Z) :
  0 <= n -> 0 < b ->
  n / b + (if n mod b =? 0 then 0 else 1) = (n + b - 1) / b.
Proof.
  intros Hn Hb.
  pose proof (Z.div_mod n b ltac:(lia)) as Hdm.
  pose proof (Z.mod_pos_bound n b Hb) as Hmod.
  destruct (Z.eqb_spec (n mod b) 0) as [H0 | H0].
  - apply (Z.div_unique_pos _ _ _ (b - 1)); lia.
  - apply (Z.div_unique_pos _ _ _ (n mod b - 1)); lia.
Qed.

Lemma range_batches (n b : Z) :
  0 < b ->
  range 0 n b =
  Ok (map (fun k : nat => Z.of_nat k * b) (seq 0 (Z.to_nat ((n + b - 1) / b)))).
Proof.
  intros Hb. unfold range.
  destruct (Z.eqb_spec b 0); [lia|].
  destruct (Z.ltb_spec 0 b); [|lia].
  f_equal. rewrite Z.sub_0_r. apply map_ext. intros k. lia.
Qed.

(** The batch at offset [k * b] holds the rows [k * b] to [k * b + b]. *)
Lemma iloc_batch (df : DataFrame) (b : Z) (k : nat) :
  0 < b ->
  rows (iloc df (Z.of_nat k * b) (Z.of_nat k * b + b)) =
  take (Z.to_nat b) (drop (k * Z.to_nat b) (rows df)).
Proof.
  intros Hb. unfold iloc, slice_bound, len. simpl.
  destruct (Z.ltb_spec (Z.of_nat k * b) 0) as [|_]; [nia|].
  destruct (Z.ltb_spec (Z.of_nat k * b + b) 0) as [|_]; [nia|].
  set (n := length (rows df)).
  destruct (decide (Z.of_nat k * b <= Z.of_nat n)) as [Hle | Hgt].
  - rewrite (Z.min_l (Z.of_nat k * b)) by lia.
    replace (Z.to_nat (Z.of_nat k * b)) with (k * Z.to_nat b)%nat by nia.
    rewrite <- (take_min_length (drop _ _) (Z.to_nat b)).
    f_equal. rewrite length_drop. fold n. lia.
  - rewrite !Z.min_r by lia.
    rewrite Z.sub_diag. simpl. rewrite take_0.
    rewrite (drop_ge (rows df) (k * Z.to_nat b)) by (fold n; nia).
    by rewrite take_nil.
Qed.

Section LoadFacts.

Context {ext : Externals}.

Lemma planned_calls_eq (df : DataFrame) (t : string) (m : IfExists) (b : Z) :
  0 < b ->
  planned_calls df t m b =
  map (fun k : nat => batch_call df t m b (Z.of_nat k * b))
      (seq 0 (Z.to_nat ((len df + b - 1) / b))).
Proof.
  intros Hb. unfold planned_calls. rewrite range_batches by done.
  by rewrite map_map.
Qed.

Lemma planned_calls_lookup (df : DataFrame) (t : string) (m : IfExists) (b : Z)
    (i : nat) (c : sql_call) :
  0 < b ->
  planned_calls df t m b !! i = Some c ->
  (i < length (planned_calls df t m b))%nat /\
  c = {| call_table := t;
         call_if_exists := match i with O => m | S _ => append end;
         call_rows := take (Z.to_nat b) (drop (i * Z.to_nat b) (rows df)) |}.
Proof.
  intros Hb Hi. split; [by eapply lookup_lt_Some|].
  rewrite planned_calls_eq in Hi by done.
  rewrite list_lookup_fmap in Hi.
  destruct (seq 0 _ !! i) as [k|] eqn:Hk; [|done].
  apply lookup_seq in Hk as [-> _]. simpl in Hi. injection Hi as <-.
  unfold batch_call. rewrite iloc_batch by done. f_equal.
  destruct i as [|i]; [done|].
  destruct (Z.eqb_spec (Z.of_nat (S i) * b) 0); [nia|done].
Qed.

Lemma planned_calls_length (df : DataFrame) (t : string) (m : IfExists) (b : Z) :
  0 < b ->
  Z.of_nat (length (planned_calls df t m b)) = (len df + b - 1) / b.
Proof.
  intros Hb. rewrite planned_calls_eq by done.
  rewrite length_map, length_seq.
  pose proof (batch_count_bounds (len df) b) as H.
  unfold len in *. lia.
Qed.

Lemma planned_calls_concat (df : DataFrame) (t : string) (m : IfExists) (b : Z) :
  0 < b ->
  concat (map call_rows (planned_calls df t m b)) = rows df.
Proof.
  intros Hb. rewrite planned_calls_eq by done. rewrite map_map.
  rewrite (map_ext _ (fun k => take (Z.to_nat b) (drop (k * Z.to_nat b) (rows df))))
    by (intros k; unfold batch_call; simpl; by apply iloc_batch).
  rewrite concat_pieces. apply take_ge.
  pose proof (batch_count_bounds (len df) b) as H. unfold len in *. nia.
Qed.

(** *** Executing calls *)

Lemma sql_exec_seq_app (d : database) (cs1 cs2 : list sql_call) :
  sql_exec_seq d (cs1 ++ cs2) =
  match sql_exec_seq d cs1 with
  | Ok d1 => sql_exec_seq d1 cs2
  | Raise e => Raise e
  end.
Proof.
  revert d. induction cs1 as [|c cs1 IH]; intros d; simpl; [done|].
  destruct (sql_exec d c); [apply IH|done].
Qed.

Lemma sql_exec_seq_Raise (d : database) (cs : list sql_call) (e : exn) :
  sql_exec_seq d cs = Raise e ->
  exists pre c post d1,
    cs = pre ++ c :: post /\ sql_exec_seq d pre = Ok d1 /\ sql_exec d1 c = Raise e.
Proof.
  revert d. induction cs as [|c cs IH]; intros d; simpl; [discriminate|].
  destruct (sql_exec d c) as [d'|e'] eqn:Hc.
  - intros (pre & c' & post & d1 & -> & Hpre & Hc')%IH.
    exists (c :: pre), c', post, d1. simpl. by rewrite Hc.
  - intros [= ->]. by exists [], c, cs, d.
Qed.

(** The table after one successful write. *)
Lemma sql_exec_table (d d' : database) (c : sql_call) :
  sql_exec d c = Ok d' ->
  d' !! call_table c =
  Some (kept_rows (call_if_exists c) (d !! call_table c) ++ call_rows c).
Proof.
  unfold sql_exec, sql_write. destruct (sql_fault d c); [discriminate|].
  destruct (call_if_exists c), (d !! call_table c) as [old|] eqn:Hold;
    try discriminate; intros [= <-]; by rewrite lookup_insert_eq.
Qed.

(** The table after further successful appends. *)
Lemma sql_exec_seq_appends (t : string) (cs : list sql_call) :
  Forall (fun c => call_table c = t /\ call_if_exists c = append) cs ->
  forall (d d' : database) (old : list row),
    d !! t = Some old ->
    sql_exec_seq d cs = Ok d' ->
    d' !! t = Some (old ++ concat (map call_rows cs)).
Proof.
  induction 1 as [|c cs [Ht Hm] _ IH]; intros d d' old Hold; simpl.
  - intros [= <-]. by rewrite app_nil_r.
  - destruct (sql_exec d c) as [d1|] eqn:Hc; [|discriminate].
    intros Hcs. apply sql_exec_table in Hc.
    rewrite Ht, Hm, Hold in Hc. simpl in Hc.
    rewrite (IH d1 d' _ Hc Hcs). by rewrite app_assoc.
Qed.

(** The table after a successful non-empty beginning of the plan: what
    the first write kept, then the rows of the batches written. *)
Lemma planned_prefix_table (df : DataFrame) (t : string) (m : IfExists) (b : Z)
    (pre post : list sql_call) (d d' : database) :
  0 < b ->
  planned_calls df t m b = pre ++ post ->
  pre <> [] ->
  sql_exec_seq d pre = Ok d' ->
  d' !! t = Some (kept_rows m (d !! t) ++ concat (map call_rows pre)).
Proof.
  intros Hb Hplan Hne Hexec.
  destruct pre as [|c0 pre]; [done|]. simpl in *.
  destruct (sql_exec d c0) as [d1|] eqn:Hc0; [|discriminate].
  assert (planned_calls df t m b !! 0%nat = Some c0) as H0 by (by rewrite Hplan).
  apply planned_calls_lookup in H0 as [_ E0]; [|done].
  apply sql_exec_table in Hc0. rewrite E0 in Hc0 at 1 2 3. simpl in Hc0.
  assert (Forall (fun c => call_table c = t /\ call_if_exists c = append) pre)
    as Happ.
  { apply Forall_lookup. intros i c Hi.
    assert (planned_calls df t m b !! S i = Some c) as HS.
    { rewrite Hplan. simpl. by apply lookup_app_l_Some. }
    apply planned_calls_lookup in HS as [_ ->]; done. }
  rewrite (sql_exec_seq_appends t pre Happ d1 d' _ Hc0 Hexec).
  by rewrite app_assoc.
Qed.

(** Without faults, and with no table in the way of a [fail] write, the
    whole plan succeeds. *)
Lemma planned_calls_succeed (df : DataFrame) (t : string) (m : IfExists) (b : Z)
    (d : database) :
  0 < b ->
  (forall d c, sql_fault d c = None) ->
  (m = fail -> d !! t = None) ->
  exists d', sql_exec_seq d (planned_calls df t m b) = Ok d'.
Proof.
  intros Hb Hnofault Hfail.
  destruct (sql_exec_seq d (planned_calls df t m b)) as [d'|e] eqn:Hexec;
    [by eexists|].
  exfalso.
  apply sql_exec_seq_Raise in Hexec as (pre & c & post & d1 & Hplan & Hpre & Hc).
  assert (planned_calls df t m b !! length pre = Some c) as Hi.
  { rewrite Hplan. by rewrite list_lookup_middle. }
  apply planned_calls_lookup in Hi as [_ Ec]; [|done].
  unfold sql_exec, sql_write in Hc. rewrite Hnofault in Hc.
  destruct pre as [|c0 pre].
  - simpl in *. injection Hpre as <-. rewrite Ec in Hc. simpl in Hc.
    destruct m; try (destruct (d !! t); discriminate).
    rewrite Hfail in Hc by done. discriminate.
  - rewrite Ec in Hc. simpl in Hc. destruct (d1 !! t); discriminate.
Qed.

End LoadFacts.

(** *** The loop of [load] *)

Lemma after_calls_twice (s : state) (d1 d2 : database) (c1 c2 : list sql_call)
    (l1 l2 : list (level * message)) :
  after_calls (after_calls s d1 c1 l1) d2 c2 l2 = after_calls s d2 (c1 ++ c2) (l1 ++ l2).
Proof. unfold after_calls. simpl. by rewrite <- !app_assoc. Qed.

Lemma after_calls_nothing (s : state) : after_calls s (db s) [] [] = s.
Proof. unfold after_calls. destruct s. simpl. by rewrite !app_nil_r. Qed.

Section LoadLoop.

Context {ext : Externals}.

Lemma load_batch_Ok (df : DataFrame) (t : string) (m : IfExists) (eng : Engine)
    (b total i : Z) (s : state) (d' : database) :
  sql_exec (db s) (batch_call df t m b i) = Ok d' ->
  load_batch df t m eng b total i s =
  (Ok tt, after_calls s d' [batch_call df t m b i] [batch_record b total i]).
Proof.
  intros H. unfold load_batch, to_sql. unfold_M.
  fold (batch_call df t m b i). by rewrite H.
Qed.

Lemma load_batch_Raise (df : DataFrame) (t : string) (m : IfExists) (eng : Engine)
    (b total i : Z) (s : state) (e : exn) :
  sql_exec (db s) (batch_call df t m b i) = Raise e ->
  load_batch df t m eng b total i s =
  (Raise e, after_calls s (db s) [batch_call df t m b i] []).
Proof.
  intros H. unfold load_batch, to_sql. unfold_M.
  fold (batch_call df t m b i). rewrite H.
  unfold after_calls. by rewrite app_nil_r.
Qed.

(** When every write succeeds the loop issues a call per offset. *)
Lemma load_loop_Ok (df : DataFrame) (t : string) (m : IfExists) (eng : Engine)
    (b total : Z) (offsets : list Z) :
  forall (s : state) (d' : database),
    sql_exec_seq (db s) (map (batch_call df t m b) offsets) = Ok d' ->
    for_each offsets (load_batch df t m eng b total) s =
    (Ok tt, after_calls s d' (map (batch_call df t m b) offsets)
              (map (batch_record b total) offsets)).
Proof.
  induction offsets as [|i offsets IH]; intros s d'; simpl.
  - intros [= <-]. unfold M_ret. by rewrite after_calls_nothing.
  - destruct (sql_exec (db s) (batch_call df t m b i)) as [d1|] eqn:Hi;
      [|discriminate].
    intros Hrest. unfold M_bind. rewrite (load_batch_Ok _ _ _ _ _ _ _ _ _ Hi).
    rewrite (IH (after_calls s d1 [batch_call df t m b i] [batch_record b total i])
               d' Hrest).
    by rewrite after_calls_twice.
Qed.

(** When a write fails the loop stops there: the calls before it were
    issued and took effect, the failed call was issued, no other was. *)
Lemma load_loop_Raise (df : DataFrame) (t : string) (m : IfExists) (eng : Engine)
    (b total : Z) (before : list Z) (i : Z) (after : list Z) (e : exn) :
  forall (s : state) (d1 : database),
    sql_exec_seq (db s) (map (batch_call df t m b) before) = Ok d1 ->
    sql_exec d1 (batch_call df t m b i) = Raise e ->
    for_each (before ++ i :: after) (load_batch df t m eng b total) s =
    (Raise e, after_calls s d1 (map (batch_call df t m b) before ++ [batch_call df t m b i])
                (map (batch_record b total) before)).
Proof.
  induction before as [|j before IH]; intros s d1; simpl.
  - intros [= <-] Hi. unfold M_bind. by rewrite (load_batch_Raise _ _ _ _ _ _ _ _ _ Hi).
  - destruct (sql_exec (db s) (batch_call df t m b j)) as [d0|] eqn:Hj;
      [|discriminate].
    intros Hrest Hi. unfold M_bind. rewrite (load_batch_Ok _ _ _ _ _ _ _ _ _ Hj).
    rewrite (IH (after_calls s d0 [batch_call df t m b j] [batch_record b total j])
               d1 Hrest Hi).
    by rewrite after_calls_twice.
Qed.

(** [load] on a connected pipeline with a positive batch size: the loop
    between two log records, an exception turned into [False]. *)
Lemma load_connected (df : DataFrame) (t : string) (m : IfExists) (s : state)
    (eng : Engine) :
  self_engine s = Some eng ->
  0 < batch_size (self_config s) ->
  exists offsets total,
    range 0 (len df) (batch_size (self_config s)) = Ok offsets /\
    load df t m s =
    match for_each offsets
            (load_batch df t m eng (batch_size (self_config s)) total)
            (add_log INFO (MsgLoadStart t) s) with
    | (Ok _, s1) => (Ok true, add_log INFO (MsgLoadDone (len df) t) s1)
    | (Raise e, s1) => (Ok false, add_log ERROR (MsgLoadError e) s1)
    end.
Proof.
  intros Heng Hb. rewrite range_batches by done.
  set (b := batch_size (self_config s)) in *.
  exists (map (fun k : nat => Z.of_nat k * b)
            (seq 0 (Z.to_nat ((len df + b - 1) / b)))),
    (len df / b + (if len df mod b =? 0 then 0 else 1)).
  split; [reflexivity|].
  unfold load. unfold_M.
  change (self_engine (add_log INFO (MsgLoadStart t) s)) with (self_engine s).
  rewrite Heng. cbv beta iota.
  change (self_config (add_log INFO (MsgLoadStart t) s)) with (self_config s).
  fold b. unfold floordiv, pymod.
  destruct (Z.eqb_spec b 0) as [|_]; [lia|].
  rewrite range_batches by done. cbv beta iota.
  destruct (for_each _ _ _) as [[[]|e] s1]; reflexivity.
Qed.

End LoadLoop.

(** ** Properties of [load] *)

Section LoadProperties.

Context {ext : Externals}.

(** What [load] returns and leaves on a connected pipeline with a positive
    batch size: all planned calls and [True] when they all succeed, the
    calls up to the first that fails and [False] otherwise. *)
Lemma load_outcome (df : DataFrame) (t : string) (m : IfExists) (s : state)
    (eng : Engine) :
  self_engine s = Some eng ->
  0 < batch_size (self_config s) ->
  let plan := planned_calls df t m (batch_size (self_config s)) in
  (forall d',
     sql_exec_seq (db s) plan = Ok d' ->
     exists s', load df t m s = (Ok true, s') /\
                sql_log s' = sql_log s ++ plan /\ db s' = d') /\
  (forall pre w post d1 e,
     plan = pre ++ w :: post ->
     sql_exec_seq (db s) pre = Ok d1 ->
     sql_exec d1 w = Raise e ->
     exists s', load df t m s = (Ok false, s') /\
                sql_log s' = sql_log s ++ pre ++ [w] /\ db s' = d1 /\
                (ERROR, MsgLoadError e) ∈ log s').
Proof.
  intros Heng Hb plan.
  destruct (load_connected df t m s eng Heng Hb) as (offsets & total & Hrange & Hload).
  assert (plan = map (batch_call df t m (batch_size (self_config s))) offsets)
    as Hplan.
  { unfold plan, planned_calls. by rewrite Hrange. }
  split.
  - intros d' Hexec. rewrite Hplan in Hexec.
    rewrite (load_loop_Ok df t m eng _ total offsets
               (add_log INFO (MsgLoadStart t) s) d' Hexec) in Hload.
    eexists. split; [exact Hload|]. simpl. by rewrite Hplan.
  - intros pre w post d1 e Hsplit Hpre Hw.
    rewrite Hplan in Hsplit.
    apply fmap_app_inv in Hsplit as (before & rest & -> & Hrest & ->).
    symmetry in Hrest.
    apply fmap_cons_inv in Hrest as (i & after & -> & -> & ->).
    rewrite (load_loop_Raise df t m eng _ total before i after e
               (add_log INFO (MsgLoadStart t) s) d1 Hpre Hw) in Hload.
    eexists. split; [exact Hload|]. simpl. split; [done|]. split; [done|].
    apply elem_of_app. right. by apply list_elem_of_singleton.
Qed.

(** C1.  On a connected pipeline with batch size [b > 0], [load] goes
    through [ceil(n / b)] batches, the number it logs as [total_batches]:
    consecutive pieces of the table, of [b] rows each except that the last
    may be smaller, none empty, which together are the table; the first is
    written with the given [if_exists], every later one with [append], all
    to the given table.  The calls [load] issues are always the first
    of these, in order.  When [load] returns [True] it has issued exactly
    these calls and all took effect; it does so whenever they all succeed,
    in particular when the destination raises no fault and no table stands
    in the way of a [fail] write, and the table then holds the rows it kept
    followed by the rows of the frame.  On an empty table [load] issues no
    call and returns [True]. *)
Theorem load_writes_batches (df : DataFrame) (t : string) (m : IfExists)
    (s : state) (eng : Engine) :
  0 < batch_size (self_config s) ->
  self_engine s = Some eng ->
  let b := batch_size (self_config s) in
  let plan := planned_calls df t m b in
  Z.of_nat (length plan) = (len df + b - 1) / b /\
  len df <= Z.of_nat (length plan) * b < len df + b /\
  len df / b + (if len df mod b =? 0 then 0 else 1) = (len df + b - 1) / b /\
  concat (map call_rows plan) = rows df /\
  (forall (i : nat) (c : sql_call),
     plan !! i = Some c ->
     call_table c = t /\
     call_if_exists c = match i with O => m | S _ => append end /\
     call_rows c = take (Z.to_nat b) (drop (i * Z.to_nat b) (rows df)) /\
     (0 < length (call_rows c) <= Z.to_nat b)%nat /\
     ((S i < length plan)%nat -> length (call_rows c) = Z.to_nat b)) /\
  (forall r s',
     load df t m s = (r, s') ->
     exists calls, sql_log s' = sql_log s ++ calls /\ calls `prefix_of` plan) /\
  (forall s',
     load df t m s = (Ok true, s') ->
     sql_log s' = sql_log s ++ plan /\ sql_exec_seq (db s) plan = Ok (db s')) /\
  (forall d',
     sql_exec_seq (db s) plan = Ok d' ->
     exists s', load df t m s = (Ok true, s') /\
                sql_log s' = sql_log s ++ plan /\ db s' = d') /\
  ((forall d c, sql_fault d c = None) ->
   (m = fail -> db s !! t = None) ->
   exists s', load df t m s = (Ok true, s') /\
              sql_log s' = sql_log s ++ plan /\
              (rows df <> [] ->
               db s' !! t = Some (kept_rows m (db s !! t) ++ rows df))) /\
  (rows df = [] ->
   exists s', load df t m s = (Ok true, s') /\
              sql_log s' = sql_log s /\ db s' = db s).
Proof.
  intros Hb Heng b plan.
  destruct (load_outcome df t m s eng Heng Hb) as [Hok Hfail].
  fold b in Hok, Hfail. fold plan in Hok, Hfail.
  pose proof (planned_calls_length df t m b Hb) as Hlen. fold plan in Hlen.
  pose proof (batch_count_bounds (len df) b ltac:(unfold len; lia) Hb) as [Hm0 Hm].
  pose proof (planned_calls_concat df t m b Hb) as Hcat. fold plan in Hcat.
  split; [done|]. split; [by rewrite Hlen|].
  split; [apply total_batches_ceil; [unfold len; lia|done]|].
  split; [done|].
  split.
  { intros i c Hi.
    apply planned_calls_lookup in Hi as [Hlt ->]; [|done]. fold plan in Hlt.
    simpl. split; [done|]. split; [done|]. split; [done|].
    rewrite length_take, length_drop. unfold len in *.
    set (B := Z.to_nat b). set (N := length (rows df)) in *.
    assert (Z.of_nat B = b) as HB by (unfold B; lia).
    assert (Z.of_nat i * b < Z.of_nat N) as Hi by nia.
    assert (i * B < N)%nat as Hi' by nia.
    split; [lia|]. intros HS.
    assert ((Z.of_nat i + 1) * b < Z.of_nat N) as Hi2 by nia.
    assert (i * B + B <= N)%nat by nia. lia. }
  split.
  { intros r s' Hload.
    destruct (sql_exec_seq (db s) plan) as [d'|e] eqn:Hexec.
    - destruct (Hok d' eq_refl) as (s'' & Hload' & Hlog & Hdb).
      rewrite Hload in Hload'. injection Hload' as -> ->. by exists plan.
    - apply sql_exec_seq_Raise in Hexec as (pre & w & post & d1 & Hsplit & Hpre & Hw).
      destruct (Hfail pre w post d1 e Hsplit Hpre Hw) as (s'' & Hload' & Hlog & _).
      rewrite Hload in Hload'. injection Hload' as -> ->.
      exists (pre ++ [w]). split; [done|].
      exists post. by rewrite Hsplit, <- app_assoc. }
  split.
  { intros s' Hload.
    destruct (sql_exec_seq (db s) plan) as [d'|e] eqn:Hexec.
    - destruct (Hok d' eq_refl) as (s'' & Hload' & Hlog & Hdb).
      rewrite Hload in Hload'. injection Hload' as <-. by rewrite Hdb.
    - apply sql_exec_seq_Raise in Hexec as (pre & w & post & d1 & Hsplit & Hpre & Hw).
      destruct (Hfail pre w post d1 e Hsplit Hpre Hw) as (s'' & Hload' & _).
      rewrite Hload in Hload'. discriminate. }
  split; [exact Hok|].
  split.
  { intros Hnofault Hnotable.
    destruct (planned_calls_succeed df t m b (db s) Hb Hnofault Hnotable)
      as [d' Hexec]. fold plan in Hexec.
    destruct (Hok d' Hexec) as (s' & Hload & Hlog & Hdb).
    exists s'. split; [done|]. split; [done|].
    intros Hne. rewrite Hdb.
    rewrite (planned_prefix_table df t m b plan [] (db s) d' Hb); 
      [by rewrite Hcat|by rewrite app_nil_r| |done].
    intros Hnil. rewrite Hnil in Hcat. simpl in Hcat. congruence. }
  intros Hempty.
  assert (plan = []) as Hnil.
  { apply length_zero_iff_nil.
    assert (len df = 0) as H0 by (unfold len; by rewrite Hempty).
    rewrite H0 in Hm, Hlen. nia. }
  destruct (Hok (db s)) as (s' & Hload & Hlog & Hdb); [by rewrite Hnil|].
  exists s'. split; [done|]. split; [|done].
  by rewrite Hlog, Hnil, app_nil_r.
Qed.

(** C2.  On a connected pipeline with a positive batch size, when the
    batches before the [k]-th are written and the write of the [k]-th
    raises, [load] returns [False] having issued these [k] calls and no
    other; the destination is as the first [k - 1] writes left it, so the
    table holds the rows of the batches [1..k-1] after the rows it kept
    (the destination is untouched when [k = 1]); the error is logged. *)
Theorem load_stops_at_failed_batch (df : DataFrame) (t : string) (m : IfExists)
    (s : state) (eng : Engine) (pre : list sql_call) (w : sql_call)
    (post : list sql_call) (d1 : database) (e : exn) :
  0 < batch_size (self_config s) ->
  self_engine s = Some eng ->
  planned_calls df t m (batch_size (self_config s)) = pre ++ w :: post ->
  sql_exec_seq (db s) pre = Ok d1 ->
  sql_exec d1 w = Raise e ->
  exists s',
    load df t m s = (Ok false, s') /\
    sql_log s' = sql_log s ++ pre ++ [w] /\
    db s' = d1 /\
    (pre <> [] ->
     db s' !! t = Some (kept_rows m (db s !! t) ++ concat (map call_rows pre))) /\
    (pre = [] -> db s' = db s) /\
    (ERROR, MsgLoadError e) ∈ log s'.
Proof.
  intros Hb Heng Hsplit Hpre Hw.
  destruct (load_outcome df t m s eng Heng Hb) as [_ Hfail].
  destruct (Hfail pre w post d1 e Hsplit Hpre Hw) as (s' & Hload & Hlog & Hdb & Herr).
  exists s'. split; [done|]. split; [done|]. split; [done|].
  split; [|split; [|done]].
  - intros Hne. rewrite Hdb.
    by apply (planned_prefix_table df t m (batch_size (self_config s))
                pre (w :: post) (db s) d1).
  - intros ->. simpl in Hpre. congruence.
Qed.

(** C10.  Before a connection is established [load] raises nothing to its
    caller: it returns [False], having logged the error, issued no call
    and left the destination alone. *)
Theorem load_without_connection (df : DataFrame) (t : string) (m : IfExists)
    (s : state) :
  self_engine s = None ->
  let s' :=
    with_log s
      (log s ++ [(INFO, MsgLoadStart t);
                 (ERROR, MsgLoadError (RuntimeError "Database connection not established"))]) in
  load df t m s = (Ok false, s') /\
  sql_log s' = sql_log s /\ db s' = db s.
Proof.
  intros Heng s'. split; [|done].
  unfold load. unfold_M.
  change (self_engine (add_log INFO (MsgLoadStart t) s)) with (self_engine s).
  rewrite Heng. cbv beta iota. by rewrite add_log_two.
Qed.

End LoadProperties.

(** ** Properties of [extract] and [run] *)

Section RunProperties.

Context {ext : Externals}.

Lemma extract_unsupported (source_path : string) (s : state) :
  endswith source_path ".csv" = false ->
  endswith source_path ".xlsx" = false ->
  extract source_path s =
  (Raise (ValueError ("Unsupported file format: " ++ source_path)),
   with_log s
     (log s ++
      [(INFO, MsgExtractStart source_path);
       (ERROR, MsgExtractError
                 (ValueError ("Unsupported file format: " ++ source_path)))])).
Proof.
  intros Hcsv Hxlsx. unfold extract. unfold_M. rewrite Hcsv, Hxlsx.
  cbv beta iota. by rewrite add_log_two.
Qed.

(** C7.  On a path that ends neither in [.csv] nor in [.xlsx], [extract]
    raises the unsupported-format error, and [run] returns [False]
    without starting [transform] or [load]: neither logs its start, no
    [to_sql] call is issued and the destination is left alone. *)
Theorem unsupported_format_aborts_run (source_path target_table : string)
    (s : state) :
  endswith source_path ".csv" = false ->
  endswith source_path ".xlsx" = false ->
  (extract source_path s =
   (Raise (ValueError ("Unsupported file format: " ++ source_path)),
    with_log s
      (log s ++
       [(INFO, MsgExtractStart source_path);
        (ERROR, MsgExtractError
                  (ValueError ("Unsupported file format: " ++ source_path)))]))) /\
  exists s' records,
    run source_path target_table s = (Ok false, s') /\
    db s' = db s /\ sql_log s' = sql_log s /\
    log s' = log s ++ records /\
    ((INFO, MsgTransformStart) ∉ records) /\
    (forall t, (INFO, MsgLoadStart t) ∉ records).
Proof.
  intros Hcsv Hxlsx. split; [by apply extract_unsupported|].
  unfold run, connect_database. unfold_M. unfold set_engine.
  cbn [self_config add_log].
  destruct (create_engine _) as [eng|e]; cbv beta iota.
  - cbn [negb]. cbv beta iota.
    rewrite extract_unsupported by done. cbv beta iota.
    eexists _, _. split; [reflexivity|].
    cbn [db sql_log log add_log with_log]. split; [done|]. split; [done|].
    split; [rewrite <- !app_assoc; reflexivity|].
    split; [|intros t]; intros Hin;
      repeat (apply elem_of_cons in Hin as [Hin | Hin]; [discriminate|]);
      by apply elem_of_nil in Hin.
  - cbn [negb]. cbv beta iota.
    eexists _, _. split; [reflexivity|].
    cbn [db sql_log log add_log with_log]. split; [done|]. split; [done|].
    split; [rewrite <- !app_assoc; reflexivity|].
    split; [|intros t]; intros Hin;
      repeat (apply elem_of_cons in Hin as [Hin | Hin]; [discriminate|]);
      by apply elem_of_nil in Hin.
Qed.

End RunProperties.

(** ** Steps that leave a clean table as it is *)

Lemma frame_eta (df : DataFrame) :
  {| columns := columns df; rows := rows df |} = df.
Proof. by destruct df. Qed.

Lemma column_forallb (P : cell -> bool) (df : DataFrame) (col : string) :
  forallb P (column df col) = true <-> all_cells P df col.
Proof.
  unfold column, all_cells. rewrite forallb_forall. split.
  - intros H r Hr. apply H.
    apply (in_map (fun r => get r col)). by apply list_elem_of_In.
  - intros H c (r & <- & Hr)%in_map_iff. apply H. by apply list_elem_of_In.
Qed.

Lemma get_present (r : row) (c : string) :
  isna (get r c) = false -> r !! c = Some (get r c).
Proof. unfold get. by destruct (r !! c). Qed.

Lemma assign_same (c : string) (rs : list row) :
  (forall r, r ∈ rs -> r !! c = Some (get r c)) ->
  map (fun r => <[c := get r c]> r) rs = rs.
Proof.
  intros H. rewrite <- (map_id rs) at 2. apply map_ext_in.
  intros r Hr%list_elem_of_In. by apply insert_id, H.
Qed.

Lemma mapM_total {A B} (f : A -> result B) (g : A -> B) (xs : list A) :
  (forall x, x ∈ xs -> f x = Ok (g x)) -> mapM f xs = Ok (map g xs).
Proof.
  intros H. apply mapM_Ok. induction xs as [|x xs IH]; simpl; constructor.
  - apply H. apply elem_of_cons. by left.
  - apply IH. intros y Hy. apply H. apply elem_of_cons. by right.
Qed.

Lemma select_rows_true (rs : list row) :
  select_rows rs (map (fun _ => true) rs) = rs.
Proof. induction rs as [|r rs IH]; simpl; by rewrite ?IH. Qed.

Lemma drop_duplicates_id (df : DataFrame) :
  no_duplicates (columns df) df = true -> drop_duplicates df = df.
Proof.
  unfold no_duplicates, drop_duplicates, bool_index, duplicated. intros H.
  rewrite select_rows_all; [apply frame_eta| |].
  - by rewrite length_map, duplicated_from_length.
  - apply Forall_forall. intros b (b' & -> & Hb')%list_elem_of_fmap.
    rewrite forallb_forall in H. apply H. by apply list_elem_of_In.
Qed.

Lemma dropna_id (subset : list string) (df : DataFrame) :
  (forall c, c ∈ subset -> c ∈ columns df) ->
  (forall c, c ∈ subset -> all_cells notna df c) ->
  dropna subset df = Ok df.
Proof.
  intros Hcols Hnotna. unfold dropna.
  destruct (filter (fun c => ¬ c ∈ columns df) subset) as [|c0 l] eqn:Hf.
  - f_equal. unfold bool_index.
    rewrite (map_ext_in _ (fun _ => true)).
    + rewrite select_rows_true. apply frame_eta.
    + intros r Hr%list_elem_of_In. apply forallb_forall.
      intros c Hc%list_elem_of_In. by apply Hnotna.
  - assert (c0 ∈ filter (fun c => ¬ c ∈ columns df) subset) as Hin
      by (rewrite Hf; apply elem_of_cons; by left).
    apply list_elem_of_filter in Hin as [Hn Hin]. destruct Hn. by apply Hcols.
Qed.

Lemma keep_positive_id (col : string) (df : DataFrame) :
  has_column col df = true ->
  all_cells positive df col ->
  keep_positive col df = Ok df.
Proof.
  intros Hcol Hpos. unfold keep_positive, getitem, series_gt0. unfold_M.
  rewrite Hcol.
  rewrite (mapM_total cell_gt0 (fun _ => true)).
  - f_equal. unfold bool_index. rewrite map_map, select_rows_true.
    apply frame_eta.
  - intros c (r & -> & Hr)%list_elem_of_fmap. apply positive_gt0. by apply Hpos.
Qed.

Section CleanSteps.

Context {ext : Externals}.

Lemma convert_date_id (df : DataFrame) :
  has_column "date" df = true ->
  all_cells is_timestamp df "date" ->
  convert_date df = Ok df.
Proof.
  intros Hcol Hts. unfold convert_date, getitem, to_datetime, setitem. unfold_M.
  rewrite Hcol.
  rewrite (mapM_total _ (fun c => c)).
  - rewrite map_id, length_map, bool_decide_true by done. f_equal.
    rewrite (zip_with_map_r (fun r v => <["date"%string := v]> r)
               (fun r => get r "date")).
    rewrite assign_same; [apply frame_eta|].
    intros r Hr. apply get_present. specialize (Hts r Hr).
    by destruct (get r "date").
  - intros c (r & -> & Hr)%list_elem_of_fmap. specialize (Hts r Hr).
    by destruct (get r "date").
Qed.

Lemma coerce_numeric_id (col : string) (df : DataFrame) :
  has_column col df = true ->
  all_cells is_int df col \/ all_cells is_float df col ->
  all_cells positive df col ->
  coerce_numeric col df = Ok df.
Proof.
  intros Hcol Hnum Hpos.
  destruct (coerce_numeric_total col df Hcol) as [df' Hdf']. rewrite Hdf'.
  f_equal.
  pose proof (coerce_numeric_same col df df' Hdf' Hnum) as Hrows.
  apply coerce_numeric_Ok in Hdf' as (_ & Hcols & _).
  rewrite assign_same in Hrows.
  - destruct df, df'. simpl in *. congruence.
  - intros r Hr. apply get_present. apply gt0_notna, positive_gt0. by apply Hpos.
Qed.

Lemma cell_mul_numbers (a b : cell) :
  is_number a = true -> is_number b = true -> exists v, cell_mul a b = Ok v.
Proof. destruct a, b; try done; by eexists. Qed.

Lemma derive_total_amount_numbers (df : DataFrame) :
  has_column "quantity" df = true ->
  has_column "price" df = true ->
  all_cells is_number df "quantity" ->
  all_cells is_number df "price" ->
  derive_total_amount df = Ok (with_total df).
Proof.
  intros Hq Hp Hnq Hnp.
  unfold derive_total_amount, getitem, series_mul, setitem. unfold_M.
  rewrite Hq, Hp. rewrite zip_map_map.
  rewrite (mapM_total _ (fun x => match cell_mul x.1 x.2 with
                                  | Ok v => v | Raise _ => NaN end)).
  - rewrite map_map, length_map, bool_decide_true by done. f_equal.
    unfold with_total. rewrite Hq, Hp. simpl. f_equal.
    apply (zip_with_map_r (fun r v => <["total_amount"%string := v]> r) product).
  - intros x (r & -> & Hr)%list_elem_of_fmap. simpl.
    destruct (cell_mul_numbers _ _ (Hnq r Hr) (Hnp r Hr)) as [v ->]. done.
Qed.

End CleanSteps.

(** ** The table [transform] makes of a clean table *)

Lemma with_total_has_column (df : DataFrame) (c : string) :
  c <> "total_amount"%string ->
  has_column c (with_total df) = has_column c df.
Proof.
  intros Hne. unfold with_total.
  destruct (has_column "quantity" df && has_column "price" df); [|done].
  by apply (has_column_added c "total_amount").
Qed.

Lemma product_insert_total (r : row) (v : cell) :
  product (<["total_amount"%string := v]> r) = product r.
Proof. unfold product. by rewrite !get_insert_ne. Qed.

Lemma with_total_column (df : DataFrame) (c : string) :
  c <> "total_amount"%string ->
  column (with_total df) c = column df c.
Proof.
  intros Hne. unfold with_total, column.
  destruct (has_column "quantity" df && has_column "price" df); [|done].
  simpl. rewrite map_map. apply map_ext. intros r. by rewrite get_insert_ne.
Qed.

Lemma with_total_idempotent (df : DataFrame) :
  with_total (with_total df) = with_total df.
Proof.
  unfold with_total at 1.
  rewrite !with_total_has_column by done.
  destruct (has_column "quantity" df && has_column "price" df) eqn:Hqp; [|done].
  unfold with_total. rewrite Hqp. simpl. f_equal.
  - assert (has_column "total_amount"
              {| columns := if has_column "total_amount" df then columns df
                            else columns df ++ ["total_amount"%string];
                 rows := map (fun r => <["total_amount"%string := product r]> r)
                             (rows df) |} = true) as ->; [|done].
    apply has_column_spec. simpl.
    destruct (has_column "total_amount" df) eqn:Ht.
    + by apply has_column_spec.
    + apply elem_of_app. right. by apply list_elem_of_singleton.
  - rewrite map_map. apply map_ext. intros r.
    by rewrite product_insert_total, insert_insert_eq.
Qed.

(** Rows that differ in their keys under some columns differ under more
    columns, and rows keep their keys under the columns they are not
    changed in. *)
Lemma row_key_eq_iff (cols : list string) (r1 r2 : row) :
  row_key cols r1 = row_key cols r2 <->
  forall c, c ∈ cols -> cell_key (get r1 c) = cell_key (get r2 c).
Proof.
  unfold row_key. induction cols as [|c cols IH]; simpl.
  - split; [intros _ c Hc; by apply elem_of_nil in Hc|done].
  - split.
    + intros [= Hc Hrest] c' [-> | Hc']%elem_of_cons; [done|].
      by apply IH.
    + intros H. f_equal.
      * apply H. apply elem_of_cons. by left.
      * apply IH. intros c' Hc'. apply H. apply elem_of_cons. by right.
Qed.

Lemma no_duplicates_spec (cols : list string) (df : DataFrame) :
  no_duplicates cols df = true <->
  forall (i j : nat) (ri rj : row),
    (j < i)%nat -> rows df !! i = Some ri -> rows df !! j = Some rj ->
    row_key cols rj <> row_key cols ri.
Proof.
  unfold no_duplicates. rewrite forallb_forall. split.
  - intros H i j ri rj Hji Hi Hj Heq.
    destruct (duplicated_from_spec cols (rows df) [] i ri Hi) as (b & Hb & Hiff).
    assert (b = true) as ->.
    { apply Hiff. right. by exists j, rj. }
    apply list_elem_of_lookup_2, list_elem_of_In, H in Hb. done.
  - intros H b Hb%list_elem_of_In. destruct b; [|done]. exfalso.
    apply list_elem_of_lookup_1 in Hb as (i & Hi).
    assert (i < length (rows df))%nat as Hlt.
    { rewrite <- (duplicated_from_length cols (rows df) []).
      by eapply lookup_lt_Some. }
    apply lookup_lt_is_Some_2 in Hlt as (ri & Hri).
    destruct (duplicated_from_spec cols (rows df) [] i ri Hri) as (b & Hb & Hiff).
    rewrite Hi in Hb. injection Hb as <-.
    destruct (proj1 Hiff eq_refl) as [(k & Hk & _) | (j & rj & Hji & Hj & Heq)].
    + by apply elem_of_nil in Hk.
    + by apply (H i j ri rj).
Qed.

Lemma with_total_no_duplicates (df : DataFrame) :
  no_duplicates (columns df) df = true ->
  no_duplicates (source_columns df) df = true ->
  no_duplicates (columns (with_total df)) (with_total df) = true.
Proof.
  intros Hall Hsrc. unfold with_total.
  destruct (has_column "quantity" df && has_column "price" df); [|done].
  apply no_duplicates_spec. simpl. intros i j ri' rj' Hji Hi Hj Heq.
  rewrite list_lookup_fmap in Hi, Hj.
  destruct (rows df !! i) as [ri|] eqn:Hri; [|done].
  destruct (rows df !! j) as [rj|] eqn:Hrj; [|done].
  simpl in Hi, Hj. injection Hi as <-. injection Hj as <-.
  apply (proj1 (no_duplicates_spec _ _) Hsrc i j ri rj Hji Hri Hrj).
  apply row_key_eq_iff. intros c Hc.
  unfold source_columns in Hc. apply list_elem_of_filter in Hc as [Hne Hc].
  rewrite row_key_eq_iff in Heq.
  specialize (Heq c). rewrite !get_insert_ne in Heq by done. apply Heq.
  destruct (has_column "total_amount" df); [done|].
  apply elem_of_app. by left.
Qed.

Lemma positive_numeric_spec (df : DataFrame) (col : string) :
  positive_numeric df col = true ->
  has_column col df = true ->
  (all_cells is_int df col \/ all_cells is_float df col) /\
  all_cells positive df col.
Proof.
  unfold positive_numeric. intros H Hcol. rewrite Hcol in H. simpl in H.
  apply andb_true_iff in H as [Hnum Hpos]. split.
  - by apply numeric_series_spec.
  - by apply column_forallb.
Qed.

Lemma with_total_positive_numeric (df : DataFrame) (col : string) :
  col <> "total_amount"%string ->
  positive_numeric (with_total df) col = positive_numeric df col.
Proof.
  intros Hne. unfold positive_numeric.
  by rewrite with_total_has_column, with_total_column.
Qed.

(** The output of [transform] on a clean table is clean, when its rows
    differ outside [total_amount]. *)
Lemma with_total_clean (df : DataFrame) :
  clean_as_listed df = true ->
  no_duplicates (source_columns df) df = true ->
  clean_as_listed (with_total df) = true.
Proof.
  unfold clean_as_listed. rewrite !andb_true_iff.
  intros [[[[[[Hdup Hid] Hdate] Hnn] Hts] Hq] Hp] Hsrc.
  rewrite !with_total_has_column, !with_total_column,
    !with_total_positive_numeric by done.
  repeat split; try done. by apply with_total_no_duplicates.
Qed.

Lemma positive_is_number (c : cell) : positive c = true -> is_number c = true.
Proof. by destruct c. Qed.

(** A positive cell is its own key: it is no zero. *)
Lemma positive_key (c : cell) : positive c = true -> cell_key c = c.
Proof. destruct c as [z|f|t|ns|]; try done. by destruct f. Qed.

(** In a clean table with consistent totals, rows that differ differ
    outside [total_amount]: the total is determined by the quantity and
    the price. *)
Lemma clean_source_distinct (df : DataFrame) :
  clean_as_listed df = true ->
  consistent_totals df = true ->
  has_column "quantity" df && has_column "price" df = true ->
  no_duplicates (source_columns df) df = true.
Proof.
  unfold clean_as_listed, consistent_totals. rewrite !andb_true_iff.
  intros [[[[[[Hdup Hid] Hdate] Hnn] Hts] Hq] Hp] Htotals [Hcq Hcp].
  rewrite Hcq, Hcp in Htotals. simpl in Htotals.
  destruct (has_column "total_amount" df) eqn:Hct; simpl in Htotals.
  - apply no_duplicates_spec. intros i j ri rj Hji Hi Hj Heq.
    apply (proj1 (no_duplicates_spec _ _) Hdup i j ri rj Hji Hi Hj).
    rewrite row_key_eq_iff in Heq. apply row_key_eq_iff. intros c Hc.
    destruct (decide (c = "total_amount"%string)) as [-> | Hne].
    + assert (forall col, has_column col df = true ->
                col <> "total_amount"%string ->
                positive_numeric df col = true ->
                get rj col = get ri col) as Hsame.
      { intros col Hcol Hcne Hpn.
        destruct (positive_numeric_spec df col Hpn Hcol) as [_ Hpos].
        rewrite <- (positive_key (get rj col))
          by (by apply Hpos, (list_elem_of_lookup_2 _ j)).
        rewrite <- (positive_key (get ri col))
          by (by apply Hpos, (list_elem_of_lookup_2 _ i)).
        apply Heq. unfold source_columns. apply list_elem_of_filter.
        split; [done|]. by apply has_column_spec. }
      assert (product rj = product ri) as Hprod.
      { unfold product.
        by rewrite (Hsame "quantity"%string), (Hsame "price"%string). }
      rewrite forallb_forall in Htotals.
      pose proof (Htotals rj (proj1 (list_elem_of_In _ _)
                                (list_elem_of_lookup_2 _ j _ Hj))) as Hrj.
      pose proof (Htotals ri (proj1 (list_elem_of_In _ _)
                                (list_elem_of_lookup_2 _ i _ Hi))) as Hri.
      apply cell_eqb_spec in Hrj, Hri. congruence.
    + apply Heq. unfold source_columns. apply list_elem_of_filter. by split.
  - replace (source_columns df) with (columns df); [done|].
    unfold source_columns. apply eq_sym.
    assert (forall c, c ∈ columns df -> c <> "total_amount"%string) as Hnot.
    { intros c Hc ->. apply has_column_spec in Hc. congruence. }
    revert Hnot. generalize (columns df). intros cols Hnot.
    induction cols as [|c cols IH]; [done|].
    rewrite filter_cons_True by apply Hnot, list_elem_of_here.
    f_equal. apply IH. intros c' Hc'. by apply Hnot, list_elem_of_further.
Qed.

(** The totals [transform] sets are consistent. *)
Lemma with_total_consistent (df : DataFrame) :
  consistent_totals df = true -> consistent_totals (with_total df) = true.
Proof.
  intros Hdf. unfold with_total.
  destruct (has_column "quantity" df && has_column "price" df); [|done].
  unfold consistent_totals. apply orb_true_iff. right. cbn [rows].
  apply forallb_forall. intros r' Hr'%list_elem_of_In.
  apply list_elem_of_fmap in Hr' as (r & -> & _).
  rewrite get_insert_eq, product_insert_total. by apply cell_eqb_spec.
Qed.

Section CleanTables.

Context {ext : Externals}.

(** On a clean table [transform] removes nothing and converts nothing:
    it sets the [total_amount] column, when there is a quantity and a
    price. *)
Lemma transform_frame_clean (df : DataFrame) :
  clean_as_listed df = true -> transform_frame df = Ok (with_total df).
Proof.
  unfold clean_as_listed. rewrite !andb_true_iff.
  intros [[[[[[Hdup Hid] Hdate] Hnn] Hts] Hq] Hp].
  unfold transform_frame. unfold_M.
  rewrite drop_duplicates_id by done.
  rewrite dropna_id; cycle 1.
  { intros c [-> | [-> | []%elem_of_nil]%elem_of_cons]%elem_of_cons;
      by apply has_column_spec. }
  { intros c [-> | [-> | []%elem_of_nil]%elem_of_cons]%elem_of_cons.
    - by apply column_forallb.
    - apply column_forallb in Hts. intros r Hr. specialize (Hts r Hr).
      by destruct (get r "date"). }
  cbv beta iota. rewrite Hdate.
  rewrite convert_date_id by (done || by apply column_forallb).
  cbv beta iota.
  assert ((if has_column "quantity" df && has_column "price" df
           then derive_total_amount df else Ok df) = Ok (with_total df)) as ->.
  { destruct (has_column "quantity" df) eqn:Hcq, (has_column "price" df) eqn:Hcp;
      simpl; try (unfold with_total; by rewrite Hcq, Hcp).
    apply derive_total_amount_numbers; try done.
    - intros r Hr. apply positive_is_number.
      by apply (positive_numeric_spec df "quantity").
    - intros r Hr. apply positive_is_number.
      by apply (positive_numeric_spec df "price"). }
  cbv beta iota.
  assert (forall col, col = "quantity"%string \/ col = "price"%string ->
            positive_numeric (with_total df) col = true) as Hpn.
  { intros col [-> | ->]; by rewrite with_total_positive_numeric. }
  assert (forall col, col = "quantity"%string \/ col = "price"%string ->
            (if has_column col (with_total df)
             then coerce_numeric col (with_total df)
             else Ok (with_total df)) = Ok (with_total df)) as Hcoerce.
  { intros col Hcol. destruct (has_column col (with_total df)) eqn:Hc; [|done].
    destruct (positive_numeric_spec _ col (Hpn col Hcol) Hc) as [Hnum Hpos].
    by apply coerce_numeric_id. }
  assert (forall col, col = "quantity"%string \/ col = "price"%string ->
            (if has_column col (with_total df)
             then keep_positive col (with_total df)
             else Ok (with_total df)) = Ok (with_total df)) as Hkeep.
  { intros col Hcol. destruct (has_column col (with_total df)) eqn:Hc; [|done].
    destruct (positive_numeric_spec _ col (Hpn col Hcol) Hc) as [Hnum Hpos].
    by apply keep_positive_id. }
  rewrite (Hcoerce "quantity") by (by left). cbv beta iota.
  rewrite (Hcoerce "price") by (by right). cbv beta iota.
  rewrite (Hkeep "quantity") by (by left). cbv beta iota.
  by rewrite (Hkeep "price") by (by right).
Qed.

(** C8.  On an already-clean table, whose totals, if it carries any
    beside a quantity and a price, are their products, [transform] returns
    the table with its [total_amount] column set, a clean table again, and
    applied to that output it returns the very same table. *)
Theorem transform_twice_on_clean (df : DataFrame) (s1 s2 : state) :
  already_clean df = true ->
  exists out s1' s2',
    transform df s1 = (Ok out, s1') /\
    transform out s2 = (Ok out, s2') /\
    out = with_total df /\
    already_clean out = true.
Proof.
  unfold already_clean. intros [Hclean Htotals]%andb_true_iff.
  pose proof (transform_frame_clean df Hclean) as H1.
  assert (clean_as_listed (with_total df) = true) as Hout.
  { destruct (has_column "quantity" df && has_column "price" df) eqn:Hqp.
    - by apply with_total_clean, clean_source_distinct.
    - unfold with_total. by rewrite Hqp. }
  pose proof (transform_frame_clean (with_total df) Hout) as H2.
  rewrite with_total_idempotent in H2.
  exists (with_total df). eexists _, _.
  rewrite !transform_unfold, H1, H2.
  split; [done|]. split; [done|]. split; [done|].
  by rewrite Hout, with_total_consistent.
Qed.

End CleanTables.


(** * Further properties of the methods *)

(** ** [load]: what it never does, and its edge cases *)

Section LoadEdges.

Context {ext : Externals}.

Lemma sql_exec_other_table (d d' : database) (c : sql_call) (t' : string) :
  sql_exec d c = Ok d' -> t' <> call_table c -> d' !! t' = d !! t'.
Proof.
  unfold sql_exec, sql_write. intros H Hne.
  destruct (sql_fault d c); [discriminate|].
  destruct (call_if_exists c), (d !! call_table c); try discriminate;
    injection H as <-; by rewrite lookup_insert_ne.
Qed.

Lemma load_batch_frame (df : DataFrame) (t : string) (m : IfExists)
    (eng : Engine) (b total i : Z) (s s' : state) (r : result unit) :
  load_batch df t m eng b total i s = (r, s') ->
  self_config s' = self_config s /\ self_engine s' = self_engine s /\
  forall t', t' <> t -> db s' !! t' = db s !! t'.
Proof.
  destruct (sql_exec (db s) (batch_call df t m b i)) as [d'|e] eqn:Hexec.
  - rewrite (load_batch_Ok _ _ _ _ _ _ _ _ _ Hexec). intros [= <- <-]. simpl.
    split; [done|]. split; [done|]. intros t' Hne.
    by apply (sql_exec_other_table _ _ _ _ Hexec).
  - rewrite (load_batch_Raise _ _ _ _ _ _ _ _ _ Hexec). intros [= <- <-]. done.
Qed.

Lemma load_loop_frame (df : DataFrame) (t : string) (m : IfExists)
    (eng : Engine) (b total : Z) (offsets : list Z) :
  forall (s s' : state) (r : result unit),
    for_each offsets (load_batch df t m eng b total) s = (r, s') ->
    self_config s' = self_config s /\ self_engine s' = self_engine s /\
    forall t', t' <> t -> db s' !! t' = db s !! t'.
Proof.
  induction offsets as [|i offsets IH]; intros s s' r; simpl.
  - unfold M_ret. intros [= <- <-]. done.
  - unfold M_bind.
    destruct (load_batch df t m eng b total i s) as [[[]|e] s1] eqn:Hi.
    + intros Hrest.
      destruct (load_batch_frame _ _ _ _ _ _ _ _ _ _ Hi) as (Hc1 & He1 & Hd1).
      destruct (IH _ _ _ Hrest) as (Hc & He & Hd).
      split; [congruence|]. split; [congruence|].
      intros t' Hne. rewrite Hd, Hd1; done.
    + intros [= <- <-]. by apply (load_batch_frame _ _ _ _ _ _ _ _ _ _ Hi).
Qed.

Lemma range_negative_step (n b : Z) : 0 <= n -> b < 0 -> range 0 n b = Ok [].
Proof.
  intros Hn Hb. unfold range.
  destruct (Z.eqb_spec b 0); [lia|]. destruct (Z.ltb_spec 0 b); [lia|].
  assert ((0 - n - b - 1) / - b <= 0) as Hle.
  { apply Z.lt_succ_r. apply Z.div_lt_upper_bound; lia. }
  replace (Z.to_nat ((0 - n - b - 1) / - b)) with 0%nat by lia. done.
Qed.

(** [load] on a connected pipeline whose batch size is not zero. *)
Lemma load_structure (df : DataFrame) (t : string) (m : IfExists) (s : state)
    (eng : Engine) :
  self_engine s = Some eng ->
  batch_size (self_config s) <> 0 ->
  load df t m s =
  match range 0 (len df) (batch_size (self_config s)) with
  | Ok offsets =>
      match for_each offsets
              (load_batch df t m eng (batch_size (self_config s))
                 (len df / batch_size (self_config s)
                  + (if len df mod batch_size (self_config s) =? 0 then 0 else 1)))
              (add_log INFO (MsgLoadStart t) s) with
      | (Ok _, s1) => (Ok true, add_log INFO (MsgLoadDone (len df) t) s1)
      | (Raise e, s1) => (Ok false, add_log ERROR (MsgLoadError e) s1)
      end
  | Raise e =>
      (Ok false, add_log ERROR (MsgLoadError e) (add_log INFO (MsgLoadStart t) s))
  end.
Proof.
  intros Heng Hb. set (b := batch_size (self_config s)) in *.
  unfold load. unfold_M.
  change (self_engine (add_log INFO (MsgLoadStart t) s)) with (self_engine s).
  rewrite Heng. cbv beta iota.
  change (self_config (add_log INFO (MsgLoadStart t) s)) with (self_config s).
  fold b. unfold floordiv, pymod.
  destruct (Z.eqb_spec b 0) as [|_]; [done|].
  destruct (range 0 (len df) b) as [offsets|e]; cbv beta iota; [|done].
  destruct (for_each _ _ _) as [[[]|e] s1]; reflexivity.
Qed.

(** Whatever [load] returns, it leaves the configuration and the engine
    as they were, and the tables other than its target as they were. *)
Lemma load_frame (df : DataFrame) (t : string) (m : IfExists)
    (s s' : state) (r : result bool) :
  load df t m s = (r, s') ->
  self_config s' = self_config s /\
  self_engine s' = self_engine s /\
  forall t', t' <> t -> db s' !! t' = db s !! t'.
Proof.
  destruct (self_engine s) as [eng|] eqn:Heng.
  - destruct (Z.eq_dec (batch_size (self_config s)) 0) as [H0 | Hne].
    + unfold load. unfold_M.
      change (self_engine (add_log INFO (MsgLoadStart t) s)) with (self_engine s).
      rewrite Heng. cbv beta iota.
      change (self_config (add_log INFO (MsgLoadStart t) s)) with (self_config s).
      rewrite H0. cbn [floordiv Z.eqb]. cbv beta iota. intros [= <- <-]. done.
    + rewrite (load_structure df t m s eng Heng Hne).
      destruct (range 0 (len df) _) as [offsets|e].
      * destruct (for_each _ _ _) as [[[]|e] s1] eqn:Hloop;
          apply load_loop_frame in Hloop as (Hc & He & Hd);
          intros [= <- <-]; simpl in *;
          (split; [done|]); (split; [congruence|]); done.
      * intros [= <- <-]. done.
  - unfold load. unfold_M.
    change (self_engine (add_log INFO (MsgLoadStart t) s)) with (self_engine s).
    rewrite Heng. cbv beta iota. intros [= <- <-]. done.
Qed.

(** [load] turns every exception of its body into [False]. *)
Lemma load_total (df : DataFrame) (t : string) (m : IfExists) (s : state) :
  exists (ok : bool) (s' : state), load df t m s = (Ok ok, s').
Proof.
  destruct (self_engine s) as [eng|] eqn:Heng.
  - destruct (Z.eq_dec (batch_size (self_config s)) 0) as [H0 | Hne].
    + unfold load. unfold_M.
      change (self_engine (add_log INFO (MsgLoadStart t) s)) with (self_engine s).
      rewrite Heng. cbv beta iota.
      change (self_config (add_log INFO (MsgLoadStart t) s)) with (self_config s).
      rewrite H0. cbn [floordiv Z.eqb]. cbv beta iota. by eexists _, _.
    + rewrite (load_structure df t m s eng Heng Hne).
      destruct (range 0 (len df) _) as [offsets|e']; [|by eexists _, _].
      destruct (for_each _ _ _) as [[[]|e'] s1]; by eexists _, _.
  - unfold load. unfold_M.
    change (self_engine (add_log INFO (MsgLoadStart t) s)) with (self_engine s).
    rewrite Heng. cbv beta iota. by eexists _, _.
Qed.

(** X1.  [load] never raises: whatever the table, the mode, the batch size
    and the state of the pipeline, it returns a boolean.  It leaves the
    configuration and the engine of the pipeline as they were, and every
    table of the destination other than its target as it was. *)
Theorem load_never_raises (df : DataFrame) (t : string) (m : IfExists)
    (s : state) :
  exists (ok : bool) (s' : state),
    load df t m s = (Ok ok, s') /\
    self_config s' = self_config s /\
    self_engine s' = self_engine s /\
    forall t', t' <> t -> db s' !! t' = db s !! t'.
Proof.
  destruct (load_total df t m s) as (ok & s' & Hload).
  exists ok, s'. split; [done|]. by apply (load_frame df t m s s' (Ok ok)).
Qed.

(** X2.  With a batch size of zero a connected [load] fails before any
    write: the division that counts the batches raises, [load] logs the
    error and returns [False]; no call is issued and the destination is
    untouched. *)
Theorem load_zero_batch_size (df : DataFrame) (t : string) (m : IfExists)
    (s : state) (eng : Engine) :
  self_engine s = Some eng ->
  batch_size (self_config s) = 0 ->
  load df t m s =
  (Ok false,
   with_log s (log s ++ [(INFO, MsgLoadStart t);
                         (ERROR, MsgLoadError ZeroDivisionError)])).
Proof.
  intros Heng H0. unfold load. unfold_M.
  change (self_engine (add_log INFO (MsgLoadStart t) s)) with (self_engine s).
  rewrite Heng. cbv beta iota.
  change (self_config (add_log INFO (MsgLoadStart t) s)) with (self_config s).
  rewrite H0. cbn [floordiv Z.eqb]. cbv beta iota. by rewrite add_log_two.
Qed.

(** X3.  With a negative batch size a connected [load] writes nothing and
    still reports success: the range of offsets is empty, so no call is
    issued and the destination is untouched, yet [load] logs the whole
    table as loaded and returns [True], also when the table has rows. *)
Theorem load_negative_batch_size (df : DataFrame) (t : string) (m : IfExists)
    (s : state) (eng : Engine) :
  self_engine s = Some eng ->
  batch_size (self_config s) < 0 ->
  load df t m s =
  (Ok true,
   with_log s (log s ++ [(INFO, MsgLoadStart t);
                         (INFO, MsgLoadDone (len df) t)])).
Proof.
  intros Heng Hb.
  rewrite (load_structure df t m s eng Heng) by lia.
  rewrite range_negative_step by (unfold len; lia).
  simpl. unfold M_ret. by rewrite add_log_two.
Qed.

(** X4.  With [if_exists='fail'], a positive batch size and a table that
    already exists, a connected [load] of a non-empty frame returns
    [False]: the first call, which carries the first batch in mode
    [fail], is issued and refused, no other call is issued and the
    destination is left as it was. *)
Theorem load_fail_mode_on_existing_table (df : DataFrame) (t : string)
    (s : state) (eng : Engine) (old : list row) :
  self_engine s = Some eng ->
  0 < batch_size (self_config s) ->
  rows df <> [] ->
  db s !! t = Some old ->
  exists (s' : state) (c : sql_call),
    load df t fail s = (Ok false, s') /\
    sql_log s' = sql_log s ++ [c] /\
    call_table c = t /\ call_if_exists c = fail /\
    call_rows c = take (Z.to_nat (batch_size (self_config s))) (rows df) /\
    db s' = db s.
Proof.
  intros Heng Hb Hne Hold.
  set (b := batch_size (self_config s)) in *.
  destruct (planned_calls df t fail b) as [|c post] eqn:Hplan.
  { pose proof (planned_calls_concat df t fail b Hb) as Hcat.
    rewrite Hplan in Hcat. simpl in Hcat. congruence. }
  assert (planned_calls df t fail b !! 0%nat = Some c) as H0 by (by rewrite Hplan).
  apply planned_calls_lookup in H0 as [_ Ec]; [|done].
  assert (exists e, sql_exec (db s) c = Raise e) as [e Hc].
  { unfold sql_exec, sql_write. destruct (sql_fault (db s) c); [by eexists|].
    rewrite Ec. simpl. rewrite Hold. by eexists. }
  destruct (load_outcome df t fail s eng Heng Hb) as [_ Hfail].
  destruct (Hfail [] c post (db s) e Hplan eq_refl Hc) as (s' & Hload & Hlog & Hdb & _).
  exists s', c. split; [done|]. split; [done|].
  rewrite Ec. simpl. by rewrite drop_0.
Qed.

(** X5.  When every write succeeds, [load] logs its start, then one
    record per batch, numbered from one up to the number of batches, which
    every record names, then the number of rows loaded; it logs nothing
    else. *)
Theorem load_logs_each_batch (df : DataFrame) (t : string) (m : IfExists)
    (s : state) (eng : Engine) (d' : database) :
  self_engine s = Some eng ->
  0 < batch_size (self_config s) ->
  sql_exec_seq (db s) (planned_calls df t m (batch_size (self_config s))) = Ok d' ->
  let total := (len df + batch_size (self_config s) - 1) / batch_size (self_config s) in
  exists s',
    load df t m s = (Ok true, s') /\
    log s' =
      log s ++ [(INFO, MsgLoadStart t)]
      ++ map (fun k : nat => (INFO, MsgLoadedBatch (Z.of_nat k + 1) total))
           (seq 0 (Z.to_nat total))
      ++ [(INFO, MsgLoadDone (len df) t)].
Proof.
  intros Heng Hb Hexec total. set (b := batch_size (self_config s)) in *.
  rewrite (load_structure df t m s eng Heng) by (fold b; lia). fold b.
  unfold planned_calls in Hexec.
  rewrite range_batches in Hexec |- * by done. fold total in Hexec |- *.
  rewrite total_batches_ceil by (unfold len; lia). fold total.
  rewrite (load_loop_Ok df t m eng b total _
             (add_log INFO (MsgLoadStart t) s) d' Hexec).
  eexists. split; [reflexivity|].
  cbn [log add_log after_calls]. rewrite <- !app_assoc. do 2 f_equal.
  f_equal. rewrite map_map. apply map_ext. intros k.
  unfold batch_record. by rewrite Z.div_mul by lia.
Qed.

End LoadEdges.


(** ** [connect_database], [extract] and [run], stage by stage *)

Lemma add_log_at_stage (lv : level) (m : message) (s : state) :
  add_log lv m s = at_stage s (self_engine s) [(lv, m)].
Proof. reflexivity. Qed.

Lemma at_stage_twice (s : state) (e1 e2 : option Engine)
    (r1 r2 : list (level * message)) :
  at_stage (at_stage s e1 r1) e2 r2 = at_stage s e2 (r1 ++ r2).
Proof. unfold at_stage. cbn [self_config db sql_log log]. by rewrite app_assoc. Qed.

Lemma with_log_at_stage (s : state) (r : list (level * message)) :
  with_log s (log s ++ r) = at_stage s (self_engine s) r.
Proof. reflexivity. Qed.

Lemma self_engine_at_stage (s : state) (e : option Engine)
    (r : list (level * message)) :
  self_engine (at_stage s e r) = e.
Proof. reflexivity. Qed.

Lemma self_config_at_stage (s : state) (e : option Engine)
    (r : list (level * message)) :
  self_config (at_stage s e r) = self_config s.
Proof. reflexivity. Qed.

#[local] Hint Rewrite add_log_at_stage with_log_at_stage self_engine_at_stage
  at_stage_twice self_config_at_stage : stage.

Section Stages.

Context {ext : Externals}.

Lemma connect_database_unfold (s : state) :
  connect_database s =
  match create_engine (connection_string (self_config s)) with
  | Ok eng => (Ok true, at_stage s (Some eng) [(INFO, MsgDbConnected)])
  | Raise e =>
      (Ok false, at_stage s (self_engine s) [(ERROR, MsgDbConnectFailed e)])
  end.
Proof.
  unfold connect_database, connection_string. unfold_M. unfold set_engine.
  destruct (create_engine _); reflexivity.
Qed.

Lemma extract_unfold (source_path : string) (s : state) :
  extract source_path s =
  match extract_frame source_path with
  | Ok df =>
      (Ok df,
       at_stage s (self_engine s)
         [(INFO, MsgExtractStart source_path);
          (INFO, MsgExtracted (len df) source_path)])
  | Raise e =>
      (Raise e,
       at_stage s (self_engine s)
         [(INFO, MsgExtractStart source_path); (ERROR, MsgExtractError e)])
  end.
Proof.
  unfold extract, extract_frame. unfold_M.
  destruct (endswith source_path ".csv").
  - destruct (read_csv source_path); autorewrite with stage; reflexivity.
  - destruct (endswith source_path ".xlsx").
    + destruct (read_excel source_path); autorewrite with stage; reflexivity.
    + autorewrite with stage; reflexivity.
Qed.

(** [run], stage by stage: each stage that fails ends the run with
    [False]; when the first three succeed the run is the [load] of the
    clean table with [if_exists='append']. *)
Lemma run_unfold (source_path target_table : string) (s : state) :
  run source_path target_table s =
  match create_engine (connection_string (self_config s)) with
  | Raise e =>
      (Ok false,
       at_stage s (self_engine s)
         (run_header source_path target_table ++ [(ERROR, MsgDbConnectFailed e)]))
  | Ok eng =>
      match extract_frame source_path with
      | Raise e =>
          (Ok false,
           at_stage s (Some eng)
             (run_header source_path target_table ++
              [(INFO, MsgDbConnected);
               (INFO, MsgExtractStart source_path);
               (ERROR, MsgExtractError e);
               (ERROR, MsgPipelineFailed e)]))
      | Ok raw =>
          match transform_frame raw with
          | Raise e =>
              (Ok false,
               at_stage s (Some eng)
                 (run_header source_path target_table ++
                  [(INFO, MsgDbConnected);
                   (INFO, MsgExtractStart source_path);
                   (INFO, MsgExtracted (len raw) source_path);
                   (INFO, MsgTransformStart);
                   (INFO, MsgRemovedDuplicates (len raw - len (drop_duplicates raw)));
                   (ERROR, MsgTransformError e);
                   (ERROR, MsgPipelineFailed e)]))
          | Ok clean =>
              match load clean target_table append
                      (at_stage s (Some eng)
                         (stages_log source_path target_table raw clean)) with
              | (Ok true, s4) =>
                  (Ok true, at_stage s4 (self_engine s4) (run_footer (len clean)))
              | (Ok false, s4) => (Ok false, s4)
              | (Raise e, s4) =>
                  (Ok false, at_stage s4 (self_engine s4) [(ERROR, MsgPipelineFailed e)])
              end
          end
      end
  end.
Proof.
  unfold run. unfold_M. autorewrite with stage.
  change ([(INFO, MsgRule)] ++ [(INFO, MsgPipelineStart)] ++
          [(INFO, MsgSource source_path)] ++ [(INFO, MsgTarget target_table)] ++
          [(INFO, MsgRule)])
    with (run_header source_path target_table).
  rewrite connect_database_unfold. autorewrite with stage.
  destruct (create_engine _) as [eng|e]; cbn [negb]; cbv beta iota;
    [|autorewrite with stage; reflexivity].
  rewrite extract_unfold. autorewrite with stage.
  destruct (extract_frame source_path) as [raw|e]; cbv beta iota;
    [|autorewrite with stage; by rewrite <- !app_assoc].
  rewrite transform_unfold. autorewrite with stage.
  destruct (transform_frame raw) as [clean|e]; cbv beta iota;
    [|autorewrite with stage; by rewrite <- !app_assoc].
  autorewrite with stage. rewrite <- !app_assoc.
  change (run_header source_path target_table ++
          [(INFO, MsgDbConnected)] ++
          [(INFO, MsgExtractStart source_path);
           (INFO, MsgExtracted (len raw) source_path)] ++
          [(INFO, MsgTransformStart);
           (INFO, MsgRemovedDuplicates (len raw - len (drop_duplicates raw)));
           (INFO, MsgTransformDone (len clean))])
    with (stages_log source_path target_table raw clean).
  destruct (load clean target_table append _) as [[[]|e] s4];
    cbv beta iota; autorewrite with stage; reflexivity.
Qed.


Lemma extract_returns (source_path : string) (s s' : state) (r : result DataFrame) :
  extract source_path s = (r, s') -> extract_frame source_path = r.
Proof.
  rewrite extract_unfold. destruct (extract_frame source_path); by intros [= <- _].
Qed.

Lemma transform_returns (df : DataFrame) (s s' : state) (r : result DataFrame) :
  transform df s = (r, s') -> transform_frame df = r.
Proof.
  rewrite transform_unfold. destruct (transform_frame df); by intros [= <- _].
Qed.

(** X6.  [connect_database] never raises and never touches the destination.
    It returns [True] exactly when the engine factory accepts the URL built
    from the configuration, and then holds the new engine; when the factory
    raises it logs the error, returns [False] and keeps the engine it had
    before, if any. *)
Theorem connect_database_outcome (s : state) :
  exists (ok : bool) (s' : state),
    connect_database s = (Ok ok, s') /\
    self_config s' = self_config s /\ db s' = db s /\ sql_log s' = sql_log s /\
    match create_engine (connection_string (self_config s)) with
    | Ok eng =>
        ok = true /\ self_engine s' = Some eng /\
        log s' = log s ++ [(INFO, MsgDbConnected)]
    | Raise e =>
        ok = false /\ self_engine s' = self_engine s /\
        log s' = log s ++ [(ERROR, MsgDbConnectFailed e)]
    end.
Proof.
  rewrite connect_database_unfold.
  destruct (create_engine _) as [eng|e]; eexists _, _; (split; [reflexivity|]);
    done.
Qed.

(** X7.  On a path with a supported suffix [extract] hands over what the
    reader gives: [read_csv] for [.csv], otherwise [read_excel].  The frame
    is returned as read, its length logged; an exception of the reader is
    logged and raised again unchanged.  Only the log changes. *)
Theorem extract_reader_outcome (source_path : string) (s : state) :
  endswith source_path ".csv" = true \/ endswith source_path ".xlsx" = true ->
  let reader := if endswith source_path ".csv" then read_csv else read_excel in
  extract source_path s =
  match reader source_path with
  | Ok df =>
      (Ok df,
       with_log s (log s ++ [(INFO, MsgExtractStart source_path);
                             (INFO, MsgExtracted (len df) source_path)]))
  | Raise e =>
      (Raise e,
       with_log s (log s ++ [(INFO, MsgExtractStart source_path);
                             (ERROR, MsgExtractError e)]))
  end.
Proof.
  intros Hsuffix reader. rewrite extract_unfold. unfold extract_frame, reader.
  destruct (endswith source_path ".csv").
  - destruct (read_csv source_path); reflexivity.
  - destruct Hsuffix as [H | H]; [done|]. rewrite H.
    destruct (read_excel source_path); reflexivity.
Qed.

(** Whatever [run] returns, the configuration is as it was. *)
Lemma run_config (source_path target_table : string)
    (s s' : state) (r : result bool) :
  run source_path target_table s = (r, s') -> self_config s' = self_config s.
Proof.
  rewrite run_unfold.
  destruct (create_engine _) as [eng|e]; [|by intros [= <- <-]].
  destruct (extract_frame source_path) as [raw|e]; [|by intros [= <- <-]].
  destruct (transform_frame raw) as [clean|e]; [|by intros [= <- <-]].
  destruct (load clean target_table append _) as [[[]|e] s4] eqn:Hload;
    apply load_frame in Hload as (Hc & _ & _); by intros [= <- <-].
Qed.

(** X8.  [run] never raises: it returns a boolean whatever the readers,
    the parsers, the engine factory and the destination do.  It leaves the
    configuration as it was and touches no table other than its target. *)
Theorem run_never_raises (source_path target_table : string) (s : state) :
  exists (ok : bool) (s' : state),
    run source_path target_table s = (Ok ok, s') /\
    self_config s' = self_config s /\
    forall t', t' <> target_table -> db s' !! t' = db s !! t'.
Proof.
  rewrite run_unfold.
  destruct (create_engine _) as [eng|e]; [|by eexists _, _].
  destruct (extract_frame source_path) as [raw|e]; [|by eexists _, _].
  destruct (transform_frame raw) as [clean|e]; [|by eexists _, _].
  destruct (load_total clean target_table append
              (at_stage s (Some eng) (stages_log source_path target_table raw clean)))
    as (ok & s4 & Hload).
  rewrite Hload.
  apply load_frame in Hload as (Hc & _ & Hd).
  destruct ok; eexists _, _; (split; [reflexivity|]); done.
Qed.

(** X9.  When the engine factory raises, [run] stops after
    [connect_database]: it returns [False], and beyond its opening records
    it logs the connection error only; the reader is not called, and the
    engine, the destination and the calls issued stay as they were. *)
Theorem run_connection_failure (source_path target_table : string) (s : state)
    (e : exn) :
  create_engine (connection_string (self_config s)) = Raise e ->
  run source_path target_table s =
  (Ok false,
   with_log s (log s ++ run_header source_path target_table
                 ++ [(ERROR, MsgDbConnectFailed e)])).
Proof. intros H. rewrite run_unfold, H. reflexivity. Qed.

(** X10.  When the pipeline connects and [extract] raises, [run] returns
    [False] with the engine set and the destination untouched; the error is
    logged twice, by [extract] and by [run], and neither [transform] nor
    [load] starts. *)
Theorem run_extract_failure (source_path target_table : string)
    (s s0 s1 : state) (eng : Engine) (e : exn) :
  create_engine (connection_string (self_config s)) = Ok eng ->
  extract source_path s0 = (Raise e, s1) ->
  run source_path target_table s =
  (Ok false,
   at_stage s (Some eng)
     (run_header source_path target_table ++
      [(INFO, MsgDbConnected);
       (INFO, MsgExtractStart source_path);
       (ERROR, MsgExtractError e);
       (ERROR, MsgPipelineFailed e)])).
Proof.
  intros Heng Hextract%extract_returns.
  by rewrite run_unfold, Heng, Hextract.
Qed.

(** X11.  When the pipeline connects, [extract] returns a table and
    [transform] raises on it, [run] returns [False] without calling
    [load]: no call is issued and the destination is untouched.  The
    error is logged by [transform] and again by [run]. *)
Theorem run_transform_failure (source_path target_table : string)
    (s s0 s1 s2 s3 : state) (eng : Engine) (raw : DataFrame) (e : exn) :
  create_engine (connection_string (self_config s)) = Ok eng ->
  extract source_path s0 = (Ok raw, s1) ->
  transform raw s2 = (Raise e, s3) ->
  run source_path target_table s =
  (Ok false,
   at_stage s (Some eng)
     (run_header source_path target_table ++
      [(INFO, MsgDbConnected);
       (INFO, MsgExtractStart source_path);
       (INFO, MsgExtracted (len raw) source_path);
       (INFO, MsgTransformStart);
       (INFO, MsgRemovedDuplicates (len raw - len (drop_duplicates raw)));
       (ERROR, MsgTransformError e);
       (ERROR, MsgPipelineFailed e)])).
Proof.
  intros Heng Hextract%extract_returns Htransform%transform_returns.
  by rewrite run_unfold, Heng, Hextract, Htransform.
Qed.

(** A run whose stages all succeed. *)
Lemma run_success (source_path target_table : string)
    (s s0 s1 s2 s3 : state) (eng : Engine) (raw clean : DataFrame) :
  create_engine (connection_string (self_config s)) = Ok eng ->
  extract source_path s0 = (Ok raw, s1) ->
  transform raw s2 = (Ok clean, s3) ->
  0 < batch_size (self_config s) ->
  (forall d c, sql_fault d c = None) ->
  exists s',
    run source_path target_table s = (Ok true, s') /\
    self_engine s' = Some eng /\
    sql_log s' =
      sql_log s ++ planned_calls clean target_table append (batch_size (self_config s)) /\
    db s' !! target_table =
      (if rows clean is [] then db s !! target_table
       else Some (default [] (db s !! target_table) ++ rows clean)) /\
    (forall t', t' <> target_table -> db s' !! t' = db s !! t') /\
    (INFO, MsgRecordsProcessed (len clean)) ∈ log s'.
Proof.
  intros Heng Hextract%extract_returns Htransform%transform_returns Hb Hnofault.
  rewrite run_unfold, Heng, Hextract, Htransform.
  set (s3' := at_stage s (Some eng) (stages_log source_path target_table raw clean)).
  set (b := batch_size (self_config s)) in *.
  destruct (planned_calls_succeed clean target_table append b (db s) Hb Hnofault)
    as [d' Hexec]; [done|].
  destruct (load_outcome clean target_table append s3' eng eq_refl Hb) as [Hok _].
  destruct (Hok d' Hexec) as (s4 & Hload & Hlog & Hdb).
  rewrite Hload.
  pose proof (load_frame _ _ _ _ _ _ Hload) as (_ & He & Hd).
  eexists. split; [reflexivity|].
  split; [by rewrite self_engine_at_stage|].
  split; [done|].
  split; [|split; [done|]].
  - change (db (at_stage s4 (self_engine s4) (run_footer (len clean)))) with (db s4).
    rewrite Hdb.
    destruct (planned_calls clean target_table append b) as [|c plan] eqn:Hplan.
    + pose proof (planned_calls_concat clean target_table append b Hb) as Hcat.
      rewrite Hplan in Hcat. simpl in Hcat. rewrite <- Hcat.
      simpl in Hexec. by injection Hexec as <-.
    + rewrite (planned_prefix_table clean target_table append b (c :: plan) []
                 (db s) d' Hb) by (by rewrite ?app_nil_r).
      rewrite <- Hplan, planned_calls_concat by done.
      destruct (rows clean) as [|r rs] eqn:Hrows; [|done].
      exfalso.
      pose proof (planned_calls_length clean target_table append b Hb) as Hlen.
      rewrite Hplan in Hlen. unfold len in Hlen. rewrite Hrows in Hlen.
      simpl in Hlen. rewrite Z.div_small in Hlen by lia. lia.
  - unfold at_stage, run_footer. cbn [log]. apply elem_of_app. right.
    do 3 apply list_elem_of_further. apply list_elem_of_here.
Qed.


(** X12.  A run whose stages all succeed, against a destination that
    raises no fault and with a positive batch size: [run] returns [True],
    holding the new engine; it issues the batches of the clean table, all
    in mode [append], so the target table ends as the rows it held before
    followed by the clean rows, and is not created when there is no clean
    row; the closing records report the number of clean rows. *)
Theorem run_appends_clean_rows (source_path target_table : string)
    (s s0 s1 s2 s3 : state) (eng : Engine) (raw clean : DataFrame) :
  create_engine (connection_string (self_config s)) = Ok eng ->
  extract source_path s0 = (Ok raw, s1) ->
  transform raw s2 = (Ok clean, s3) ->
  0 < batch_size (self_config s) ->
  (forall d c, sql_fault d c = None) ->
  exists s',
    run source_path target_table s = (Ok true, s') /\
    self_engine s' = Some eng /\
    sql_log s' =
      sql_log s ++ planned_calls clean target_table append (batch_size (self_config s)) /\
    db s' !! target_table =
      (if rows clean is [] then db s !! target_table
       else Some (default [] (db s !! target_table) ++ rows clean)) /\
    (forall t', t' <> target_table -> db s' !! t' = db s !! t') /\
    (INFO, MsgRecordsProcessed (len clean)) ∈ log s'.
Proof.
  intros Heng Hextract Htransform Hb Hnofault.
  by apply (run_success source_path target_table s s0 s1 s2 s3 eng raw clean).
Qed.

(** X13.  When a write of the load fails in a run whose earlier stages
    succeeded, [run] returns [False] and undoes nothing: the batches
    written before the failure stay in the destination, the failed call is
    the last one issued, and the error is in the log. *)
Theorem run_keeps_partial_load (source_path target_table : string)
    (s s0 s1 s2 s3 : state) (eng : Engine) (raw clean : DataFrame)
    (pre : list sql_call) (w : sql_call) (post : list sql_call)
    (d1 : database) (e : exn) :
  create_engine (connection_string (self_config s)) = Ok eng ->
  extract source_path s0 = (Ok raw, s1) ->
  transform raw s2 = (Ok clean, s3) ->
  0 < batch_size (self_config s) ->
  planned_calls clean target_table append (batch_size (self_config s))
    = pre ++ w :: post ->
  sql_exec_seq (db s) pre = Ok d1 ->
  sql_exec d1 w = Raise e ->
  exists s',
    run source_path target_table s = (Ok false, s') /\
    sql_log s' = sql_log s ++ pre ++ [w] /\
    db s' = d1 /\
    (pre <> [] ->
     db s' !! target_table =
       Some (default [] (db s !! target_table) ++ concat (map call_rows pre))) /\
    (ERROR, MsgLoadError e) ∈ log s'.
Proof.
  intros Heng Hextract%extract_returns Htransform%transform_returns Hb
    Hsplit Hpre Hw.
  rewrite run_unfold, Heng, Hextract, Htransform.
  set (s3' := at_stage s (Some eng) (stages_log source_path target_table raw clean)).
  destruct (load_outcome clean target_table append s3' eng eq_refl Hb) as [_ Hfail].
  destruct (Hfail pre w post d1 e Hsplit Hpre Hw) as (s4 & Hload & Hlog & Hdb & Herr).
  rewrite Hload. exists s4. split; [done|]. split; [done|]. split; [done|].
  split; [|done].
  intros Hne. rewrite Hdb.
  by apply (planned_prefix_table clean target_table append
              (batch_size (self_config s)) pre (w :: post) (db s) d1).
Qed.

(** X14.  [run] checks nothing against the destination: a second run of
    the same source on the pipeline a successful run left adds the clean
    rows to the target table once more. *)
Theorem run_twice_appends_twice (source_path target_table : string)
    (s s0 s1 s2 s3 : state) (eng : Engine) (raw clean : DataFrame) :
  create_engine (connection_string (self_config s)) = Ok eng ->
  extract source_path s0 = (Ok raw, s1) ->
  transform raw s2 = (Ok clean, s3) ->
  0 < batch_size (self_config s) ->
  (forall d c, sql_fault d c = None) ->
  rows clean <> [] ->
  exists s' s'',
    run source_path target_table s = (Ok true, s') /\
    run source_path target_table s' = (Ok true, s'') /\
    db s'' !! target_table =
      Some (default [] (db s !! target_table) ++ rows clean ++ rows clean).
Proof.
  intros Heng Hextract Htransform Hb Hnofault Hne.
  destruct (run_success source_path target_table s s0 s1 s2 s3 eng raw clean
              Heng Hextract Htransform Hb Hnofault)
    as (s' & Hrun & _ & _ & Htable & _ & _).
  pose proof (run_config source_path target_table s _ _ Hrun) as Hcfg.
  rewrite <- Hcfg in Heng, Hb.
  destruct (run_success source_path target_table s' s0 s1 s2 s3 eng raw clean
              Heng Hextract Htransform Hb Hnofault)
    as (s'' & Hrun' & _ & _ & Htable' & _ & _).
  exists s', s''. split; [done|]. split; [done|].
  rewrite Htable', Htable.
  destruct (rows clean); [done|]. simpl. by rewrite <- app_assoc.
Qed.

End Stages.

(** ** [transform]: its requirements, its columns and the order of its rows *)

Lemma Forall2_compose {A B C} (P : A -> B -> Prop) (Q : B -> C -> Prop)
    (R : A -> C -> Prop) (xs : list A) (ys : list B) (zs : list C) :
  (forall x y z, P x y -> Q y z -> R x z) ->
  Forall2 P xs ys -> Forall2 Q ys zs -> Forall2 R xs zs.
Proof.
  intros HPQ HP. revert zs.
  induction HP as [|x y xs ys Hxy _ IH]; intros zs HQ; inversion HQ; subst;
    constructor; eauto.
Qed.

(** Rows that are filtered out take their sources with them. *)
Lemma Forall2_filter_r {A B} (P : A -> B -> Prop) (keep : B -> Prop)
    `{!forall y, Decision (keep y)} (xs : list A) (ys : list B) :
  Forall2 P xs ys ->
  exists xs', sublist xs' xs /\ Forall2 P xs' (filter keep ys).
Proof.
  induction 1 as [|x y xs ys Hxy _ (xs' & Hsub & IH)].
  - exists []. by split.
  - rewrite filter_cons. destruct (decide (keep y)).
    + exists (x :: xs'). split; [by apply sublist_skip|by constructor].
    + exists xs'. split; [by apply sublist_cons|done].
Qed.

Lemma Forall2_assigned (c : string) (g : row -> cell) (rs : list row) :
  Forall2 (fun r r' => exists v, r' = <[c := v]> r) rs
    (map (fun r => <[c := g r]> r) rs).
Proof.
  apply Forall2_fmap_r, Forall_Forall2_diag, Forall_forall.
  intros r _. by eexists.
Qed.

Lemma to_datetime_scalar_datetime (pd : string -> option Z)
    (df : Float64.float64 -> option Z) (c v : cell) :
  to_datetime_scalar pd df c = Ok v ->
  is_datetime v = true /\
  (notna c = true -> is_timestamp v = negb (read_as_NaT c)).
Proof.
  destruct c as [z|f|t|ns|]; simpl.
  - destruct (z =? int64_min); intros [= <-]; by split.
  - unfold notna. simpl. destruct (Float64.is_nan f); [intros [= <-]; by split|].
    destruct (df f); [|discriminate]. intros [= <-]. by split.
  - destruct (is_nat_string t); [intros [= <-]; by split|].
    destruct (pd t); [|discriminate]. intros [= <-]. by split.
  - intros [= <-]. by split.
  - intros [= <-]. by split.
Qed.

Lemma count_true_none (mask : list bool) :
  Forall (fun b => b = false) mask -> count_true mask = 0.
Proof.
  intros H. unfold count_true.
  replace (filter (fun b => b = true) mask) with (@nil bool); [done|].
  induction H as [|b mask -> _ IH]; [done|].
  by rewrite filter_cons_False.
Qed.

Lemma count_true_bounds (mask : list bool) :
  0 <= count_true mask <= Z.of_nat (length mask).
Proof.
  unfold count_true. pose proof (length_filter (fun b => b = true) mask). lia.
Qed.

Lemma mapM_Raise_inv {A B} (f : A -> result B) (xs : list A) (e : exn) :
  mapM f xs = Raise e -> exists x, x ∈ xs /\ f x = Raise e.
Proof.
  induction xs as [|x xs IH]; simpl; [discriminate|].
  destruct (f x) as [y|e'] eqn:Hx.
  - destruct (mapM f xs) as [ys|e'']; [discriminate|].
    intros [= ->]. destruct (IH eq_refl) as (x' & Hin & Hx').
    exists x'. split; [by apply list_elem_of_further|done].
  - intros [= ->]. exists x. split; [apply list_elem_of_here|done].
Qed.

Lemma mapM_length {A B} (f : A -> result B) (xs : list A) (ys : list B) :
  mapM f xs = Ok ys -> length ys = length xs.
Proof. intros H%mapM_Ok. symmetry. by eapply Forall2_length. Qed.

Lemma dropna_Raise_inv (subset : list string) (df : DataFrame) (e : exn) :
  dropna subset df = Raise e ->
  exists c, c ∈ subset /\ (c ∉ columns df) /\ e = KeyError c.
Proof.
  unfold dropna.
  destruct (filter _ subset) as [|c rest] eqn:Hfilter; [discriminate|].
  intros [= <-]. exists c.
  assert (c ∈ filter (fun c => ¬ c ∈ columns df) subset) as Hin
    by (rewrite Hfilter; apply list_elem_of_here).
  apply list_elem_of_filter in Hin as [Hnot Hin]. done.
Qed.

Lemma keep_positive_total (col : string) (d : DataFrame) :
  has_column col d = true ->
  all_cells is_number d col ->
  exists d', keep_positive col d = Ok d'.
Proof.
  intros Hcol Hnum. unfold keep_positive, getitem, series_gt0. rewrite Hcol.
  cbn [mbind result_mbind result_bind].
  rewrite (mapM_total cell_gt0 positive).
  - by eexists.
  - intros c (r & -> & Hr)%list_elem_of_fmap. specialize (Hnum r Hr).
    unfold positive. by destruct (get r col).
Qed.

Lemma keep_positive_cells (col col' : string) (P : cell -> bool)
    (d d' : DataFrame) :
  keep_positive col d = Ok d' -> all_cells P d col' -> all_cells P d' col'.
Proof.
  intros (_ & _ & Hrows)%keep_positive_Ok Hall r Hr. rewrite Hrows in Hr.
  apply list_elem_of_filter in Hr as [_ Hr]. by apply Hall.
Qed.

Section TransformShape.

Context {ext : Externals}.

(** Where the rows of the output come from: from rows of the input without
    its duplicates, in their order, each with its identifier and its date
    present; the date of an output row is the conversion of the date of
    its source, and the columns [transform] never assigns are the
    source's. *)
Lemma transform_frame_trace (df out : DataFrame) :
  transform_frame df = Ok out ->
  exists kept : list row,
    sublist kept (rows (drop_duplicates df)) /\
    Forall (fun r0 => notna (get r0 "transaction_id") = true /\
                      notna (get r0 "date") = true) kept /\
    Forall2 (fun r0 r =>
               (forall c, c ∉ assigned_columns -> r !! c = r0 !! c) /\
               to_datetime_scalar parse_datetime datetime_of_float (get r0 "date")
                 = Ok (get r "date"))
            kept (rows out).
Proof.
  intros (d1 & d2 & d3 & d4 & d5 & d6 & H1 & H2 & H3 & H4 & H5 & H6 & H7)
    %transform_frame_Ok.
  apply dropna_Ok in H1 as (_ & _ & R1).
  apply convert_date_Ok in H2 as (_ & _ & R2).
  set (Q := fun r0 r : row =>
              (forall c, c ∉ assigned_columns -> r !! c = r0 !! c) /\
              to_datetime_scalar parse_datetime datetime_of_float (get r0 "date")
                = Ok (get r "date")).
  assert (forall c (rs rs' : list row) (kept : list row),
            c ∈ ["quantity"; "price"; "total_amount"]%string ->
            Forall2 (fun r r' => exists v, r' = <[c := v]> r) rs rs' ->
            Forall2 Q kept rs -> Forall2 Q kept rs') as Hassign.
  { intros c rs rs' kept Hc Hrs Hkept.
    refine (Forall2_compose _ _ Q _ _ _ _ Hkept Hrs).
    intros r0 r r' [Hu Hd] [v ->]. split.
    - intros c' Hc'. rewrite lookup_insert_ne; [by apply Hu|].
      intros Heq. subst c'. apply Hc'. by apply list_elem_of_further.
    - rewrite get_insert_ne; [done|]. intros Heq. subst c.
      repeat (apply elem_of_cons in Hc as [Hc | Hc]; [discriminate|]).
      by apply elem_of_nil in Hc. }
  assert (Forall2 Q (rows d1) (rows d2)) as I2.
  { eapply Forall2_impl; [exact R2|]. intros r r' (v & Hv & ->). split.
    - intros c Hc. rewrite lookup_insert_ne; [done|].
      intros Heq. subst c. apply Hc. apply list_elem_of_here.
    - by rewrite get_insert_eq. }
  assert (Forall2 Q (rows d1) (rows d3)) as I3.
  { destruct (has_column "quantity" df && has_column "price" df).
    - apply derive_total_amount_Ok in H3 as (_ & _ & _ & R3).
      apply (Hassign "total_amount"%string (rows d2));
        [do 2 apply list_elem_of_further; apply list_elem_of_here| |done].
      eapply Forall2_impl; [exact R3|]. intros r r' (v & _ & ->). by eexists.
    - by subst d3. }
  assert (Forall2 Q (rows d1) (rows d4)) as I4.
  { destruct (has_column "quantity" df).
    - apply coerce_numeric_Ok in H4 as (_ & _ & h & _ & _ & R4).
      apply (Hassign "quantity"%string (rows d3));
        [apply list_elem_of_here| |done].
      rewrite R4. apply Forall2_assigned.
    - by subst d4. }
  assert (Forall2 Q (rows d1) (rows d5)) as I5.
  { destruct (has_column "price" df).
    - apply coerce_numeric_Ok in H5 as (_ & _ & h & _ & _ & R5).
      apply (Hassign "price"%string (rows d4));
        [apply list_elem_of_further, list_elem_of_here| |done].
      rewrite R5. apply Forall2_assigned.
    - by subst d5. }
  assert (exists k6, sublist k6 (rows d1) /\ Forall2 Q k6 (rows d6))
    as (k6 & S6 & I6).
  { destruct (has_column "quantity" df).
    - apply keep_positive_Ok in H6 as (_ & _ & R6). rewrite R6.
      by apply Forall2_filter_r.
    - subst d6. by exists (rows d1). }
  assert (exists k7, sublist k7 k6 /\ Forall2 Q k7 (rows out))
    as (k7 & S7 & I7).
  { destruct (has_column "price" df).
    - apply keep_positive_Ok in H7 as (_ & _ & R7). rewrite R7.
      by apply Forall2_filter_r.
    - subst out. by exists k6. }
  assert (sublist k7 (rows d1)) as S1 by (by etrans).
  exists k7. split; [|split; [|done]].
  - etrans; [exact S1|]. rewrite R1. apply sublist_filter.
  - apply Forall_forall. intros r0 Hr0.
    apply (fun H => elem_of_sublist _ _ _ H S1) in Hr0.
    rewrite R1 in Hr0. apply list_elem_of_filter in Hr0 as [Hr0 _].
    simpl in Hr0. rewrite andb_true_r in Hr0.
    by apply andb_true_iff in Hr0.
Qed.

(** The columns of the output. *)
Lemma transform_frame_columns (df out : DataFrame) :
  transform_frame df = Ok out ->
  columns out =
  if has_column "quantity" df && has_column "price" df
     && negb (has_column "total_amount" df)
  then columns df ++ ["total_amount"%string] else columns df.
Proof.
  intros (d1 & d2 & d3 & d4 & d5 & d6 & H1 & H2 & H3 & H4 & H5 & H6 & H7)
    %transform_frame_Ok.
  apply dropna_Ok in H1 as (_ & C1 & _).
  change (columns (drop_duplicates df)) with (columns df) in C1.
  apply convert_date_Ok in H2 as (_ & C2 & _).
  assert (columns d2 = columns df) as C2' by congruence.
  assert (columns d3 =
          if has_column "quantity" df && has_column "price" df
             && negb (has_column "total_amount" df)
          then columns df ++ ["total_amount"%string] else columns df) as C3.
  { destruct (has_column "quantity" df && has_column "price" df).
    - apply derive_total_amount_Ok in H3 as (_ & _ & C3 & _).
      rewrite C3, (has_column_ext _ df d2 C2'), C2'.
      by destruct (has_column "total_amount" df).
    - by subst d3. }
  assert (columns d4 = columns d3) as C4.
  { destruct (has_column "quantity" df); [|by subst].
    by apply coerce_numeric_Ok in H4 as (_ & C4 & _). }
  assert (columns d5 = columns d4) as C5.
  { destruct (has_column "price" df); [|by subst].
    by apply coerce_numeric_Ok in H5 as (_ & C5 & _). }
  assert (columns d6 = columns d5) as C6.
  { destruct (has_column "quantity" df); [|by subst].
    by apply keep_positive_Ok in H6 as (_ & C6 & _). }
  assert (columns out = columns d6) as C7.
  { destruct (has_column "price" df); [|by subst].
    by apply keep_positive_Ok in H7 as (_ & C7 & _). }
  congruence.
Qed.

Lemma coerce_numeric_cells (col : string) (d d' : DataFrame) :
  coerce_numeric col d = Ok d' ->
  all_cells is_number d' col /\
  forall col' P, col' <> col -> all_cells P d col' -> all_cells P d' col'.
Proof.
  intros (_ & _ & h & _ & Hnum & Hrows)%coerce_numeric_Ok. split.
  - intros r' Hr'. rewrite Hrows in Hr'.
    apply list_elem_of_fmap in Hr' as (r & -> & _). by rewrite get_insert_eq.
  - intros col' P Hne Hall r' Hr'. rewrite Hrows in Hr'.
    apply list_elem_of_fmap in Hr' as (r & -> & Hr).
    rewrite get_insert_ne by done. by apply Hall.
Qed.

(** Once the dates are converted and the totals computed, the rest of
    [transform] cannot raise: the coercion makes numbers of every cell,
    and numbers compare with zero. *)
Lemma numeric_steps_total (d : DataFrame) :
  exists out,
    (d ← (if has_column "quantity" d then coerce_numeric "quantity" d else Ok d);
     d ← (if has_column "price" d then coerce_numeric "price" d else Ok d);
     d ← (if has_column "quantity" d then keep_positive "quantity" d else Ok d);
     (if has_column "price" d then keep_positive "price" d else Ok d)) = Ok out.
Proof.
  assert (exists d4,
            (if has_column "quantity" d then coerce_numeric "quantity" d else Ok d)
              = Ok d4 /\
            (has_column "quantity" d4 = true -> all_cells is_number d4 "quantity"))
    as (d4 & -> & N4).
  { destruct (has_column "quantity" d) eqn:Hq.
    - destruct (coerce_numeric_total "quantity" d Hq) as [d4 H4]. exists d4.
      split; [done|]. intros _. by apply coerce_numeric_cells in H4 as [H4 _].
    - exists d. split; [done|]. congruence. }
  cbn [mbind result_mbind result_bind].
  assert (exists d5,
            (if has_column "price" d4 then coerce_numeric "price" d4 else Ok d4)
              = Ok d5 /\
            (has_column "quantity" d5 = true -> all_cells is_number d5 "quantity") /\
            (has_column "price" d5 = true -> all_cells is_number d5 "price"))
    as (d5 & -> & N5q & N5p).
  { destruct (has_column "price" d4) eqn:Hp.
    - destruct (coerce_numeric_total "price" d4 Hp) as [d5 H5]. exists d5.
      split; [done|].
      pose proof (coerce_numeric_columns "price" d4 d5 "quantity" H5) as Hq.
      apply coerce_numeric_cells in H5 as [H5 Hothers].
      split; [|done]. rewrite Hq. intros Hq4. by apply Hothers; [|apply N4].
    - exists d4. split; [done|]. split; [done|]. congruence. }
  cbn [mbind result_mbind result_bind].
  assert (exists d6,
            (if has_column "quantity" d5 then keep_positive "quantity" d5 else Ok d5)
              = Ok d6 /\
            (has_column "price" d6 = true -> all_cells is_number d6 "price"))
    as (d6 & -> & N6).
  { destruct (has_column "quantity" d5) eqn:Hq.
    - destruct (keep_positive_total "quantity" d5 Hq (N5q eq_refl)) as [d6 H6].
      exists d6. split; [done|].
      rewrite (keep_positive_columns "quantity" d5 d6 "price" H6).
      intros Hp. by apply (keep_positive_cells _ _ _ _ _ H6), N5p.
    - by exists d5. }
  cbn [mbind result_mbind result_bind].
  destruct (has_column "price" d6) eqn:Hp; [|by eexists].
  by apply keep_positive_total, N6.
Qed.

Lemma convert_date_Raise (d : DataFrame) (e : exn) :
  convert_date d = Raise e ->
  has_column "date" d = true ->
  exists r, r ∈ rows d /\
    to_datetime_scalar parse_datetime datetime_of_float (get r "date") = Raise e.
Proof.
  unfold convert_date, getitem. intros H Hcol. rewrite Hcol in H.
  cbn [mbind result_mbind result_bind] in H. unfold to_datetime in H.
  destruct (mapM _ _) as [values|e'] eqn:Hvalues;
    cbn [mbind result_mbind result_bind] in H.
  - apply mapM_length in Hvalues. rewrite length_map in Hvalues.
    unfold setitem in H. by rewrite bool_decide_eq_true_2 in H.
  - injection H as ->. apply mapM_Raise_inv in Hvalues as (c & Hc & He).
    apply list_elem_of_fmap in Hc as (r & -> & Hr). by exists r.
Qed.

Lemma derive_total_amount_Raise (d : DataFrame) (e : exn) :
  derive_total_amount d = Raise e ->
  has_column "quantity" d = true -> has_column "price" d = true ->
  exists r, r ∈ rows d /\
    cell_mul (get r "quantity") (get r "price") = Raise e.
Proof.
  unfold derive_total_amount, getitem. intros H Hq Hp. rewrite Hq, Hp in H.
  cbn [mbind result_mbind result_bind] in H. unfold series_mul in H.
  rewrite zip_map_map in H.
  destruct (mapM _ _) as [values|e'] eqn:Hvalues;
    cbn [mbind result_mbind result_bind] in H.
  - apply mapM_length in Hvalues. rewrite length_map in Hvalues.
    unfold setitem in H. by rewrite bool_decide_eq_true_2 in H.
  - injection H as ->. apply mapM_Raise_inv in Hvalues as (c & Hc & He).
    apply list_elem_of_fmap in Hc as (r & -> & Hr). by exists r.
Qed.

(** The three ways [transform_frame] can raise. *)
Lemma transform_frame_Raise (df : DataFrame) (e : exn) :
  transform_frame df = Raise e ->
  (exists c,
     (c = "transaction_id"%string \/ c = "date"%string) /\
     has_column c df = false /\ e = KeyError c) \/
  (exists r,
     r ∈ rows df /\
     notna (get r "transaction_id") = true /\ notna (get r "date") = true /\
     to_datetime_scalar parse_datetime datetime_of_float (get r "date") = Raise e) \/
  (has_column "quantity" df = true /\ has_column "price" df = true /\
   exists r,
     r ∈ rows df /\
     cell_mul (get r "quantity") (get r "price") = Raise e).
Proof.
  unfold transform_frame.
  destruct (dropna _ (drop_duplicates df)) as [d1|e1] eqn:H1;
    cbn [mbind result_mbind result_bind].
  2:{ intros [= ->]. left.
      apply dropna_Raise_inv in H1 as (c & Hc & Hnot & ->).
      change (columns (drop_duplicates df)) with (columns df) in Hnot.
      exists c. split; [|split; [by apply bool_decide_eq_false|done]].
      apply elem_of_cons in Hc as [->|Hc]; [by left|].
      apply list_elem_of_singleton in Hc as ->. by right. }
  apply dropna_Ok in H1 as (Hreq & C1 & R1).
  change (columns (drop_duplicates df)) with (columns df) in Hreq, C1.
  assert (forall r, r ∈ rows d1 ->
            r ∈ rows df /\ notna (get r "transaction_id") = true /\
            notna (get r "date") = true) as Hkept.
  { intros r Hr. rewrite R1 in Hr. apply list_elem_of_filter in Hr as [Hna Hr].
    simpl in Hna. rewrite andb_true_r in Hna. apply andb_true_iff in Hna.
    split; [|done]. eapply elem_of_sublist; [exact Hr|apply select_rows_sublist]. }
  assert (has_column "date" d1 = true) as Hdate.
  { apply has_column_spec. rewrite C1.
    apply Hreq, list_elem_of_further, list_elem_of_here. }
  rewrite Hdate.
  destruct (convert_date d1) as [d2|e2] eqn:H2;
    cbn [mbind result_mbind result_bind].
  2:{ intros [= ->]. right. left.
      apply convert_date_Raise in H2 as (r & Hr & He); [|done].
      destruct (Hkept r Hr) as (Hin & Hid & Hd). by exists r. }
  pose proof (convert_date_columns d1 d2 "quantity" H2) as Cq.
  pose proof (convert_date_columns d1 d2 "price" H2) as Cp.
  rewrite (has_column_ext "quantity" df d1 C1) in Cq.
  rewrite (has_column_ext "price" df d1 C1) in Cp.
  apply convert_date_Ok in H2 as (_ & _ & R2).
  destruct (has_column "quantity" d2 && has_column "price" d2) eqn:Hqp.
  - apply andb_true_iff in Hqp as [Hq Hp].
    destruct (derive_total_amount d2) as [d3|e3] eqn:H3;
      cbn [mbind result_mbind result_bind].
    + intros H. destruct (numeric_steps_total d3) as [out Hout].
      discriminate (eq_trans (eq_sym Hout) H).
    + intros [= ->]. right. right.
      split; [congruence|]. split; [congruence|].
      apply derive_total_amount_Raise in H3 as (r & Hr & He); [|done|done].
      destruct (Forall2_elem_r _ _ _ _ R2 Hr) as (r0 & Hr0 & v & _ & ->).
      rewrite !get_insert_ne in He by done.
      exists r0. split; [by apply Hkept|done].
  - intros H. destruct (numeric_steps_total d2) as [out Hout].
    discriminate (eq_trans (eq_sym Hout) H).
Qed.

(** X15.  [transform] needs the two columns it drops missing values on:
    it returns only when the table has a [transaction_id] and a [date]
    column, so the test for a date column before the conversion never
    fails; when one of the two is missing it raises a [KeyError] that names
    a missing column, after logging the duplicates removed and the
    error. *)
Theorem transform_requires_id_and_date (df : DataFrame) (s : state) :
  (forall out s', transform df s = (Ok out, s') ->
     has_column "transaction_id" df = true /\ has_column "date" df = true) /\
  (has_column "transaction_id" df && has_column "date" df = false ->
   exists c,
     (c = "transaction_id"%string \/ c = "date"%string) /\
     has_column c df = false /\
     transform df s =
     (Raise (KeyError c),
      with_log s
        (log s ++ [(INFO, MsgTransformStart);
                   (INFO, MsgRemovedDuplicates (len df - len (drop_duplicates df)));
                   (ERROR, MsgTransformError (KeyError c))]))).
Proof.
  split.
  - intros out s' (d1 & _ & _ & _ & _ & _ & H1 & _)%transform_Ok%transform_frame_Ok.
    apply dropna_Ok in H1 as (Hcols & _ & _).
    change (columns (drop_duplicates df)) with (columns df) in Hcols.
    split; apply has_column_spec, Hcols;
      [apply list_elem_of_here|apply list_elem_of_further, list_elem_of_here].
  - intros Hmissing. rewrite transform_unfold. unfold transform_frame, dropna.
    change (columns (drop_duplicates df)) with (columns df).
    rewrite filter_cons.
    destruct (decide (¬ "transaction_id"%string ∈ columns df)) as [Hid | Hid].
    + exists "transaction_id"%string. split; [by left|].
      split; [|done]. by apply bool_decide_eq_false.
    + rewrite filter_cons.
      destruct (decide (¬ "date"%string ∈ columns df)) as [Hdate | Hdate].
      * exists "date"%string. split; [by right|].
        split; [|done]. by apply bool_decide_eq_false.
      * exfalso. apply dec_stable in Hid, Hdate.
        apply has_column_spec in Hid, Hdate. by rewrite Hid, Hdate in Hmissing.
Qed.

(** X16.  The columns of the table [transform] returns are those of its
    input, in their order, followed by [total_amount] when the input has a
    quantity and a price and no [total_amount] yet; no column is dropped or
    moved. *)
Theorem transform_columns (df out : DataFrame) (s s' : state) :
  transform df s = (Ok out, s') ->
  columns out =
  if has_column "quantity" df && has_column "price" df
     && negb (has_column "total_amount" df)
  then columns df ++ ["total_amount"%string] else columns df.
Proof. intros H%transform_Ok. by apply transform_frame_columns. Qed.

(** X17.  [transform] keeps the order of the rows and adds none: the rows
    of its output come one each from a subsequence of the rows of the
    input, and agree with them on every column other than [date],
    [quantity], [price] and [total_amount].  So the output has at most as
    many rows as the input has without its duplicates. *)
Theorem transform_keeps_row_order (df out : DataFrame) (s s' : state) :
  transform df s = (Ok out, s') ->
  (exists kept : list row,
     sublist kept (rows df) /\
     Forall2 (fun r0 r => forall c, c ∉ assigned_columns -> r !! c = r0 !! c)
       kept (rows out)) /\
  len out <= len (drop_duplicates df) <= len df.
Proof.
  intros (kept & Hsub & _ & Hrows)%transform_Ok%transform_frame_trace.
  assert (sublist (rows (drop_duplicates df)) (rows df)) as Hdedup
    by apply select_rows_sublist.
  split.
  - exists kept. split; [by etrans|].
    eapply Forall2_impl; [exact Hrows|]. by intros r0 r [H _].
  - apply Forall2_length in Hrows. apply sublist_length in Hsub, Hdedup.
    unfold len. lia.
Qed.

(** X18.  Every row [transform] returns has its identifier, unchanged
    from a row of the input whose identifier and date were present, and a
    date of the datetime type: the conversion of that row's date.  The
    date is a timestamp, unless the source holds a value the conversion
    reads as missing, the smallest [int64], the empty text or one of the
    texts [NaT], [nat], [NAT], [nan], [NaN], [NAN]: then the row is
    returned with the missing date [NaT]. *)
Theorem transform_rows_identified_and_dated (df out : DataFrame) (s s' : state)
    (r : row) :
  transform df s = (Ok out, s') ->
  r ∈ rows out ->
  notna (get r "transaction_id") = true /\
  is_datetime (get r "date") = true /\
  exists r0,
    r0 ∈ rows df /\
    get r "transaction_id" = get r0 "transaction_id" /\
    notna (get r0 "date") = true /\
    to_datetime_scalar parse_datetime datetime_of_float (get r0 "date")
      = Ok (get r "date") /\
    is_timestamp (get r "date") = negb (read_as_NaT (get r0 "date")).
Proof.
  intros (kept & Hsub & Hkept & Hrows)%transform_Ok%transform_frame_trace Hr.
  destruct (Forall2_elem_r _ _ _ _ Hrows Hr) as (r0 & Hr0 & Hu & Hd).
  pose proof (proj1 (Forall_forall _ _) Hkept r0 Hr0) as [Hid Hdate].
  assert (get r "transaction_id" = get r0 "transaction_id") as Heq.
  { unfold get. rewrite Hu; [done|]. intros Hin.
    repeat (apply elem_of_cons in Hin as [Hin | Hin]; [discriminate|]).
    by apply elem_of_nil in Hin. }
  destruct (to_datetime_scalar_datetime _ _ _ _ Hd) as [Hdt Hts].
  split; [by rewrite Heq|]. split; [done|].
  exists r0. split.
  - eapply elem_of_sublist; [exact Hr0|].
    etrans; [exact Hsub|]. apply select_rows_sublist.
  - repeat split; try done. by apply Hts.
Qed.

Lemma convert_date_empty (d : DataFrame) :
  rows d = [] -> has_column "date" d = true ->
  exists d', convert_date d = Ok d' /\ rows d' = [].
Proof.
  destruct d as [cols rs]. simpl. intros -> Hcol.
  unfold convert_date, getitem, setitem. rewrite Hcol. simpl. by eexists.
Qed.

Lemma derive_total_amount_empty (d : DataFrame) :
  rows d = [] -> has_column "quantity" d = true -> has_column "price" d = true ->
  exists d', derive_total_amount d = Ok d' /\ rows d' = [].
Proof.
  destruct d as [cols rs]. simpl. intros -> Hq Hp.
  unfold derive_total_amount, getitem, setitem. rewrite Hq, Hp. simpl.
  by eexists.
Qed.

Lemma coerce_numeric_empty (col : string) (d : DataFrame) :
  rows d = [] -> has_column col d = true ->
  exists d', coerce_numeric col d = Ok d' /\ rows d' = [].
Proof.
  intros Hrows Hcol.
  destruct (coerce_numeric_total col d Hcol) as [d' Hd']. exists d'.
  split; [done|].
  apply coerce_numeric_Ok in Hd' as (_ & _ & h & _ & _ & ->). by rewrite Hrows.
Qed.

Lemma keep_positive_empty (col : string) (d : DataFrame) :
  rows d = [] -> has_column col d = true ->
  exists d', keep_positive col d = Ok d' /\ rows d' = [].
Proof.
  destruct d as [cols rs]. simpl. intros -> Hcol.
  unfold keep_positive, getitem, bool_index. rewrite Hcol. simpl. by eexists.
Qed.

(** X19.  On a table without rows that has the two required columns,
    [transform] raises nothing: it returns a table without rows, and logs
    that it removed no duplicate and has no record ready. *)
Theorem transform_empty_table (df : DataFrame) (s : state) :
  rows df = [] ->
  has_column "transaction_id" df = true ->
  has_column "date" df = true ->
  exists out,
    rows out = [] /\
    transform df s =
    (Ok out,
     with_log s (log s ++ [(INFO, MsgTransformStart);
                           (INFO, MsgRemovedDuplicates 0);
                           (INFO, MsgTransformDone 0)])).
Proof.
  intros Hrows Hid Hdate.
  assert (exists out, transform_frame df = Ok out /\ rows out = [])
    as (out & Hout & Hempty).
  { unfold transform_frame.
    rewrite (dropna_id _ (drop_duplicates df)).
    2:{ intros c Hc. change (columns (drop_duplicates df)) with (columns df).
        apply has_column_spec.
        apply elem_of_cons in Hc as [->|Hc]; [done|].
        apply list_elem_of_singleton in Hc as ->. done. }
    2:{ intros c _ r Hr. unfold drop_duplicates, bool_index, duplicated in Hr.
        rewrite Hrows in Hr. by apply elem_of_nil in Hr. }
    assert (rows (drop_duplicates df) = []) as R0.
    { unfold drop_duplicates, bool_index, duplicated. by rewrite Hrows. }
    cbn [mbind result_mbind result_bind].
    change (has_column "date" (drop_duplicates df)) with (has_column "date" df).
    rewrite Hdate.
    destruct (convert_date_empty (drop_duplicates df) R0 Hdate)
      as (d2 & -> & R2).
    cbn [mbind result_mbind result_bind].
    assert (exists d3,
              (if has_column "quantity" d2 && has_column "price" d2
               then derive_total_amount d2 else Ok d2) = Ok d3 /\ rows d3 = [])
      as (d3 & -> & R3).
    { destruct (has_column "quantity" d2) eqn:Hq, (has_column "price" d2) eqn:Hp;
        simpl; try (by exists d2).
      by apply derive_total_amount_empty. }
    cbn [mbind result_mbind result_bind].
    assert (exists d4,
              (if has_column "quantity" d3 then coerce_numeric "quantity" d3
               else Ok d3) = Ok d4 /\ rows d4 = [])
      as (d4 & -> & R4).
    { destruct (has_column "quantity" d3) eqn:Hq; [|by exists d3].
      by apply coerce_numeric_empty. }
    cbn [mbind result_mbind result_bind].
    assert (exists d5,
              (if has_column "price" d4 then coerce_numeric "price" d4
               else Ok d4) = Ok d5 /\ rows d5 = [])
      as (d5 & -> & R5).
    { destruct (has_column "price" d4) eqn:Hp; [|by exists d4].
      by apply coerce_numeric_empty. }
    cbn [mbind result_mbind result_bind].
    assert (exists d6,
              (if has_column "quantity" d5 then keep_positive "quantity" d5
               else Ok d5) = Ok d6 /\ rows d6 = [])
      as (d6 & -> & R6).
    { destruct (has_column "quantity" d5) eqn:Hq; [|by exists d5].
      by apply keep_positive_empty. }
    cbn [mbind result_mbind result_bind].
    destruct (has_column "price" d6) eqn:Hp; [|by exists d6].
    by apply keep_positive_empty. }
  exists out. split; [done|].
  rewrite transform_unfold, Hout.
  unfold len, drop_duplicates, bool_index, duplicated. cbn [rows].
  by rewrite Hrows, Hempty.
Qed.

(** X20.  [transform] acts on nothing but the log: it leaves the
    configuration, the engine, the destination and the calls issued as
    they were, adds records to the log, and returns or raises the same
    whatever the state of the pipeline. *)
Theorem transform_only_logs (df : DataFrame) (s s0 : state) :
  self_config (transform df s).2 = self_config s /\
  self_engine (transform df s).2 = self_engine s /\
  db (transform df s).2 = db s /\
  sql_log (transform df s).2 = sql_log s /\
  (exists records, log (transform df s).2 = log s ++ records) /\
  (transform df s).1 = (transform df s0).1.
Proof.
  rewrite !transform_unfold.
  destruct (transform_frame df); repeat split; by eexists.
Qed.

(** X21.  [transform] can raise in three ways only: a [KeyError] when the
    table lacks the [transaction_id] or the [date] column; the error of
    the date conversion on a row of the input that has its identifier and
    its date; the error of the multiplication on the quantity and the
    price of a row of the input.  The coercion to numbers and the two
    comparisons with zero never raise. *)
Theorem transform_failure_causes (df : DataFrame) (s s' : state) (e : exn) :
  transform df s = (Raise e, s') ->
  (exists c,
     (c = "transaction_id"%string \/ c = "date"%string) /\
     has_column c df = false /\ e = KeyError c) \/
  (exists r,
     r ∈ rows df /\
     notna (get r "transaction_id") = true /\ notna (get r "date") = true /\
     to_datetime_scalar parse_datetime datetime_of_float (get r "date") = Raise e) \/
  (has_column "quantity" df = true /\ has_column "price" df = true /\
   exists r,
     r ∈ rows df /\
     cell_mul (get r "quantity") (get r "price") = Raise e).
Proof.
  intros H. apply transform_frame_Raise.
  revert H. rewrite transform_unfold.
  destruct (transform_frame df); [discriminate|]. by intros [= ->].
Qed.

End TransformShape.

(** ** [validate_data]: its counts, and the report on a transformed table *)

Lemma lookup_keyed {V} (f : string -> V) (cols : list string) (c : string) :
  (list_to_map (map (fun k => (k, f k)) cols) : gmap string V) !! c =
  if bool_decide (c ∈ cols) then Some (f c) else None.
Proof.
  induction cols as [|k cols IH].
  - destruct (bool_decide_reflect (c ∈ [])) as [Hin | _]; [|done].
    by apply elem_of_nil in Hin.
  - change (list_to_map (map (fun k => (k, f k)) (k :: cols)) : gmap string V)
      with (<[k := f k]> (list_to_map (map (fun k => (k, f k)) cols) : gmap string V)).
    destruct (decide (k = c)) as [->|Hne].
    + rewrite lookup_insert_eq.
      by rewrite bool_decide_eq_true_2 by apply list_elem_of_here.
    + rewrite lookup_insert_ne by done. rewrite IH.
      apply (f_equal (fun b : bool => if b then Some (f c) else None)).
      apply bool_decide_ext. rewrite elem_of_cons.
      split; [by right|]. by intros [Heq | Hin]; [subst|].
Qed.

Lemma duplicated_first (cols : list string) (r : row) (rs : list row) :
  duplicated_from cols [] (r :: rs) = false :: duplicated_from cols [r] rs.
Proof. reflexivity. Qed.

Lemma drop_duplicates_no_duplicates (df : DataFrame) :
  no_duplicates (columns df) (drop_duplicates df) = true.
Proof.
  apply no_duplicates_spec. intros i j ri rj Hji Hi Hj.
  apply row_eqb_false.
  destruct (kept_rows_distinct (columns df) (rows df) []) as [_ Hdistinct].
  by apply (Hdistinct j i rj ri).
Qed.

(** X22.  The report of [validate_data]: the number of rows; for each
    column of the table, and for no other name, the number of its missing
    cells, between zero and the number of rows; the number of duplicate
    rows, which is less than the number of rows unless the table is empty,
    since a first row is never a duplicate; the columns as they are. *)
Theorem validate_data_counts (df : DataFrame) :
  total_records (validate_data df) = len df /\
  columns_ (validate_data df) = columns df /\
  (forall c,
     missing_values (validate_data df) !! c =
     if has_column c df then Some (count_missing df c) else None) /\
  (forall c, 0 <= count_missing df c <= len df) /\
  0 <= duplicate_records (validate_data df) <= len df /\
  (rows df <> [] -> duplicate_records (validate_data df) < len df) /\
  (forall c, is_Some (data_types (validate_data df) !! c) <-> c ∈ columns df).
Proof.
  split; [done|]. split; [done|]. split; [|split; [|split; [|split]]].
  - intros c. unfold validate_data, null_counts, count_missing, column, has_column.
    cbn [missing_values].
    rewrite (lookup_keyed
               (fun c => count_true (map (fun r => isna (get r c)) (rows df)))).
    by rewrite map_map.
  - intros c. unfold count_missing, column, len.
    pose proof (count_true_bounds (map isna (map (fun r => get r c) (rows df)))) as H.
    by rewrite !length_map in H.
  - unfold validate_data, duplicated, len. cbn [duplicate_records].
    pose proof (count_true_bounds (duplicated_from (columns df) [] (rows df))) as H.
    by rewrite duplicated_from_length in H.
  - unfold validate_data, duplicated, len. cbn [duplicate_records].
    destruct (rows df) as [|r rs]; [done|]. intros _.
    rewrite duplicated_first. unfold count_true.
    rewrite filter_cons_False by done.
    pose proof (length_filter (fun b => b = true) (duplicated_from (columns df) [r] rs)) as H.
    rewrite duplicated_from_length in H. simpl. lia.
  - intros c. unfold validate_data, dtypes. cbn [data_types].
    rewrite (lookup_keyed
               (fun c => dtype_of (map (fun r => get r c) (rows df)))).
    destruct (bool_decide_reflect (c ∈ columns df)) as [Hin | Hout].
    + split; [done|]. by eexists.
    + split; [by intros [? [=]]|done].
Qed.

(** X23.  After [drop_duplicates] the report counts no duplicate, and as
    many rows as the report of the original counts rows less duplicates;
    dropping duplicates a second time changes nothing. *)
Theorem validate_data_after_drop_duplicates (df : DataFrame) :
  duplicate_records (validate_data (drop_duplicates df)) = 0 /\
  total_records (validate_data (drop_duplicates df)) =
    total_records (validate_data df) - duplicate_records (validate_data df) /\
  drop_duplicates (drop_duplicates df) = drop_duplicates df.
Proof.
  assert (drop_duplicates (drop_duplicates df) = drop_duplicates df) as Hid
    by (apply drop_duplicates_id; exact (drop_duplicates_no_duplicates df)).
  split; [|split; [|done]].
  - unfold validate_data. cbn [duplicate_records].
    rewrite duplicated_count, Hid. lia.
  - unfold validate_data. cbn [total_records duplicate_records].
    rewrite duplicated_count. lia.
Qed.

Section ValidateTransformed.

Context {ext : Externals}.

(** X24.  The report on a table [transform] returned: no identifier is
    missing, no quantity and no price is missing where the input had the
    column, and the rows are at most those of the input less its
    duplicates, as the report on the input counts them. *)
Theorem validate_data_after_transform (df out : DataFrame) (s s' : state) :
  transform df s = (Ok out, s') ->
  missing_values (validate_data out) !! "transaction_id"%string = Some 0 /\
  (forall col,
     col = "quantity"%string \/ col = "price"%string ->
     has_column col df = true ->
     missing_values (validate_data out) !! col = Some 0) /\
  total_records (validate_data out) <=
    total_records (validate_data df) - duplicate_records (validate_data df).
Proof.
  intros Hrun%transform_Ok.
  pose proof (transform_frame_columns df out Hrun) as Hcols.
  pose proof (transform_frame_trace df out Hrun) as (kept & Hsub & Hkept & Hrows).
  pose proof (transform_frame_Ok df out Hrun)
    as (d1 & _ & _ & _ & _ & _ & H1 & _).
  apply dropna_Ok in H1 as (Hreq & _ & _).
  change (columns (drop_duplicates df)) with (columns df) in Hreq.
  assert (forall c, c ∈ columns df -> has_column c out = true) as Hhas.
  { intros c Hc. apply has_column_spec. rewrite Hcols.
    destruct (_ && _); [|done]. apply elem_of_app. by left. }
  assert (forall c,
            c ∈ columns df ->
            (forall r, r ∈ rows out -> isna (get r c) = false) ->
            missing_values (validate_data out) !! c = Some 0) as Hzero.
  { intros c Hc Hnotna. unfold validate_data, null_counts. cbn [missing_values].
    rewrite (lookup_keyed
               (fun c => count_true (map (fun r => isna (get r c)) (rows out)))).
    fold (has_column c out). rewrite (Hhas c Hc). f_equal.
    apply count_true_none, Forall_forall.
    intros b (r & -> & Hr)%list_elem_of_fmap. by apply Hnotna. }
  split; [|split].
  - apply Hzero; [apply Hreq, list_elem_of_here|].
    intros r Hr.
    destruct (Forall2_elem_r _ _ _ _ Hrows Hr) as (r0 & Hr0 & Hu & _).
    pose proof (proj1 (Forall_forall _ _) Hkept r0 Hr0) as [Hid _].
    unfold get. rewrite Hu.
    + unfold notna, get in Hid. by apply negb_true_iff in Hid.
    + intros Hin.
      repeat (apply elem_of_cons in Hin as [Hin | Hin]; [discriminate|]).
      by apply elem_of_nil in Hin.
  - intros col Hcol Hpresent. apply Hzero; [by apply has_column_spec|].
    intros r Hr. apply gt0_notna, positive_gt0.
    by apply (transform_frame_positive df out col Hrun Hcol Hpresent).
  - unfold validate_data. cbn [total_records duplicate_records].
    rewrite duplicated_count.
    apply Forall2_length in Hrows. apply sublist_length in Hsub.
    unfold len. lia.
Qed.

End ValidateTransformed.

(** ** The properties on concrete inputs *)

Import Fixtures.

(** The scenario of the specification: of the four rows of [sample] the
    first survives, with its total. *)
Example transform_sample :
  transform (ext := reliable) sample (connected 2) =
  (Ok sample_clean, transformed 2 1 1).
Proof. reflexivity. Qed.

(** An empty table: the validation report counts nothing. *)
Example validate_empty :
  total_records (validate_data empty_frame) = 0 /\
  duplicate_records (validate_data empty_frame) = 0 /\
  missing_values (validate_data empty_frame) !! "date"%string = Some 0.
Proof. repeat split; reflexivity. Qed.

(** Five rows in batches of two, on a connected pipeline. *)
Lemma load_writes_batches_witness :
  0 < batch_size (self_config (connected 2)) /\
  self_engine (connected 2) = Some engine /\
  Z.of_nat (length (planned_calls five "fact_transactions" replace 2)) =
    (len five + 2 - 1) / 2 /\
  concat (map call_rows (planned_calls five "fact_transactions" replace 2)) =
    rows five.
Proof.
  pose proof (load_writes_batches (ext := reliable) five "fact_transactions"
                replace (connected 2) engine
                ltac:(reflexivity) ltac:(reflexivity))
    as (H1 & _ & _ & H4 & _).
  split; [reflexivity|]. split; [reflexivity|]. split; [exact H1|exact H4].
Defined.

(** Five rows in batches of two into a destination that is lost once the
    table holds two rows: the second write fails, the first batch stays. *)
Lemma load_stops_at_failed_batch_witness :
  0 < batch_size (self_config (connected 2)) /\
  self_engine (connected 2) = Some engine /\
  planned_calls five "fact_transactions" replace 2 =
    [batch_call five "fact_transactions" replace 2 0]
    ++ batch_call five "fact_transactions" replace 2 2
       :: [batch_call five "fact_transactions" replace 2 4] /\
  sql_exec_seq (ext := flaky) ∅ [batch_call five "fact_transactions" replace 2 0] =
    Ok (<["fact_transactions"%string := take 2 (rows five)]> ∅) /\
  sql_exec (ext := flaky) (<["fact_transactions"%string := take 2 (rows five)]> ∅)
    (batch_call five "fact_transactions" replace 2 2) =
    Raise (SQLAlchemyError "connection lost") /\
  exists s',
    load (ext := flaky) five "fact_transactions" replace (connected 2) = (Ok false, s') /\
    sql_log s' =
      [batch_call five "fact_transactions" replace 2 0]
      ++ [batch_call five "fact_transactions" replace 2 2] /\
    db s' !! "fact_transactions"%string = Some (take 2 (rows five)).
Proof.
  assert (planned_calls five "fact_transactions" replace 2 =
            [batch_call five "fact_transactions" replace 2 0]
            ++ batch_call five "fact_transactions" replace 2 2
               :: [batch_call five "fact_transactions" replace 2 4]) as Hplan
    by reflexivity.
  assert (sql_exec_seq (ext := flaky) ∅
            [batch_call five "fact_transactions" replace 2 0] =
          Ok (<["fact_transactions"%string := take 2 (rows five)]> ∅)) as Hpre
    by reflexivity.
  assert (sql_exec (ext := flaky)
            (<["fact_transactions"%string := take 2 (rows five)]> ∅)
            (batch_call five "fact_transactions" replace 2 2) =
          Raise (SQLAlchemyError "connection lost")) as Hw
    by reflexivity.
  split; [reflexivity|]. split; [reflexivity|].
  split; [exact Hplan|]. split; [exact Hpre|]. split; [exact Hw|].
  destruct (load_stops_at_failed_batch (ext := flaky) five "fact_transactions"
              replace (connected 2) engine _ _ _ _ _
              ltac:(reflexivity) ltac:(reflexivity) Hplan Hpre Hw)
    as (s' & Hload & Hlog & Hdb & _).
  exists s'. split; [exact Hload|]. split; [exact Hlog|].
  rewrite Hdb. apply lookup_insert_eq.
Defined.

(** The surviving row of [sample]: 2 times 5.0 is 10.0. *)
Lemma total_amount_from_input_values_witness :
  has_column "quantity" sample = true /\
  has_column "price" sample = true /\
  transform (ext := reliable) sample (connected 2) =
    (Ok sample_clean, transformed 2 1 1) /\
  has_column "total_amount" sample_clean = true /\
  cell_mul (get sample_row "quantity") (get sample_row "price") =
    Ok (get sample_row "total_amount").
Proof.
  assert (transform (ext := reliable) sample (connected 2) =
            (Ok sample_clean, transformed 2 1 1)) as Hrun
    by reflexivity.
  pose proof (total_amount_from_input_values (ext := reliable) sample
                sample_clean (connected 2) (transformed 2 1 1)
                ltac:(reflexivity) ltac:(reflexivity) Hrun)
    as (Htotal & _ & Hproduct).
  split; [reflexivity|]. split; [reflexivity|]. split; [exact Hrun|].
  split; [exact Htotal|].
  apply (Hproduct ltac:(reflexivity) ltac:(reflexivity)).
  apply list_elem_of_here.
Defined.

(** The surviving row of [sample] has a positive quantity and price. *)
Lemma transform_rows_positive_witness :
  transform (ext := reliable) sample (connected 2) =
    (Ok sample_clean, transformed 2 1 1) /\
  cell_gt0 (get sample_row "quantity") = Ok true /\
  cell_gt0 (get sample_row "price") = Ok true.
Proof.
  assert (transform (ext := reliable) sample (connected 2) =
            (Ok sample_clean, transformed 2 1 1)) as Hrun
    by reflexivity.
  pose proof (transform_rows_positive (ext := reliable) sample sample_clean
                (connected 2) (transformed 2 1 1) Hrun) as (Hpos & _).
  split; [exact Hrun|]. split.
  - apply (Hpos sample_row "quantity"%string);
      [apply list_elem_of_here|by left|reflexivity].
  - apply (Hpos sample_row "price"%string);
      [apply list_elem_of_here|by right|reflexivity].
Defined.


(** The scenario of the specification: a [.json] source. *)
Lemma unsupported_format_aborts_run_witness :
  endswith "data/sample_transactions.json" ".csv" = false /\
  endswith "data/sample_transactions.json" ".xlsx" = false /\
  exists s' records,
    run (ext := reliable) "data/sample_transactions.json" "fact_transactions"
      (fresh 1000) = (Ok false, s') /\
    db s' = db (fresh 1000) /\ sql_log s' = sql_log (fresh 1000) /\
    log s' = log (fresh 1000) ++ records /\
    ((INFO, MsgTransformStart) ∉ records) /\
    (forall t, (INFO, MsgLoadStart t) ∉ records).
Proof.
  split; [reflexivity|]. split; [reflexivity|].
  exact (proj2 (unsupported_format_aborts_run (ext := reliable)
                  "data/sample_transactions.json" "fact_transactions"
                  (fresh 1000) eq_refl eq_refl)).
Defined.

(** [five] with its totals set: a clean table that carries consistent
    totals. *)
Lemma transform_twice_on_clean_witness :
  already_clean (with_total five) = true /\
  exists out s1' s2',
    transform (ext := reliable) (with_total five) (connected 2) = (Ok out, s1') /\
    transform (ext := reliable) out (connected 2) = (Ok out, s2') /\
    out = with_total (with_total five) /\
    already_clean out = true.
Proof.
  assert (already_clean (with_total five) = true) as Hclean by reflexivity.
  split; [exact Hclean|].
  exact (transform_twice_on_clean (ext := reliable) (with_total five)
           (connected 2) (connected 2) Hclean).
Defined.

(** A pipeline that was never connected. *)
Lemma load_without_connection_witness :
  self_engine (fresh 2) = None /\
  load (ext := reliable) five "fact_transactions" append (fresh 2) =
    (Ok false,
     with_log (fresh 2)
       (log (fresh 2) ++
        [(INFO, MsgLoadStart "fact_transactions");
         (ERROR, MsgLoadError (RuntimeError "Database connection not established"))])).
Proof.
  split; [reflexivity|].
  exact (proj1 (load_without_connection (ext := reliable) five
                  "fact_transactions" append (fresh 2) eq_refl)).
Defined.

(** C3 as stated fails on text operands.  With a quantity column of text
    next to a [float64] price the multiplication raises and the stage
    fails; next to an [int64] price it repeats the text, so that the row
    whose quantity ["2"] is coerced to [2.0] carries the total ["22222"],
    neither the missing marker nor the product. *)
Lemma total_amount_text_operand_counterexample :
  has_column "quantity" text_quantity = true /\
  has_column "price" text_quantity = true /\
  (transform (ext := reliable) text_quantity (connected 2)).1 =
    Raise (TypeError "can't multiply sequence by non-int of type 'float'") /\
  (transform (ext := reliable) text_quantity_int_price (connected 2)).1 =
    Ok repeated_text /\
  (forall r, r ∈ rows repeated_text ->
     get r "quantity" = Float (Float64.of_int 2) /\ get r "price" = Int 5 /\
     get r "total_amount" = Str "22222" /\
     get r "total_amount" <> NaN /\
     cell_mul (get r "quantity") (get r "price") <> Ok (get r "total_amount")).
Proof.
  split; [reflexivity|]. split; [reflexivity|].
  split; [reflexivity|]. split; [reflexivity|].
  intros r Hr. apply list_elem_of_singleton in Hr as ->.
  split; [reflexivity|]. split; [reflexivity|]. split; [reflexivity|].
  split; [discriminate|]. vm_compute. discriminate.
Qed.

(** The condition on the totals is needed.  In [stale_totals] two rows
    differ in a [total_amount] that is not their product, and in nothing
    else: both are kept, [transform] gives them the same total, and a
    second [transform] removes one of them as a duplicate. *)
Example stale_totals_transform_twice :
  clean_as_listed stale_totals = true /\
  consistent_totals stale_totals = false /\
  (transform (ext := reliable) stale_totals (connected 2)).1 = Ok doubled_totals /\
  (transform (ext := reliable) doubled_totals (connected 2)).1 = Ok sample_clean /\
  sample_clean <> doubled_totals.
Proof.
  split; [reflexivity|].
  split; [reflexivity|].
  split; [reflexivity|].
  split; [reflexivity|].
  intros H. apply (f_equal (fun d => length (rows d))) in H. discriminate.
Qed.

(** ** The further properties on concrete inputs *)

(** A batch size of zero. *)
Lemma load_zero_batch_size_witness :
  self_engine (connected 0) = Some engine /\
  batch_size (self_config (connected 0)) = 0 /\
  load (ext := reliable) five "fact_transactions" append (connected 0) =
    (Ok false,
     with_log (connected 0)
       (log (connected 0) ++
        [(INFO, MsgLoadStart "fact_transactions");
         (ERROR, MsgLoadError ZeroDivisionError)])).
Proof.
  split; [reflexivity|]. split; [reflexivity|].
  exact (load_zero_batch_size (ext := reliable) five "fact_transactions"
           append (connected 0) engine eq_refl eq_refl).
Defined.

(** A batch size of minus two: five rows reported as loaded, none written. *)
Lemma load_negative_batch_size_witness :
  self_engine (connected (-2)) = Some engine /\
  batch_size (self_config (connected (-2))) < 0 /\
  load (ext := reliable) five "fact_transactions" append (connected (-2)) =
    (Ok true,
     with_log (connected (-2))
       (log (connected (-2)) ++
        [(INFO, MsgLoadStart "fact_transactions");
         (INFO, MsgLoadDone 5 "fact_transactions")])).
Proof.
  split; [reflexivity|]. split; [reflexivity|].
  exact (load_negative_batch_size (ext := reliable) five "fact_transactions"
           append (connected (-2)) engine eq_refl eq_refl).
Defined.

(** Five rows in mode [fail] into a destination that has the table. *)
Lemma load_fail_mode_on_existing_table_witness :
  self_engine (with_table 2) = Some engine /\
  0 < batch_size (self_config (with_table 2)) /\
  rows five <> [] /\
  db (with_table 2) !! "fact_transactions"%string = Some [sample_row] /\
  exists s' c,
    load (ext := reliable) five "fact_transactions" fail (with_table 2) =
      (Ok false, s') /\
    sql_log s' = sql_log (with_table 2) ++ [c] /\
    call_table c = "fact_transactions"%string /\ call_if_exists c = fail /\
    call_rows c = take 2 (rows five) /\
    db s' = db (with_table 2).
Proof.
  assert (rows five <> []) as Hne by discriminate.
  assert (db (with_table 2) !! "fact_transactions"%string = Some [sample_row])
    as Hold by reflexivity.
  split; [reflexivity|]. split; [reflexivity|].
  split; [exact Hne|]. split; [exact Hold|].
  exact (load_fail_mode_on_existing_table (ext := reliable) five
           "fact_transactions" (with_table 2) engine [sample_row]
           eq_refl eq_refl Hne Hold).
Defined.

(** The file of the specification's scenario. *)
Lemma extract_reader_outcome_witness :
  endswith "data/sample_transactions.csv" ".csv" = true /\
  extract (ext := reliable) "data/sample_transactions.csv" (connected 2) =
    (Ok sample,
     with_log (connected 2)
       (log (connected 2) ++
        [(INFO, MsgExtractStart "data/sample_transactions.csv");
         (INFO, MsgExtracted 4 "data/sample_transactions.csv")])).
Proof.
  split; [reflexivity|].
  exact (extract_reader_outcome (ext := reliable)
           "data/sample_transactions.csv" (connected 2) (or_introl eq_refl)).
Defined.

(** An engine factory that rejects the URL. *)
Lemma run_connection_failure_witness :
  create_engine (Externals := unreachable)
    (connection_string (self_config (fresh 2))) =
    Raise (SQLAlchemyError "Could not parse SQLAlchemy URL") /\
  run (ext := unreachable) "data/sample_transactions.csv" "fact_transactions"
    (fresh 2) =
    (Ok false,
     with_log (fresh 2)
       (log (fresh 2)
        ++ run_header "data/sample_transactions.csv" "fact_transactions"
        ++ [(ERROR, MsgDbConnectFailed
                      (SQLAlchemyError "Could not parse SQLAlchemy URL"))])).
Proof.
  split; [reflexivity|].
  exact (run_connection_failure (ext := unreachable)
           "data/sample_transactions.csv" "fact_transactions" (fresh 2)
           _ eq_refl).
Defined.

(** A [.csv] file that does not exist. *)
Lemma run_extract_failure_witness :
  create_engine (Externals := reliable)
    (connection_string (self_config (fresh 2))) = Ok engine /\
  (extract (ext := reliable) "data/missing.csv" (fresh 2)).1 =
    Raise (OSError "No such file or directory") /\
  exists s',
    run (ext := reliable) "data/missing.csv" "fact_transactions" (fresh 2) =
      (Ok false, s') /\
    self_engine s' = Some engine /\ db s' = ∅ /\ sql_log s' = [].
Proof.
  split; [reflexivity|]. split; [reflexivity|].
  eexists. split; [|split; [|split]].
  - exact (run_extract_failure (ext := reliable) "data/missing.csv"
             "fact_transactions" (fresh 2) (fresh 2)
             (extract (ext := reliable) "data/missing.csv" (fresh 2)).2
             engine _ eq_refl eq_refl).
  - reflexivity.
  - reflexivity.
  - reflexivity.
Defined.

(** A file with a date that does not parse. *)
Lemma run_transform_failure_witness :
  create_engine (Externals := reliable_two_files)
    (connection_string (self_config (fresh 2))) = Ok engine /\
  (extract (ext := reliable_two_files) "data/bad_date.csv" (fresh 2)).1 =
    Ok bad_date /\
  (transform (ext := reliable_two_files) bad_date (fresh 2)).1 =
    Raise (ValueError "Unknown datetime string format, unable to parse: yesterday") /\
  exists s',
    run (ext := reliable_two_files) "data/bad_date.csv" "fact_transactions"
      (fresh 2) = (Ok false, s') /\
    self_engine s' = Some engine /\ db s' = ∅ /\ sql_log s' = [].
Proof.
  split; [reflexivity|]. split; [reflexivity|]. split; [reflexivity|].
  eexists. split; [|split; [|split]].
  - exact (run_transform_failure (ext := reliable_two_files)
             "data/bad_date.csv" "fact_transactions" (fresh 2) (fresh 2)
             (extract (ext := reliable_two_files) "data/bad_date.csv" (fresh 2)).2
             (fresh 2)
             (transform (ext := reliable_two_files) bad_date (fresh 2)).2
             engine bad_date _ eq_refl eq_refl eq_refl).
  - reflexivity.
  - reflexivity.
  - reflexivity.
Defined.

(** The scenario of the specification, run against a destination that
    already holds the table: the surviving row is added after the old
    one. *)
Lemma run_appends_clean_rows_witness :
  create_engine (Externals := reliable)
    (connection_string (self_config (with_table 2))) = Ok engine /\
  (extract (ext := reliable) "data/sample_transactions.csv" (fresh 2)).1 =
    Ok sample /\
  transform (ext := reliable) sample (connected 2) =
    (Ok sample_clean, transformed 2 1 1) /\
  0 < batch_size (self_config (with_table 2)) /\
  exists s',
    run (ext := reliable) "data/sample_transactions.csv" "fact_transactions"
      (with_table 2) = (Ok true, s') /\
    db s' !! "fact_transactions"%string = Some ([sample_row] ++ [sample_row]) /\
    (INFO, MsgRecordsProcessed 1) ∈ log s'.
Proof.
  assert (transform (ext := reliable) sample (connected 2) =
            (Ok sample_clean, transformed 2 1 1)) as Htransform
    by reflexivity.
  split; [reflexivity|]. split; [reflexivity|]. split; [exact Htransform|].
  split; [reflexivity|].
  destruct (run_appends_clean_rows (ext := reliable)
              "data/sample_transactions.csv" "fact_transactions"
              (with_table 2) (fresh 2)
              (extract (ext := reliable) "data/sample_transactions.csv" (fresh 2)).2
              (connected 2) (transformed 2 1 1) engine sample sample_clean
              eq_refl eq_refl Htransform eq_refl (fun _ _ => eq_refl))
    as (s' & Hrun & _ & _ & Htable & _ & Hlog).
  exists s'. split; [exact Hrun|]. split; [exact Htable|exact Hlog].
Defined.

(** Five clean rows in batches of two, against a destination that is lost
    once the table holds two rows: the run fails at the second batch and
    the first stays. *)
Lemma run_keeps_partial_load_witness :
  create_engine (Externals := flaky_three_files)
    (connection_string (self_config (fresh 2))) = Ok engine /\
  (extract (ext := flaky_three_files) "data/five.csv" (fresh 2)).1 = Ok five /\
  (transform (ext := flaky_three_files) five (fresh 2)).1 = Ok (with_total five) /\
  0 < batch_size (self_config (fresh 2)) /\
  planned_calls (with_total five) "fact_transactions" append 2 =
    [batch_call (with_total five) "fact_transactions" append 2 0]
    ++ batch_call (with_total five) "fact_transactions" append 2 2
       :: [batch_call (with_total five) "fact_transactions" append 2 4] /\
  exists s',
    run (ext := flaky_three_files) "data/five.csv" "fact_transactions" (fresh 2) =
      (Ok false, s') /\
    sql_log s' =
      [batch_call (with_total five) "fact_transactions" append 2 0]
      ++ [batch_call (with_total five) "fact_transactions" append 2 2] /\
    db s' !! "fact_transactions"%string = Some (take 2 (rows (with_total five))) /\
    (ERROR, MsgLoadError (SQLAlchemyError "connection lost")) ∈ log s'.
Proof.
  assert (planned_calls (with_total five) "fact_transactions" append 2 =
            [batch_call (with_total five) "fact_transactions" append 2 0]
            ++ batch_call (with_total five) "fact_transactions" append 2 2
               :: [batch_call (with_total five) "fact_transactions" append 2 4])
    as Hplan by reflexivity.
  split; [reflexivity|]. split; [reflexivity|]. split; [reflexivity|].
  split; [reflexivity|]. split; [exact Hplan|].
  destruct (run_keeps_partial_load (ext := flaky_three_files)
              "data/five.csv" "fact_transactions" (fresh 2) (fresh 2)
              (extract (ext := flaky_three_files) "data/five.csv" (fresh 2)).2
              (fresh 2)
              (transform (ext := flaky_three_files) five (fresh 2)).2
              engine five (with_total five)
              [batch_call (with_total five) "fact_transactions" append 2 0]
              (batch_call (with_total five) "fact_transactions" append 2 2)
              [batch_call (with_total five) "fact_transactions" append 2 4]
              (<["fact_transactions"%string := take 2 (rows (with_total five))]> ∅)
              (SQLAlchemyError "connection lost")
              eq_refl eq_refl eq_refl eq_refl Hplan eq_refl eq_refl)
    as (s' & Hrun & Hcalls & Hdb & _ & Herr).
  exists s'. split; [exact Hrun|]. split; [exact Hcalls|].
  split; [|exact Herr].
  rewrite Hdb. apply lookup_insert_eq.
Defined.

(** A table without a date column. *)
Lemma transform_requires_id_and_date_witness :
  has_column "transaction_id" no_date_column && has_column "date" no_date_column
    = false /\
  exists c,
    (c = "transaction_id"%string \/ c = "date"%string) /\
    has_column c no_date_column = false /\
    (transform (ext := reliable) no_date_column (connected 2)).1 =
      Raise (KeyError c).
Proof.
  split; [reflexivity|].
  destruct (proj2 (transform_requires_id_and_date (ext := reliable)
                     no_date_column (connected 2)) eq_refl)
    as (c & Hc & Hmissing & Hrun).
  exists c. split; [exact Hc|]. split; [exact Hmissing|].
  by rewrite Hrun.
Defined.

(** The columns of the specification's scenario: the header, then the
    total. *)
Lemma transform_columns_witness :
  transform (ext := reliable) sample (connected 2) =
    (Ok sample_clean, transformed 2 1 1) /\
  columns sample_clean = header ++ ["total_amount"%string].
Proof.
  assert (transform (ext := reliable) sample (connected 2) =
            (Ok sample_clean, transformed 2 1 1)) as Hrun
    by reflexivity.
  split; [exact Hrun|].
  exact (transform_columns (ext := reliable) sample sample_clean
           (connected 2) (transformed 2 1 1) Hrun).
Defined.

(** Of the four rows of [sample] one is left, out of the three that are
    not duplicates. *)
Lemma transform_keeps_row_order_witness :
  transform (ext := reliable) sample (connected 2) =
    (Ok sample_clean, transformed 2 1 1) /\
  len sample_clean <= len (drop_duplicates sample) <= len sample.
Proof.
  assert (transform (ext := reliable) sample (connected 2) =
            (Ok sample_clean, transformed 2 1 1)) as Hrun
    by reflexivity.
  split; [exact Hrun|].
  exact (proj2 (transform_keeps_row_order (ext := reliable) sample sample_clean
                  (connected 2) (transformed 2 1 1) Hrun)).
Defined.

(** A row dated with the text [NaT] is returned, its date missing. *)
Lemma transform_rows_identified_and_dated_witness :
  (transform (ext := reliable) nat_text_date (connected 2)).1 =
    Ok nat_text_date_clean /\
  notna (get (transaction 1 (Str "NaT") (Int 2) (Float (Float64.of_int 5))) "date")
    = true /\
  forall r, r ∈ rows nat_text_date_clean ->
    notna (get r "transaction_id") = true /\
    is_datetime (get r "date") = true /\
    get r "date" = NaT.
Proof.
  split; [reflexivity|]. split; [reflexivity|].
  intros r Hr.
  destruct (transform_rows_identified_and_dated (ext := reliable)
              nat_text_date nat_text_date_clean (connected 2)
              (transform (ext := reliable) nat_text_date (connected 2)).2
              r eq_refl Hr)
    as (Hid & Hdate & _).
  split; [exact Hid|]. split; [exact Hdate|].
  apply list_elem_of_singleton in Hr as ->. reflexivity.
Defined.

(** A table of the four columns without rows. *)
Lemma transform_empty_table_witness :
  rows empty_frame = [] /\
  has_column "transaction_id" empty_frame = true /\
  has_column "date" empty_frame = true /\
  exists out,
    rows out = [] /\
    transform (ext := reliable) empty_frame (connected 2) =
      (Ok out, transformed 2 0 0).
Proof.
  split; [reflexivity|]. split; [reflexivity|]. split; [reflexivity|].
  exact (transform_empty_table (ext := reliable) empty_frame (connected 2)
           eq_refl eq_refl eq_refl).
Defined.

(** The report on what is left of [sample]. *)
Lemma validate_data_after_transform_witness :
  transform (ext := reliable) sample (connected 2) =
    (Ok sample_clean, transformed 2 1 1) /\
  missing_values (validate_data sample_clean) !! "transaction_id"%string = Some 0 /\
  missing_values (validate_data sample_clean) !! "quantity"%string = Some 0 /\
  total_records (validate_data sample_clean) <=
    total_records (validate_data sample) - duplicate_records (validate_data sample).
Proof.
  assert (transform (ext := reliable) sample (connected 2) =
            (Ok sample_clean, transformed 2 1 1)) as Hrun
    by reflexivity.
  destruct (validate_data_after_transform (ext := reliable) sample sample_clean
              (connected 2) (transformed 2 1 1) Hrun)
    as (Hid & Hnum & Hcount).
  split; [exact Hrun|]. split; [exact Hid|].
  split; [|exact Hcount].
  apply (Hnum "quantity"%string); [by left|reflexivity].
Defined.

(** Five rows in batches of two: three records, numbered one to three. *)
Lemma load_logs_each_batch_witness :
  self_engine (connected 2) = Some engine /\
  0 < batch_size (self_config (connected 2)) /\
  exists s',
    load (ext := reliable) five "fact_transactions" append (connected 2) =
      (Ok true, s') /\
    log s' =
      [(INFO, MsgLoadStart "fact_transactions");
       (INFO, MsgLoadedBatch 1 3); (INFO, MsgLoadedBatch 2 3);
       (INFO, MsgLoadedBatch 3 3);
       (INFO, MsgLoadDone 5 "fact_transactions")].
Proof.
  split; [reflexivity|]. split; [reflexivity|].
  exact (load_logs_each_batch (ext := reliable) five "fact_transactions"
           append (connected 2) engine
           (<["fact_transactions"%string := rows five]> ∅)
           eq_refl eq_refl eq_refl).
Defined.

(** The scenario of the specification, run twice against an empty
    destination: the surviving row is there twice. *)
Lemma run_twice_appends_twice_witness :
  create_engine (Externals := reliable)
    (connection_string (self_config (fresh 2))) = Ok engine /\
  transform (ext := reliable) sample (connected 2) =
    (Ok sample_clean, transformed 2 1 1) /\
  rows sample_clean <> [] /\
  exists s' s'',
    run (ext := reliable) "data/sample_transactions.csv" "fact_transactions"
      (fresh 2) = (Ok true, s') /\
    run (ext := reliable) "data/sample_transactions.csv" "fact_transactions"
      s' = (Ok true, s'') /\
    db s'' !! "fact_transactions"%string = Some ([sample_row] ++ [sample_row]).
Proof.
  assert (transform (ext := reliable) sample (connected 2) =
            (Ok sample_clean, transformed 2 1 1)) as Htransform
    by reflexivity.
  assert (rows sample_clean <> []) as Hne by discriminate.
  split; [reflexivity|]. split; [exact Htransform|]. split; [exact Hne|].
  exact (run_twice_appends_twice (ext := reliable)
           "data/sample_transactions.csv" "fact_transactions"
           (fresh 2) (fresh 2)
           (extract (ext := reliable) "data/sample_transactions.csv" (fresh 2)).2
           (connected 2) (transformed 2 1 1) engine sample sample_clean
           eq_refl eq_refl Htransform eq_refl (fun _ _ => eq_refl) Hne).
Defined.

(** The unparseable date of [bad_date] is the cause of its failure. *)
Lemma transform_failure_causes_witness :
  (transform (ext := reliable) bad_date (connected 2)).1 =
    Raise (ValueError "Unknown datetime string format, unable to parse: yesterday") /\
  exists r,
    r ∈ rows bad_date /\
    to_datetime_scalar known_dates float_epoch (get r "date") =
      Raise (ValueError "Unknown datetime string format, unable to parse: yesterday").
Proof.
  split; [reflexivity|].
  destruct (transform_failure_causes (ext := reliable) bad_date (connected 2)
              (transform (ext := reliable) bad_date (connected 2)).2
              (ValueError "Unknown datetime string format, unable to parse: yesterday")
              eq_refl)
    as [(c & _ & _ & He) | [(r & Hr & _ & _ & He) | (_ & _ & r & Hr & He)]].
  - discriminate He.
  - by exists r.
  - exfalso.
    repeat (apply elem_of_cons in Hr as [-> | Hr]; [discriminate He|]).
    by apply elem_of_nil in Hr.
Defined.
